(** * inlive-python-sdk: signaling session and recording orchestration

    A shallow embedding of the session (`rtc/rtc.py`), the recorders
    (`recorder/recorder.py`, `recorder/media.py`) and the registry
    (`recorder/manager.py`).

    Conventions of the embedding:
    - a method is a function from the object's state to an outcome, the
      state it leaves behind and the list of calls it made on its
      collaborators (the trace), in program order;
    - an exception keeps the mutations made before it was raised, as in
      Python;
    - a coroutine is run to completion: the interleaving of other tasks at
      an `await` is outside the model;
    - the transport engine (aiortc's RTCPeerConnection), the HTTP client,
      `json.loads`, the SDP parsers and the writes of PyAV to an output
      file are collaborators whose answers are taken from an interface,
      never fixed by the model;
    - a `str` is held as its UTF-8 bytes. *)

From Stdlib Require Import String Ascii List ZArith Bool Arith Lia.
From Stdlib Require Import Floats.SpecFloat.
Import ListNotations.
Open Scope string_scope.
Open Scope list_scope.

Set Implicit Arguments.
#[local] Set Warnings "-register-all".

(** ** Python strings *)

Module PyStr.

(** `s.startswith(p)` *)
Definition startswith (p s : string) : bool := String.prefix p s.

(** `s.replace(old, new)` for a non-empty `old`: occurrences are replaced
    left to right without overlap.  [skip] counts the characters of a
    matched occurrence that remain to be dropped. *)
Fixpoint replace_from (skip : nat) (old new s : string) : string :=
  match s with
  | EmptyString => EmptyString
  | String c rest =>
      match skip with
      | S k => replace_from k old new rest
      | O =>
          if String.prefix old s
          then (new ++ replace_from (String.length old - 1) old new rest)%string
          else String c (replace_from 0 old new rest)
      end
  end.

Definition replace (old new s : string) : string := replace_from 0 old new s.

(** A str is held as its UTF-8 bytes.  [space_width s] is the number of
    bytes of the white-space character at the head of [s], 0 when there
    is none.  White space is what `str.isspace` accepts: U+0009..U+000D,
    U+001C..U+0020, U+0085, U+00A0, U+1680, U+2000..U+200A, U+2028,
    U+2029, U+202F, U+205F and U+3000. *)
Definition space_width (s : string) : nat :=
  match s with
  | EmptyString => 0
  | String c1 rest =>
      let n1 := nat_of_ascii c1 in
      if (Nat.leb 9 n1 && Nat.leb n1 13) || (Nat.leb 28 n1 && Nat.leb n1 32) then 1
      else
        match rest with
        | EmptyString => 0
        | String c2 rest2 =>
            let n2 := nat_of_ascii c2 in
            if Nat.eqb n1 194 && (Nat.eqb n2 133 || Nat.eqb n2 160) then 2
            else
              match rest2 with
              | EmptyString => 0
              | String c3 _ =>
                  let n3 := nat_of_ascii c3 in
                  if (Nat.eqb n1 225 && Nat.eqb n2 154 && Nat.eqb n3 128)
                     || (Nat.eqb n1 226 && Nat.eqb n2 128
                         && ((Nat.leb 128 n3 && Nat.leb n3 138)
                             || Nat.eqb n3 168 || Nat.eqb n3 169 || Nat.eqb n3 175))
                     || (Nat.eqb n1 226 && Nat.eqb n2 129 && Nat.eqb n3 159)
                     || (Nat.eqb n1 227 && Nat.eqb n2 128 && Nat.eqb n3 128)
                  then 3 else 0
              end
        end
  end.

(** `s.lstrip()`; [skip] counts the bytes of a white-space character that
    remain to be dropped. *)
Fixpoint lstrip_from (skip : nat) (s : string) : string :=
  match s with
  | EmptyString => EmptyString
  | String _ rest =>
      match skip with
      | S k => lstrip_from k rest
      | O =>
          match space_width s with
          | O => s
          | S k => lstrip_from k rest
          end
      end
  end.

Definition lstrip (s : string) : string := lstrip_from 0 s.

(** Whether [s] is made of white-space characters only. *)
Fixpoint blank_from (skip : nat) (s : string) : bool :=
  match s with
  | EmptyString => true
  | String _ rest =>
      match skip with
      | S k => blank_from k rest
      | O =>
          match space_width s with
          | O => false
          | S k => blank_from k rest
          end
      end
  end.

(** `s.rstrip()` *)
Fixpoint rstrip (s : string) : string :=
  match s with
  | EmptyString => EmptyString
  | String c rest => if blank_from 0 s then EmptyString else String c (rstrip rest)
  end.

(** `s.strip()` *)
Definition strip (s : string) : string := rstrip (lstrip s).

(** `s.split(sep)` for a one-character separator. *)
Fixpoint split (sep : ascii) (s : string) : list string :=
  match s with
  | EmptyString => [EmptyString]
  | String c rest =>
      if Ascii.eqb c sep then EmptyString :: split sep rest
      else match split sep rest with
           | h :: t => String c h :: t
           | [] => [String c EmptyString]
           end
  end.

(** `sub in s` *)
Fixpoint contains (sub s : string) : bool :=
  match s with
  | EmptyString => String.prefix sub EmptyString
  | String _ rest => String.prefix sub s || contains sub rest
  end.

End PyStr.

(** ** Python dicts

    A `dict` keeps insertion order, `popitem()` removes the entry inserted
    last and `values()` iterates in insertion order, so a dict with string
    keys is an association list without duplicate keys. *)

Module Dict.

Definition t (V : Type) : Type := list (string * V).

Definition empty {V} : t V := [].

Definition len {V} (d : t V) : nat := List.length d.

Fixpoint get {V} (k : string) (d : t V) : option V :=
  match d with
  | [] => None
  | (k', v) :: rest => if String.eqb k k' then Some v else get k rest
  end.

Definition contains {V} (k : string) (d : t V) : bool :=
  match get k d with Some _ => true | None => false end.

(** `d[k] = v`: an existing key keeps its position. *)
Fixpoint set {V} (k : string) (v : V) (d : t V) : t V :=
  match d with
  | [] => [(k, v)]
  | (k', v') :: rest =>
      if String.eqb k k' then (k', v) :: rest else (k', v') :: set k v rest
  end.

(** `del d[k]` / the dict left by `d.pop(k, None)` *)
Fixpoint remove {V} (k : string) (d : t V) : t V :=
  match d with
  | [] => []
  | (k', v') :: rest =>
      if String.eqb k k' then rest else (k', v') :: remove k rest
  end.

(** `d.popitem()`: the last entry and the dict without it;
    [None] stands for the `KeyError` of an empty dict. *)
Fixpoint popitem {V} (d : t V) : option (string * V * t V) :=
  match d with
  | [] => None
  | (k, v) :: rest =>
      match popitem rest with
      | None => Some (k, v, [])
      | Some (k', v', rest') => Some (k', v', (k, v) :: rest')
      end
  end.

Definition keys {V} (d : t V) : list string := map fst d.
Definition values {V} (d : t V) : list V := map snd d.

End Dict.

(** ** JSON values, as `json.loads` builds them

    A number without fraction and exponent is an `int`, any other a
    `float` (a binary64 value). *)

Inductive JSON : Type :=
| JNull
| JBool (b : bool)
| JInt (n : Z)
| JFloat (x : spec_float)
| JStr (s : string)
| JArr (items : list JSON)
| JObj (members : list (string * JSON)).

(** ** Exceptions and outcomes *)

Inductive Exn : Type :=
| TypeError
| KeyError (key : string)
| AttributeError
| JSONDecodeError
| ValueError
| TransportError                 (* raised by the HTTP client or the transport *)
| OSError                        (* raised by PyAV when the output cannot be written *)
| PyException (msg : string).    (* `raise Exception(msg)` *)

(** [Diverged]: the call never returns (a loop that cannot make progress). *)
Inductive Outcome (A : Type) : Type :=
| Ok (a : A)
| Raised (e : Exn)
| Diverged.

Arguments Ok {A} a.
Arguments Raised {A} e.
Arguments Diverged {A}.

(** ** Tracks *)

Record Track : Type := mkTrack {
  track_id : string;
  kind : string
}.

(** A proxy returned by `MediaRelay.subscribe(track)`: a new object at each
    call, with the kind of its source. *)
Record RelayTrack : Type := mkRelayTrack {
  proxy_no : nat;
  source : Track
}.

Definition relay_kind (t : RelayTrack) : string := kind (source t).

(** ** Signaling data *)

Record SessionDescription : Type := mkSD {
  sd_type : string;
  sd_sdp : JSON
}.

Record IceCandidate : Type := mkIce {
  ice_candidate : string;
  sdpMid : JSON;
  sdpMLineIndex : JSON
}.

(** The requests of the signaling API; room and client are the session's. *)
Inductive Request : Type :=
| PostRegister (body : JSON)
| PostIsAllowNegotiate
| PutNegotiate (body : JSON)
| PutSetTrackSources (body : JSON)
| PostSubscribeTracks (body : JSON)
| GetEvents.

(** `resp.json()` raises when the body is not JSON: [resp_json = None]. *)
Record Response : Type := mkResponse {
  status_code : Z;
  resp_json : option JSON
}.

(** Who listens on a session's notifications: the registry's hook for a
    room, or a subscriber known only by a number. *)
Inductive Listener : Type :=
| RegistryHook (room : string)
| Subscriber (n : nat).

Inductive PcMethod : Type :=
| PcClose
| PcCreateDataChannel (label : string)
| PcCreateOffer
| PcCreateAnswer
| PcSetLocalDescription (d : SessionDescription)
| PcSetRemoteDescription (d : SessionDescription)
| PcAddIceCandidate (c : IceCandidate)
| PcAddTransceiver (k : string)
| PcOn (event : string).

Inductive LogLevel : Type := Debug | Info | Error.

(** ** The trace: calls made on collaborators *)

Inductive Effect : Type :=
| Log (level : LogLevel) (template : string)
| PcCall (m : PcMethod)
| Http (r : Request)
| Emit (event : string) (called : list Listener)
| RemoveAllListeners
| ScheduleListen
| CloseSession (room : string)
| TrackOnEnded (t : Track) (hook : string)
| RelaySubscribe (t : Track)
| AvOpen (file : string)
| AvAddStream (file : string) (codec : string)
| AvFlush (file : string) (t : RelayTrack)
| AvClose (file : string)
| TaskSpawn (file : string) (t : RelayTrack)
| TaskCancel (file : string) (t : RelayTrack).

(** ** The state-and-exception monad *)

Definition M (S A : Type) : Type := S -> Outcome A * S * list Effect.

Definition ret {S A} (a : A) : M S A := fun s => (Ok a, s, []).

Definition bind {S A B} (m : M S A) (k : A -> M S B) : M S B :=
  fun s =>
    match m s with
    | (Ok a, s1, t1) =>
        match k a s1 with
        | (o, s2, t2) => (o, s2, t1 ++ t2)
        end
    | (Raised e, s1, t1) => (Raised e, s1, t1)
    | (Diverged, s1, t1) => (Diverged, s1, t1)
    end.

Definition raise {S A} (e : Exn) : M S A := fun s => (Raised e, s, []).

Definition diverge {S A} : M S A := fun s => (Diverged, s, []).

(** `try: m  except Exception as e: h e` *)
Definition try_except {S A} (m : M S A) (h : Exn -> M S A) : M S A :=
  fun s =>
    match m s with
    | (Raised e, s1, t1) =>
        match h e s1 with
        | (o, s2, t2) => (o, s2, t1 ++ t2)
        end
    | r => r
    end.

Definition get {S} : M S S := fun s => (Ok s, s, []).
Definition gets {S A} (f : S -> A) : M S A := fun s => (Ok (f s), s, []).
Definition modify {S} (f : S -> S) : M S unit := fun s => (Ok tt, f s, []).
Definition tell {S} (e : Effect) : M S unit := fun s => (Ok tt, s, [e]).

(** Run a method of a component of the state. *)
Definition zoom {S T A} (proj : S -> T) (inj : T -> S -> S) (m : M T A) : M S A :=
  fun s => match m (proj s) with (o, t', tr) => (o, inj t' s, tr) end.

Definition outcome_of {S A} (r : Outcome A * S * list Effect) : Outcome A := fst (fst r).
Definition state_of {S A} (r : Outcome A * S * list Effect) : S := snd (fst r).
Definition trace_of {S A} (r : Outcome A * S * list Effect) : list Effect := snd r.

Declare Scope py_scope.
Delimit Scope py_scope with py.
Notation "x <- m ;; k" := (bind m (fun x => k))
  (at level 61, m at next level, right associativity) : py_scope.
Notation "m ;; k" := (bind m (fun _ => k))
  (at level 61, right associativity) : py_scope.
Open Scope py_scope.

(** ** The libraries the code calls, and the server behind the HTTP client

    Their answers are taken from an interface, never fixed by the model. *)

Class Library : Type := {
  (* `json.loads(s)` on a str; [None]: JSONDecodeError *)
  json_parse : string -> option JSON;
  (* the answer of the hub to a request, or the client's exception *)
  http_send : Request -> Outcome Response;
  (* `Candidate.from_sdp(s)`; [false]: ValueError *)
  candidate_from_sdp : string -> bool;
  (* `[m.msid for m in sdp.SessionDescription.parse(x).media]` *)
  sdp_media_msids : JSON -> Outcome (list (option string));
  (* PyAV, on the container of an output file: flushing the encoder of a
     track (`stream.encode(None)` and `mux` of its packets) *)
  av_flush : string -> RelayTrack -> Outcome unit;
  (* ... and `container.close()` *)
  av_close : string -> Outcome unit
}.

(** ** MediaRecorder (`recorder/media.py`)

    The PyAV container is a collaborator: its calls are recorded in the
    trace.  Opening it and adding a stream are taken to succeed.  Writing
    to the file is not: what flushing the encoder of a track and closing
    the container answer is taken from the interface. *)

Module MediaRecorder.

Record Context : Type := mkContext {
  started : bool;
  stream : string;       (* the codec of the output stream *)
  task : bool            (* `task is not None` *)
}.

Record t : Type := mk {
  file : string;
  format_name : string;  (* `container.format.name`, chosen by PyAV from the file *)
  container : bool;      (* false: `self.__container` is None *)
  tracks : list (RelayTrack * Context)   (* `self.__tracks`, keyed by track object *)
}.

Definition set_container (b : bool) (r : t) : t :=
  mk (file r) (format_name r) b (tracks r).
Definition set_tracks (l : list (RelayTrack * Context)) (r : t) : t :=
  mk (file r) (format_name r) (container r) l.

(** `MediaRecorder(file)` *)
Definition new (f fmt : string) : t * list Effect :=
  (mk f fmt true [], [AvOpen f]).

Definition codec_for (fmt knd : string) : string :=
  if String.eqb knd "audio" then
    if String.eqb fmt "wav" || String.eqb fmt "alsa" || String.eqb fmt "pulse"
    then "pcm_s16le"
    else if String.eqb fmt "mp3" then "mp3" else "aac"
  else if String.eqb fmt "image2" then "png" else "libx264".

(** `self.__tracks[track] = ctx` *)
Fixpoint tracks_set (k : RelayTrack) (c : Context)
         (l : list (RelayTrack * Context)) : list (RelayTrack * Context) :=
  match l with
  | [] => [(k, c)]
  | (k', c') :: rest =>
      if Nat.eqb (proxy_no k) (proxy_no k') then (k', c) :: rest
      else (k', c') :: tracks_set k c rest
  end.

Definition addTrack (track : RelayTrack) : M t unit :=
  r <- get ;;
  if container r then
    let codec := codec_for (format_name r) (relay_kind track) in
    tell (AvAddStream (file r) codec) ;;
    modify (set_tracks (tracks_set track (mkContext false codec false) (tracks r)))
  else raise AttributeError.   (* `None.format` *)

Fixpoint start_tracks (f : string) (l : list (RelayTrack * Context))
  : list (RelayTrack * Context) * list Effect :=
  match l with
  | [] => ([], [])
  | (k, c) :: rest =>
      let '(rest', tr) := start_tracks f rest in
      if task c then ((k, c) :: rest', tr)
      else ((k, mkContext (started c) (stream c) true) :: rest', TaskSpawn f k :: tr)
  end.

Definition start : M t unit :=
  fun r =>
    let '(l, tr) := start_tracks (file r) (tracks r) in
    (Ok tt, set_tracks l r, tr).

Section Stop.

Context `{Library}.

(** The loop of `stop` over `self.__tracks.items()`: its outcome, the
    contexts as it leaves them and the calls made.  A task is cancelled
    and forgotten before its encoder is flushed, so a flush that raises
    leaves the track without task and the later tracks untouched. *)
Fixpoint stop_tracks (f : string) (l : list (RelayTrack * Context))
  : Outcome unit * list (RelayTrack * Context) * list Effect :=
  match l with
  | [] => (Ok tt, [], [])
  | (t, c) :: rest =>
      if task c then
        let c' := mkContext (started c) (stream c) false in
        match av_flush f t with
        | Ok _ =>
            let '(o, rest', tr) := stop_tracks f rest in
            (o, (t, c') :: rest', TaskCancel f t :: AvFlush f t :: tr)
        | o => (o, (t, c') :: rest, [TaskCancel f t; AvFlush f t])
        end
      else
        let '(o, rest', tr) := stop_tracks f rest in
        (o, (t, c) :: rest', tr)
  end.

(** `async def stop(self)`: `self.__tracks = {}` follows the loop, and
    `self.__container = None` follows a `close()` that returned. *)
Definition stop : M t unit :=
  fun r =>
    if container r then
      match stop_tracks (file r) (tracks r) with
      | (Ok _, _, tr) =>
          match av_close (file r) with
          | Ok _ => (Ok tt, set_container false (set_tracks [] r),
                     tr ++ [AvClose (file r)])
          | o => (o, set_tracks [] r, tr ++ [AvClose (file r)])
          end
      | (o, l, tr) => (o, set_tracks l r, tr)
      end
    else (Ok tt, r, []).

End Stop.

End MediaRecorder.

(** ** Recorder (`recorder/recorder.py`), the spec's TrackRecorder *)

Module Recorder.

Record t : Type := mk {
  sid : string;
  _path : string;
  audio_track : option RelayTrack;
  video_track : option RelayTrack;
  _recorder : MediaRecorder.t;
  _is_started : bool;
  _is_stopped : bool
}.

Definition set_audio_track (a : option RelayTrack) (r : t) : t :=
  mk (sid r) (_path r) a (video_track r) (_recorder r) (_is_started r) (_is_stopped r).
Definition set_video_track (v : option RelayTrack) (r : t) : t :=
  mk (sid r) (_path r) (audio_track r) v (_recorder r) (_is_started r) (_is_stopped r).
Definition set_recorder (m : MediaRecorder.t) (r : t) : t :=
  mk (sid r) (_path r) (audio_track r) (video_track r) m (_is_started r) (_is_stopped r).
Definition set_flags (st sp : bool) (r : t) : t :=
  mk (sid r) (_path r) (audio_track r) (video_track r) (_recorder r) st sp.

Definition writer {A} (m : M MediaRecorder.t A) : M t A :=
  zoom _recorder set_recorder m.

(** `Recorder(threadpool, sid, path)`; every path the session builds ends
    in `.mp4`, for which PyAV selects the `mp4` container format. *)
Definition new (s p : string) : t * list Effect :=
  let '(w, tr) := MediaRecorder.new p "mp4" in
  (mk s p None None w false false, tr).

Definition add_audio_track (track : RelayTrack) : M t unit :=
  modify (set_audio_track (Some track)) ;;
  writer (MediaRecorder.addTrack track).

Definition add_video_track (track : RelayTrack) : M t unit :=
  modify (set_video_track (Some track)) ;;
  writer (MediaRecorder.addTrack track).

Definition is_started (r : t) : bool := _is_started r.
Definition is_stopped (r : t) : bool := _is_stopped r.

Definition start : M t unit :=
  r <- get ;;
  match audio_track r, video_track r with
  | None, None => raise (PyException "No tracks to record")
  | _, _ =>
      writer MediaRecorder.start ;;
      modify (set_flags true false) ;;
      tell (Log Debug "Recorder started at %s")
  end.

Section Operations.

Context `{Library}.

Definition stop : M t unit :=
  r <- get ;;
  if _is_started r && negb (_is_stopped r) then
    writer MediaRecorder.stop ;;      (* `if self._recorder:` holds for an object *)
    modify (set_flags false true) ;;
    tell (Log Debug "Recorder stopped at %s")
  else ret tt.

(** The operations a caller can apply to a recorder. *)
Inductive Op : Type :=
| AddAudio (t : RelayTrack)
| AddVideo (t : RelayTrack)
| Start
| Stop.

Definition apply (o : Op) : M t unit :=
  match o with
  | AddAudio t => add_audio_track t
  | AddVideo t => add_video_track t
  | Start => start
  | Stop => stop
  end.

(** The states a recorder goes through under a sequence of operations,
    the initial one first; a caller may go on after an exception. *)
Fixpoint states (ops : list Op) (r : t) : list t :=
  match ops with
  | [] => [r]
  | o :: rest => r :: states rest (state_of (apply o r))
  end.

End Operations.

(** Calls made on the PyAV container and the encoder tasks. *)
Definition is_writer_call (e : Effect) : bool :=
  match e with
  | AvOpen _ | AvAddStream _ _ | AvFlush _ _ | AvClose _
  | TaskSpawn _ _ | TaskCancel _ _ => true
  | _ => false
  end.

End Recorder.

(** ** Collaborators of a session *)

Inductive ConnectionState : Type :=
| CsNew | CsConnecting | CsConnected | CsDisconnected | CsFailed | CsClosed.

Inductive IceGatheringState : Type := IgNew | IgGathering | IgComplete.

(** The transport engine, an opaque capability: the properties the session
    reads and the calls it awaits.  A call answers with an outcome and the
    engine's next state. *)
Class PeerConnection (PC : Type) : Type := {
  connectionState : PC -> ConnectionState;
  iceGatheringState : PC -> IceGatheringState;
  localDescription : PC -> option SessionDescription;
  remoteDescription : PC -> option SessionDescription;
  pc_close : PC -> Outcome unit * PC;
  createDataChannel : string -> PC -> Outcome unit * PC;
  createOffer : PC -> Outcome SessionDescription * PC;
  createAnswer : PC -> Outcome SessionDescription * PC;
  setLocalDescription : SessionDescription -> PC -> Outcome unit * PC;
  setRemoteDescription : SessionDescription -> PC -> Outcome unit * PC;
  addIceCandidate : IceCandidate -> PC -> Outcome unit * PC;
  addTransceiver : string -> PC -> Outcome unit * PC
}.


(** One response of the events endpoint: its lines, and whether reading
    past the last one raises (idle timeout, broken connection) instead of
    ending the iteration. *)
Record EventStream : Type := mkStream {
  stream_lines : list string;
  stream_breaks : bool
}.

Definition is_2xx (status : Z) : bool := (200 <=? status)%Z && (status <? 300)%Z.

Definition str_eq (x : option string) (lit : string) : bool :=
  match x with Some s => String.eqb s lit | None => false end.

(** ** RTC (`rtc/rtc.py`), the spec's Session *)

Module RTC.

(** [Ext] holds the attributes a subclass adds.  `on_ice_candidate` and
    `ice_candidate`, only ever set to None, the thread pool, only handed
    on to recorders that never use it, and the `origin`, `version` and
    `api_key` copied from the room configuration are left out. *)
Record t (PC Ext : Type) : Type := mk {
  room_id : string;
  client_id : option JSON;                 (* None until registered *)
  name : string;
  token : string;
  _listened : bool;
  tracks_map : Dict.t JSON;
  _track_count : Z;
  pc : option PC;
  ready : option bool;                     (* absent until the stream ends *)
  listeners : list (string * Listener);    (* pyee: event, handler *)
  ext : Ext
}.

Arguments mk {PC Ext}.

(** What `_negotiate` returns. *)
Inductive NegotiateResult : Type := ReturnsNone | ReturnsFalse.

Section Session.
Context {PC Ext : Type} `{PeerConnection PC} `{Library}.

#[local] Abbreviation Session := (t PC Ext).

Definition set_listened (b : bool) (s : Session) : Session :=
  mk (room_id s) (client_id s) (name s) (token s) b (tracks_map s)
     (_track_count s) (pc s) (ready s) (listeners s) (ext s).
Definition set_tracks_map (m : Dict.t JSON) (s : Session) : Session :=
  mk (room_id s) (client_id s) (name s) (token s) (_listened s) m
     (_track_count s) (pc s) (ready s) (listeners s) (ext s).
Definition set_track_count (c : Z) (s : Session) : Session :=
  mk (room_id s) (client_id s) (name s) (token s) (_listened s) (tracks_map s)
     c (pc s) (ready s) (listeners s) (ext s).
Definition set_pc (p : option PC) (s : Session) : Session :=
  mk (room_id s) (client_id s) (name s) (token s) (_listened s) (tracks_map s)
     (_track_count s) p (ready s) (listeners s) (ext s).
Definition set_ready (r : option bool) (s : Session) : Session :=
  mk (room_id s) (client_id s) (name s) (token s) (_listened s) (tracks_map s)
     (_track_count s) (pc s) r (listeners s) (ext s).
Definition set_listeners (l : list (string * Listener)) (s : Session) : Session :=
  mk (room_id s) (client_id s) (name s) (token s) (_listened s) (tracks_map s)
     (_track_count s) (pc s) (ready s) l (ext s).
Definition set_ext (e : Ext) (s : Session) : Session :=
  mk (room_id s) (client_id s) (name s) (token s) (_listened s) (tracks_map s)
     (_track_count s) (pc s) (ready s) (listeners s) e.

(** An outcome computed without touching the session. *)
Definition lift {A} (o : Outcome A) : M Session A := fun s => (o, s, []).

(** `await self.pc.<method>(...)`; `self.pc` may be None. *)
Definition with_pc {A} (m : PcMethod) (f : PC -> Outcome A * PC) : M Session A :=
  fun s =>
    match pc s with
    | None => (Raised AttributeError, s, [])
    | Some p => let '(o, p') := f p in (o, set_pc (Some p') s, [PcCall m])
    end.

(** `self.pc.<property>` *)
Definition pc_attr {A} (f : PC -> A) : M Session A :=
  fun s =>
    match pc s with
    | None => (Raised AttributeError, s, [])
    | Some p => (Ok (f p), s, [])
    end.

Definition http (r : Request) : M Session Response :=
  fun s => (http_send r, s, [Http r]).

(** pyee: `self.on(event, f)`, `self.emit(event)`, `self.remove_all_listeners()` *)
Definition on (event : string) (l : Listener) : M Session unit :=
  modify (fun s => set_listeners (listeners s ++ [(event, l)]) s).

Definition listeners_of (event : string) (s : Session) : list Listener :=
  map snd (filter (fun p => String.eqb (fst p) event) (listeners s)).

Definition emit (event : string) : M Session unit :=
  fun s => (Ok tt, s, [Emit event (listeners_of event s)]).

Definition remove_all_listeners : M Session unit :=
  modify (set_listeners []) ;; tell RemoveAllListeners.

(** `json.loads(x)`: a TypeError on None, before any parsing. *)
Definition json_loads (x : option string) : Outcome JSON :=
  match x with
  | None => Raised TypeError
  | Some s =>
      match json_parse s with
      | Some j => Ok j
      | None => Raised JSONDecodeError
      end
  end.

(** `j[k]` for a str key *)
Definition getitem (j : JSON) (k : string) : Outcome JSON :=
  match j with
  | JObj members =>
      match Dict.get k members with
      | Some v => Ok v
      | None => Raised (KeyError k)
      end
  | _ => Raised TypeError
  end.

(** `j.items()` *)
Definition items (j : JSON) : Outcome (list (string * JSON)) :=
  match j with
  | JObj members => Ok members
  | _ => Raised AttributeError
  end.

(** The polymorphic part of a session: what a variant does with a
    received track, and its clean-up when the session closes. *)
Class TrackHandler : Type := {
  _handle_track : Track -> M Session unit;
  _on_close : M Session unit
}.

Context `{TrackHandler}.

(** `resp.json()` *)
Definition resp_body (resp : Response) : M Session JSON :=
  match resp_json resp with
  | Some j => ret j
  | None => raise JSONDecodeError
  end.

(** `__init__`: [p] is the engine instance the constructor creates. *)
Definition new (room token nm : string) (p : PC) (e : Ext) : Session :=
  mk room None nm token false Dict.empty 0%Z (Some p) None [] e.

Definition set_client_id (c : option JSON) (s : Session) : Session :=
  mk (room_id s) c (name s) (token s) (_listened s) (tracks_map s)
     (_track_count s) (pc s) (ready s) (listeners s) (ext s).

(** `async def register(self)` *)
Definition register : M Session JSON :=
  nm <- gets (@name PC Ext) ;;
  resp <- http (PostRegister (JObj [("name", JStr nm); ("enable_vad", JBool true);
                                    ("disable_ice_tricket", JBool true)])) ;;
  if is_2xx (status_code resp) then
    j <- resp_body resp ;;
    d <- lift (getitem j "data") ;;
    c <- lift (getitem d "client_id") ;;
    modify (set_client_id (Some c)) ;;
    tell (Log Debug "Agent registered: %s") ;;
    ret c
  else
    _ <- resp_body resp ;;
    tell (Log Error "Failed to register agent: %s") ;;
    raise (PyException "Failed to register agent: %s").

(** `async def close(self)` *)
Definition close : M Session unit :=
  s <- get ;;
  match pc s with
  | Some _ => with_pc PcClose pc_close ;; modify (set_pc None)
  | None => ret tt
  end ;;
  _on_close ;;
  emit "ended" ;;
  remove_all_listeners ;;
  tell (Log Debug "Agent closed %s").

(** The handler of the transport's "track" notification. *)
Definition on_track (track : Track) : M Session unit :=
  tell (Log Debug "Track %s received") ;;
  try_except
    (_handle_track track ;;
     modify (fun s => set_track_count (_track_count s + 1) s) ;;
     tell (Log Debug "Track %d active"))
    (fun _ => tell (Log Error "Failed to handle track: %s")) ;;
  tell (TrackOnEnded track "RTC.on_ended").

(** The handler `on_track` attaches to the track's "ended" notification. *)
Definition on_ended : M Session unit :=
  c <- gets (@_track_count PC Ext) ;;
  (if (0 <? c)%Z
   then modify (fun s => set_track_count (_track_count s - 1) s) ;;
        tell (Log Debug "Track %d active")
   else ret tt) ;;
  c' <- gets (@_track_count PC Ext) ;;
  if (c' =? 0)%Z
  then close ;; tell (Log Debug "All tracks ended")
  else ret tt.

Definition check_2xx (resp : Response) (ok_msg err_msg : string) : M Session unit :=
  if is_2xx (status_code resp)
  then tell (Log Debug ok_msg)
  else tell (Log Error err_msg) ;; raise (PyException err_msg).

(** `async def _negotiate(self, offersdp=None)` *)
Definition _negotiate (offersdp : option string) : M Session NegotiateResult :=
  offerjson <- lift (json_loads offersdp) ;;
  try_except
    (offer <- match offersdp with
              | None => with_pc PcCreateOffer createOffer
              | Some _ =>
                  sdp <- lift (getitem offerjson "sdp") ;;
                  ret (mkSD "offer" sdp)
              end ;;
     with_pc (PcSetRemoteDescription offer) (setRemoteDescription offer) ;;
     answer <- with_pc PcCreateAnswer createAnswer ;;
     with_pc (PcSetLocalDescription answer) (setLocalDescription answer) ;;
     ld <- pc_attr localDescription ;;
     sdp <- match ld with
            | Some d => ret (sd_sdp d)
            | None => raise AttributeError
            end ;;
     resp <- http (PutNegotiate (JObj [("type", JStr "answer"); ("sdp", sdp)])) ;;
     check_2xx resp "Answered negotiation"
               "Failed to answer renegotiation, status code: %s" ;;
     ret ReturnsNone)
    (fun _ =>
       tell (Log Error "Failed to answer renegotiation: %s") ;;
       ret ReturnsFalse).

(** The `candidate` branch of the event loop. *)
Definition handle_candidate (data : string) : M Session unit :=
  candidate <- lift (json_loads (Some data)) ;;
  c <- lift (getitem candidate "candidate") ;;
  candidatestring <- match c with
                     | JStr x => ret (PyStr.replace "candidate:" EmptyString x)
                     | _ => raise AttributeError
                     end ;;
  (if candidate_from_sdp candidatestring then ret tt else raise ValueError) ;;
  mid <- lift (getitem candidate "sdpMid") ;;
  idx <- lift (getitem candidate "sdpMLineIndex") ;;
  let ice := mkIce candidatestring mid idx in
  with_pc (PcAddIceCandidate ice) (addIceCandidate ice).

(** The `tracks_added` branch. *)
Definition handle_tracks_added (data : string) : M Session unit :=
  tracks <- lift (json_loads (Some data)) ;;
  tell (Log Debug "Tracks added") ;;
  tt_ <- lift (getitem tracks "tracks") ;;
  its <- lift (items tt_) ;;
  let sources :=
    map (fun p => JObj [("track_id", JStr (fst p)); ("source", JStr "media")]) its in
  resp <- http (PutSetTrackSources (JArr sources)) ;;
  check_2xx resp "set track sources" "Failed to set track sources, status code: %s".

(** The loop of the `tracks_available` branch, returning `subs_req`. *)
Fixpoint collect_subscriptions (its : list (string * JSON)) (subs_req : list JSON)
  : M Session (list JSON) :=
  match its with
  | [] => ret subs_req
  | (tid, track) :: rest =>
      cid <- lift (getitem track "client_id") ;;
      modify (fun s => set_tracks_map (Dict.set tid cid (tracks_map s)) s) ;;
      tid' <- lift (getitem track "track_id") ;;
      cid' <- lift (getitem track "client_id") ;;
      collect_subscriptions rest
        (subs_req ++ [JObj [("track_id", tid'); ("client_id", cid')]])
  end.

(** The `tracks_available` branch. *)
Definition handle_tracks_available (data : string) : M Session unit :=
  tell (Log Debug "Tracks available") ;;
  j <- lift (json_loads (Some data)) ;;
  tracks <- lift (getitem j "tracks") ;;
  its <- lift (items tracks) ;;
  subs_req <- collect_subscriptions its [] ;;
  _ <- pc_attr connectionState ;;
  tell (Log Debug "client state %s") ;;
  resp <- http (PostSubscribeTracks (JArr subs_req)) ;;
  check_2xx resp "Tracks subscribed" "Failed to subscribe tracks, status code: %s".

(** The `if event == "offer": ... elif ...` chain of the event loop,
    entered after `left` has been ruled out. *)
Definition dispatch (event : option string) (data : string) : M Session unit :=
  if str_eq event "offer" then _ <- _negotiate (Some data) ;; ret tt
  else if str_eq event "candidate" then handle_candidate data
  else if str_eq event "tracks_added" then handle_tracks_added data
  else if str_eq event "tracks_available" then handle_tracks_available data
  else if str_eq event "allowed_renegotation" then
    tell (Log Debug "Allowed renegotiation") ;;
    _ <- _negotiate None ;; ret tt
  else ret tt.

(** The framing of a non-empty line: the pending `event` and `data` it
    leaves, or [None] for a line that is neither an `event:` nor a
    `data:` line (both are reset and the loop continues). *)
Definition frame (line : string) (event : option string)
  : option (option string * option string) :=
  if PyStr.startswith "event:" line
  then Some (Some (PyStr.strip (PyStr.replace "event:" EmptyString line)), None)
  else if PyStr.startswith "data:" line
       then Some (event, Some (PyStr.strip (PyStr.replace "data:" EmptyString line)))
       else None.

(** `async for line in response.aiter_lines(): ...` with the pending
    `event` and `data`; [breaks] tells how the iteration ends. *)
Fixpoint event_loop (lines : list string) (breaks : bool)
         (event data : option string) : M Session unit :=
  match lines with
  | [] => if breaks then raise TransportError else ret tt
  | line :: rest =>
      if String.eqb line EmptyString then event_loop rest breaks event data
      else
        match frame line event with
        | None => event_loop rest breaks None None
        | Some (event', data') =>
            cs <- pc_attr connectionState ;;
            match cs with
            | CsClosed => ret tt
            | _ =>
                match data' with
                | Some d =>
                    if negb (str_eq event' "ping") then
                      tell (Log Debug "Event: %s") ;;
                      if str_eq event' "left" then close
                      else dispatch event' d ;; event_loop rest breaks event' data'
                    else event_loop rest breaks event' data'
                | None => event_loop rest breaks event' data'
                end
            end
        end
  end.

(** `async def _event_handler(self, response)` *)
Definition _event_handler (response : EventStream) : M Session unit :=
  tell (Log Debug "Event stream started") ;;
  event_loop (stream_lines response) (stream_breaks response) None None ;;
  tell (Log Debug "Event stream ended") ;;
  modify (set_ready (Some false)).

Definition pc_gone (s : Session) : bool :=
  match pc s with
  | None => true
  | Some p => match connectionState p with CsClosed => true | _ => false end
  end.

(** The `while True` of `_listen`: each turn opens the events endpoint
    anew; [responses] are the streams the hub serves, in order, and
    the request raises once they are used up. *)
Fixpoint listen_loop (responses : list EventStream) : M Session unit :=
  s <- get ;;
  if pc_gone s then ret tt
  else
    match responses with
    | [] =>
        tell (Http GetEvents) ;;
        tell (Log Error "Event stream error: %s")
    | response :: rest =>
        tell (Http GetEvents) ;;
        again <- try_except
                   (_event_handler response ;; ret true)
                   (fun _ => tell (Log Error "Event stream error: %s") ;; ret false) ;;
        if again then listen_loop rest else ret tt
    end.

(** `async def _listen(self)` *)
Definition _listen (responses : list EventStream) : M Session unit :=
  modify (set_listened true) ;;
  listen_loop responses ;;
  modify (set_listened false).

(** The handler `connect` attaches to "connectionstatechange". *)
Definition on_connectionstatechange : M Session unit :=
  s <- get ;;
  match pc s with
  | None => ret tt
  | Some p =>
      emit "connectionstatechange" ;;
      tell (Log Info "Connection state is %s") ;;
      match connectionState p with
      | CsFailed => close
      | _ => ret tt
      end
  end.

(** `"answer" in x` *)
Definition contains_key (x : JSON) (k : string) : Outcome bool :=
  match x with
  | JObj members => Ok (Dict.contains k members)
  | JArr l => Ok (existsb (fun j => match j with JStr s => String.eqb s k | _ => false end) l)
  | JStr s => Ok (match String.index 0 k s with Some _ => true | None => false end)
  | _ => Raised TypeError
  end.

(** The body of the `try` of `connect`. *)
Definition connect_body : M Session unit :=
  with_pc (PcCreateDataChannel "ignore") (createDataChannel "ignore") ;;
  tell (PcCall (PcOn "negotiationneeded")) ;;
  tell (PcCall (PcOn "iceconnectionstatechange")) ;;
  tell (PcCall (PcOn "connectionstatechange")) ;;
  resp <- http PostIsAllowNegotiate ;;
  (if (299 <? status_code resp)%Z then
     _ <- resp_body resp ;;
     tell (Log Error "Failed to check if negotiation is allowed: %s") ;;
     raise (PyException "Failed to check if negotiation is allowed: %s")
   else ret tt) ;;
  offer <- with_pc PcCreateOffer createOffer ;;
  with_pc (PcSetLocalDescription offer) (setLocalDescription offer) ;;
  (* `while True:` without a suspension point: one turn or no end *)
  g <- pc_attr iceGatheringState ;;
  tell (Log Info "icegatheringstate: %s") ;;
  match g with
  | IgComplete => ret tt
  | _ => diverge
  end ;;
  ld <- pc_attr localDescription ;;
  body <- match ld with
          | Some d => ret (JObj [("type", JStr (sd_type d)); ("sdp", sd_sdp d)])
          | None => raise AttributeError
          end ;;
  resp <- http (PutNegotiate body) ;;
  if is_2xx (status_code resp) then
    data <- resp_body resp ;;
    d <- lift (getitem data "data") ;;
    has_answer <- lift (contains_key d "answer") ;;
    if has_answer then
      a <- lift (getitem d "answer") ;;
      sdp <- lift (getitem a "sdp") ;;
      let answer := mkSD "answer" sdp in
      try_except
        (with_pc (PcSetRemoteDescription answer) (setRemoteDescription answer) ;;
         l <- gets (@_listened PC Ext) ;;
         if l then ret tt else tell ScheduleListen)
        (fun _ =>
           tell (Log Error "Failed to set remote description: %s") ;;
           raise (PyException "Failed to set remote description"))
    else ret tt
  else
    _ <- resp_body resp ;;
    tell (Log Error "Failed to negotiate: %s") ;;
    raise (PyException "Failed to negotiate: %s").

(** `async def connect(self)` *)
Definition connect : M Session unit :=
  try_except connect_body (fun _ => tell (Log Error "Failed to connect: %s")).

End Session.

End RTC.

(** ** RoomRecorder (`recorder/recorder.py`), the recording variant *)

Module RoomRecorder.

Record Ext : Type := mkExt {
  _dirpath : string;
  _relay : nat;                         (* proxies handed out by the MediaRelay *)
  _recorders : Dict.t Recorder.t
}.

(** What `get_track_msid` returns: `{}`, None or an msid. *)
Inductive MsidResult : Type := EmptyDict | IsNone | Msid (m : string).

Section Room.
Context {PC : Type} `{PeerConnection PC} `{Library}.

#[local] Abbreviation Room := (RTC.t PC Ext).

Definition recorders (s : Room) : Dict.t Recorder.t := _recorders (RTC.ext s).

Definition set_recorders (d : Dict.t Recorder.t) (s : Room) : Room :=
  RTC.set_ext (mkExt (_dirpath (RTC.ext s)) (_relay (RTC.ext s)) d) s.

Definition set_relay (n : nat) (s : Room) : Room :=
  RTC.set_ext (mkExt (_dirpath (RTC.ext s)) n (_recorders (RTC.ext s))) s.

(** A method of the recorder object stored under [msid]; the local
    variable `recorder` of `_handle_track` is that same object. *)
Definition on_recorder {A} (msid : string) (m : M Recorder.t A) : M Room A :=
  fun s =>
    match Dict.get msid (recorders s) with
    | None => (Raised (KeyError msid), s, [])
    | Some r =>
        match m r with
        | (o, r', tr) => (o, set_recorders (Dict.set msid r' (recorders s)) s, tr)
        end
    end.

(** `for recorder in self._recorders.values(): await f(recorder)` *)
Fixpoint each_recorder (f : M Recorder.t unit) (d : Dict.t Recorder.t)
  : Outcome unit * Dict.t Recorder.t * list Effect :=
  match d with
  | [] => (Ok tt, [], [])
  | (k, r) :: rest =>
      match f r with
      | (Ok _, r', tr) =>
          match each_recorder f rest with
          | (o, rest', tr') => (o, (k, r') :: rest', tr ++ tr')
          end
      | (o, r', tr) => (o, (k, r') :: rest, tr)
      end
  end.

Definition for_recorders (f : M Recorder.t unit) : M Room unit :=
  zoom recorders set_recorders (each_recorder f).

Definition start : M Room unit := for_recorders Recorder.start.

Definition stop : M Room unit := for_recorders Recorder.stop.

Definition stop_if_running : M Recorder.t unit :=
  r <- get ;;
  if Recorder.is_started r && negb (Recorder.is_stopped r)
  then Recorder.stop else ret tt.

(** One turn of the loop over the media sections: the loop assigns
    the parameter `track_id` itself. *)
Definition msid_step (acc : Dict.t string * string) (msid : option string)
  : Dict.t string * string :=
  match msid with
  | Some (String c rest as m) =>
      match PyStr.split " " m with
      | [b0; b1] => (Dict.set b1 b0 (fst acc), b1)
      | _ => acc
      end
  | _ => acc
  end.

Definition get_track_msid (track_id : string) : M Room MsidResult :=
  remoteSDP <- RTC.pc_attr remoteDescription ;;
  match remoteSDP with
  | None => ret EmptyDict
  | Some d =>
      media <- RTC.lift (sdp_media_msids (sd_sdp d)) ;;
      let '(tracks_map, track_id') := fold_left msid_step media (Dict.empty, track_id) in
      ret (match Dict.get track_id' tracks_map with
           | Some m => Msid m
           | None => IsNone
           end)
  end.

(** `self._relay.subscribe(track)` *)
Definition subscribe (track : Track) : M Room RelayTrack :=
  fun s =>
    let n := _relay (RTC.ext s) in
    (Ok (mkRelayTrack n track), set_relay (S n) s, [RelaySubscribe track]).

Definition recorder_path (dirpath msid : string) : string :=
  (dirpath ++ "/" ++ msid ++ ".mp4")%string.

(** `recorder = Recorder(...); self._recorders[msid] = recorder` *)
Definition create_recorder (msid : string) : M Room unit :=
  fun s =>
    let '(r, tr) := Recorder.new msid (recorder_path (_dirpath (RTC.ext s)) msid) in
    (Ok tt, set_recorders (Dict.set msid r (recorders s)) s, tr).

Definition _handle_track (track : Track) : M Room unit :=
  msid <- get_track_msid (track_id track) ;;
  match msid with
  | IsNone => tell (Log Error "Track %s not found in tracks map")
  | _ =>
      relay <- subscribe track ;;
      match msid with
      | Msid m =>
          found <- gets (fun s => Dict.contains m (recorders s)) ;;
          (if found then ret tt else create_recorder m) ;;
          (if String.eqb (kind track) "audio"
           then on_recorder m (Recorder.add_audio_track relay)
           else if String.eqb (kind track) "video"
                then on_recorder m (Recorder.add_video_track relay)
                else ret tt) ;;
          RTC.emit "recorders_changed" ;;
          tell (TrackOnEnded track "RoomRecorder.on_ended")
      | _ => raise TypeError       (* `self._recorders.get({})`: unhashable *)
      end
  end.

(** The handler `_handle_track` attaches to the track's "ended"
    notification; it holds the recorder of [msid]. *)
Definition on_ended (msid : string) : M Room unit :=
  tell (Log Debug "Track ended") ;;
  r <- on_recorder msid get ;;
  if Recorder.is_started r && negb (Recorder.is_stopped r)
  then on_recorder msid Recorder.stop ;; RTC.emit "recording_stopped"
  else ret tt.

Definition _on_close : M Room unit :=
  tell (Log Debug "Recorder %s closed") ;;
  for_recorders stop_if_running.

#[export] Instance RecordingHandler : RTC.TrackHandler (PC := PC) (Ext := Ext) := {
  RTC._handle_track := _handle_track;
  RTC._on_close := _on_close
}.

(** `RoomRecorder(threadpool, dirpath, room_id, token, name)`: the
    constructor's outcome, the object and the calls made. *)
Definition new (dirpath room token nm : string) (p : PC)
  : Outcome unit * Room * list Effect :=
  (RTC.with_pc (PcAddTransceiver "audio") (addTransceiver "audio") ;;
   RTC.with_pc (PcAddTransceiver "video") (addTransceiver "video"))
    (RTC.new room token nm p (mkExt dirpath 0 Dict.empty)).

End Room.

End RoomRecorder.

(** A variant that ignores tracks, as the publisher of the test suite. *)
Module Publisher.

Section Publisher.
Context {PC : Type}.

#[export] Instance NoopHandler : RTC.TrackHandler (PC := PC) (Ext := unit) := {
  RTC._handle_track := fun _ => ret tt;
  RTC._on_close := ret tt
}.

End Publisher.

End Publisher.

(** ** RecorderManager (`recorder/manager.py`), the spec's RecorderRegistry

    The registry holds the sessions themselves: a session taken out by
    `popitem()` is referenced by nothing else in the registry, so its state
    after `close()` is not kept.  The hook a session calls when it emits
    "ended" only touches the registry's dict, which `close()` does not
    read: it is run on the dict as `close()` returns. *)

Module RecorderManager.

Record t (PC : Type) : Type := mk {
  recorders : Dict.t (RTC.t PC RoomRecorder.Ext)
}.

Arguments mk {PC}.

Section Manager.
Context {PC : Type} `{PeerConnection PC} `{Library}.

#[local] Abbreviation Session := (RTC.t PC RoomRecorder.Ext).

#[local] Existing Instance RoomRecorder.RecordingHandler.

Definition get_recorder (room : string) (m : t PC) : option Session :=
  Dict.get room (recorders m).

(** `return self.recorders.pop(room_id, None)` *)
Definition delete_recorder (room : string) : M (t PC) (option Session) :=
  r <- gets (get_recorder room) ;;
  modify (fun m => mk (Dict.remove room (recorders m))) ;;
  ret r.

Definition _on_recorder_ended (room : string) : M (t PC) unit :=
  _ <- delete_recorder room ;; ret tt.

(** The registry hooks called by the emissions of a trace. *)
Definition hooks_of (tr : list Effect) : list string :=
  flat_map (fun e =>
              match e with
              | Emit _ called =>
                  flat_map (fun l => match l with
                                     | RegistryHook r => [r]
                                     | Subscriber _ => []
                                     end) called
              | _ => []
              end) tr.

Definition run_hooks (tr : list Effect) (m : t PC) : t PC :=
  fold_left (fun m r => state_of (_on_recorder_ended r m)) (hooks_of tr) m.

Definition coerce {A B} (o : Outcome A) (b : B) : Outcome B :=
  match o with
  | Ok _ => Ok b
  | Raised e => Raised e
  | Diverged => Diverged
  end.

(** `async def create_recorder(...)`; the session it returns is the
    one stored under the room, None otherwise. *)
Definition create_recorder (token room nm dirpath : string) (p : PC)
  : M (t PC) (option string) :=
  try_except
    (fun m =>
       match RoomRecorder.new dirpath room token nm p with
       | (Ok _, s, tr) =>
           match RTC.register s with
           | (Ok _, s', tr') =>
               let s'' := state_of (RTC.on "ended" (RegistryHook room) s') in
               (Ok (Some room), mk (Dict.set room s'' (recorders m)),
                tr ++ tr' ++ [Log Debug "Recorder for room %s created"])
           | (o, _, tr') => (coerce o None, m, tr ++ tr')
           end
       | (o, _, tr) => (coerce o None, m, tr)
       end)
    (fun _ => tell (Log Error "Failed to create recorder: %s") ;; ret None).

(** `await recorder.close()` on the session popped under [room]. *)
Definition close_session (room : string) (recorder : Session) : M (t PC) unit :=
  fun m =>
    match RTC.close recorder with
    | (o, _, tr) => (o, run_hooks tr m, CloseSession room :: tr)
    end.

(** `async def end(self)`: the `while len(self.recorders) > 0` loop.
    [None]: the turns allowed by [fuel] did not empty the dict. *)
Fixpoint end_ (fuel : nat) (m : t PC)
  : option (Outcome unit * t PC * list Effect) :=
  if Nat.ltb 0 (Dict.len (recorders m)) then
    match fuel with
    | O => None
    | S fuel' =>
        match Dict.popitem (recorders m) with
        | None => Some (Raised (KeyError "popitem"), m, [])
        | Some (room_id, recorder, rest) =>
            match close_session room_id recorder (mk rest) with
            | (Ok _, m1, tr) =>
                let m2 := if Dict.contains room_id (recorders m1)
                          then mk (Dict.remove room_id (recorders m1))
                          else m1 in
                match end_ fuel' m2 with
                | Some (o, m3, tr') => Some (o, m3, tr ++ tr')
                | None => None
                end
            | (o, m1, tr) => Some (o, m1, tr)
            end
        end
    end
  else Some (Ok tt, m, []).

Definition shutdown_signal (fuel : nat) (m : t PC) := end_ fuel m.

End Manager.

End RecorderManager.

(** ** Token extraction (`rtc/api.py`) *)

Module Api.

(** `get_token(request)`; [authorization] is what
    `request.headers.get("Authorization")` returns. *)
Definition get_token (authorization : option string) : option string :=
  match authorization with
  | None => None
  | Some token => Some (PyStr.replace "Bearer " EmptyString token)
  end.

End Api.

(** ** A concrete world

    An engine, a JSON reader, an SDP reader and two hubs on which the
    session code can be run. *)

Module Sample.

(** *** JSON text

    The grammar `json.loads` accepts: objects, arrays, strings with their
    escapes, numbers, `true`, `false`, `null` and the `NaN`, `Infinity`,
    `-Infinity` extensions.  An integer literal gives the `int` it
    denotes; a literal with a fraction or an exponent gives the binary64
    value nearest to it (ties to even), as `float(...)` does.  A `\u`
    escape is decoded to the UTF-8 bytes of its code point, a surrogate
    pair to those of the code point it stands for. *)

Definition is_ws (c : ascii) : bool :=
  let n := nat_of_ascii c in
  Nat.eqb n 32 || Nat.eqb n 9 || Nat.eqb n 10 || Nat.eqb n 13.

Fixpoint skip_ws (s : string) : string :=
  match s with
  | String c rest => if is_ws c then skip_ws rest else s
  | EmptyString => EmptyString
  end.

Definition is_digit (c : ascii) : bool :=
  let n := nat_of_ascii c in Nat.leb 48 n && Nat.leb n 57.

(** The longest prefix of digits, and the rest. *)
Fixpoint digits (s : string) : string * string :=
  match s with
  | String c rest =>
      if is_digit c then let '(d, r) := digits rest in (String c d, r)
      else (EmptyString, s)
  | EmptyString => (EmptyString, EmptyString)
  end.

(** The number a string of digits denotes, after the digits of [acc]. *)
Fixpoint digits_value (acc : Z) (s : string) : Z :=
  match s with
  | String c rest => digits_value (acc * 10 + Z.of_nat (nat_of_ascii c - 48)) rest
  | EmptyString => acc
  end.

(** The integer part: `0`, or a non-zero digit and digits. *)
Definition int_part (s : string) : option (string * string) :=
  match s with
  | String "0" rest => Some ("0", rest)
  | String c rest =>
      if is_digit c then let '(d, r) := digits rest in Some (String c d, r)
      else None
  | EmptyString => None
  end.

(** The optional fraction, a dot and at least one digit: its digits. *)
Definition frac_part (s : string) : option string * string :=
  match s with
  | String "." rest =>
      match digits rest with
      | (EmptyString, _) => (None, s)
      | (d, r) => (Some d, r)
      end
  | _ => (None, s)
  end.

(** The optional exponent, `e` or `E`, a sign if any, digits: its value. *)
Definition exp_part (s : string) : option Z * string :=
  match s with
  | String e rest =>
      if Ascii.eqb e "e" || Ascii.eqb e "E" then
        match rest with
        | String sg rest' =>
            if Ascii.eqb sg "+" || Ascii.eqb sg "-" then
              match digits rest' with
              | (EmptyString, _) => (None, s)
              | (d, r) =>
                  (Some (if Ascii.eqb sg "-" then (- digits_value 0 d)%Z
                         else digits_value 0 d), r)
              end
            else
              match digits rest with
              | (EmptyString, _) => (None, s)
              | (d, r) => (Some (digits_value 0 d), r)
              end
        | EmptyString => (None, s)
        end
      else (None, s)
  | EmptyString => (None, s)
  end.

(** The binary64 value nearest to [m * 10^e], as `float` computes it. *)
Definition to_float (neg : bool) (m e : Z) : spec_float :=
  match m with
  | Zpos pm =>
      match (10 ^ Z.abs e)%Z with
      | Zpos scale =>
          if (0 <=? e)%Z
          then SFdiv 53 1024 (S754_finite neg (pm * scale) 0) (S754_finite false 1 0)
          else SFdiv 53 1024 (S754_finite neg pm 0) (S754_finite false scale 0)
      | _ => S754_nan
      end
  | _ => S754_zero neg
  end.

Definition number (s : string) : option (JSON * string) :=
  let '(neg, s1) := match s with
                    | String "-" rest => (true, rest)
                    | _ => (false, s)
                    end in
  match int_part s1 with
  | Some (i, s2) =>
      let '(f, s3) := frac_part s2 in
      let '(e, s4) := exp_part s3 in
      match f, e with
      | None, None =>
          Some (JInt (if neg then (- digits_value 0 i)%Z else digits_value 0 i), s4)
      | _, _ =>
          let fd := match f with Some d => d | None => EmptyString end in
          let ev := match e with Some z => z | None => 0%Z end in
          Some (JFloat (to_float neg (digits_value 0 (i ++ fd)%string)
                          (ev - Z.of_nat (String.length fd))%Z), s4)
      end
  | None => None
  end.

Definition hex_val (c : ascii) : option nat :=
  let n := nat_of_ascii c in
  if Nat.leb 48 n && Nat.leb n 57 then Some (n - 48)
  else if Nat.leb 65 n && Nat.leb n 70 then Some (n - 55)
  else if Nat.leb 97 n && Nat.leb n 102 then Some (n - 87)
  else None.

(** The UTF-8 bytes of a code point. *)
Definition utf8 (n : N) : string :=
  (if n <? 128 then String (ascii_of_N n) EmptyString
   else if n <? 2048 then
     String (ascii_of_N (192 + n / 64))
       (String (ascii_of_N (128 + n mod 64)) EmptyString)
   else if n <? 65536 then
     String (ascii_of_N (224 + n / 4096))
       (String (ascii_of_N (128 + (n / 64) mod 64))
          (String (ascii_of_N (128 + n mod 64)) EmptyString))
   else
     String (ascii_of_N (240 + n / 262144))
       (String (ascii_of_N (128 + (n / 4096) mod 64))
          (String (ascii_of_N (128 + (n / 64) mod 64))
             (String (ascii_of_N (128 + n mod 64)) EmptyString))))%N.

(** The code unit of four hexadecimal digits. *)
Definition hex4 (h1 h2 h3 h4 : ascii) : option N :=
  match hex_val h1, hex_val h2, hex_val h3, hex_val h4 with
  | Some a, Some b, Some c, Some d =>
      Some (((N.of_nat a * 16 + N.of_nat b) * 16 + N.of_nat c) * 16 + N.of_nat d)%N
  | _, _, _, _ => None
  end.

Definition is_high (n : N) : bool := ((55296 <=? n) && (n <=? 56319))%N.
Definition is_low (n : N) : bool := ((56320 <=? n) && (n <=? 57343))%N.

Definition dquote : ascii := ascii_of_nat 34.
Definition backslash : ascii := ascii_of_nat 92.

Definition unescape (c : ascii) : option ascii :=
  if Ascii.eqb c dquote then Some c
  else if Ascii.eqb c backslash then Some c
  else if Ascii.eqb c "/" then Some c
  else if Ascii.eqb c "b" then Some (ascii_of_nat 8)
  else if Ascii.eqb c "f" then Some (ascii_of_nat 12)
  else if Ascii.eqb c "n" then Some (ascii_of_nat 10)
  else if Ascii.eqb c "r" then Some (ascii_of_nat 13)
  else if Ascii.eqb c "t" then Some (ascii_of_nat 9)
  else None.

Definition cons_str (p : string) (r : option (string * string)) : option (string * string) :=
  match r with
  | Some (body, rest) => Some ((p ++ body)%string, rest)
  | None => None
  end.

(** The characters of a string after its opening quote, up to the
    closing one. *)
Fixpoint str_body (s : string) : option (string * string) :=
  match s with
  | EmptyString => None
  | String c rest =>
      if Ascii.eqb c dquote then Some (EmptyString, rest)
      else if Ascii.eqb c backslash then
        match rest with
        | String "u" (String h1 (String h2 (String h3 (String h4 rest')))) =>
            match hex4 h1 h2 h3 h4 with
            | Some hi =>
                match rest' with
                | String b (String "u" (String l1 (String l2 (String l3
                    (String l4 rest''))))) =>
                    match hex4 l1 l2 l3 l4 with
                    | Some lo =>
                        if Ascii.eqb b backslash && is_high hi && is_low lo
                        then cons_str (utf8 (65536 + (hi - 55296) * 1024 + (lo - 56320))%N)
                                      (str_body rest'')
                        else cons_str (utf8 hi) (str_body rest')
                    | None => cons_str (utf8 hi) (str_body rest')
                    end
                | _ => cons_str (utf8 hi) (str_body rest')
                end
            | None => None
            end
        | String e rest' =>
            match unescape e with
            | Some ch => cons_str (String ch EmptyString) (str_body rest')
            | None => None
            end
        | EmptyString => None
        end
      else if Nat.ltb (nat_of_ascii c) 32 then None
      else cons_str (String c EmptyString) (str_body rest)
  end.

Definition literal (s : string) : option (JSON * string) :=
  if String.prefix "null" s then Some (JNull, String.substring 4 (String.length s - 4) s)
  else if String.prefix "true" s then Some (JBool true, String.substring 4 (String.length s - 4) s)
  else if String.prefix "false" s then Some (JBool false, String.substring 5 (String.length s - 5) s)
  else if String.prefix "NaN" s
  then Some (JFloat S754_nan, String.substring 3 (String.length s - 3) s)
  else if String.prefix "Infinity" s
  then Some (JFloat (S754_infinity false), String.substring 8 (String.length s - 8) s)
  else if String.prefix "-Infinity" s
  then Some (JFloat (S754_infinity true), String.substring 9 (String.length s - 9) s)
  else number s.

(** A later member replaces the value of an earlier one with its key. *)
Definition add_member (k : string) (v : JSON) (later : list (string * JSON))
  : list (string * JSON) :=
  match Dict.get k later with
  | Some v' => (k, v') :: Dict.remove k later
  | None => (k, v) :: later
  end.

Fixpoint value (fuel : nat) (s : string) : option (JSON * string) :=
  match fuel with
  | O => None
  | S f =>
      match skip_ws s with
      | EmptyString => None
      | String c rest as s' =>
          if Ascii.eqb c "{" then
            match skip_ws rest with
            | String "}" rest' => Some (JObj [], rest')
            | r => match members f r with
                   | Some (ms, rest') => Some (JObj ms, rest')
                   | None => None
                   end
            end
          else if Ascii.eqb c "[" then
            match skip_ws rest with
            | String "]" rest' => Some (JArr [], rest')
            | r => match elements f r with
                   | Some (l, rest') => Some (JArr l, rest')
                   | None => None
                   end
            end
          else if Ascii.eqb c dquote then
            match str_body rest with
            | Some (x, rest') => Some (JStr x, rest')
            | None => None
            end
          else literal s'
      end
  end
with elements (fuel : nat) (s : string) : option (list JSON * string) :=
  match fuel with
  | O => None
  | S f =>
      match value f s with
      | Some (v, r) =>
          match skip_ws r with
          | String "," r' =>
              match elements f r' with
              | Some (l, r'') => Some (v :: l, r'')
              | None => None
              end
          | String "]" r' => Some ([v], r')
          | _ => None
          end
      | None => None
      end
  end
with members (fuel : nat) (s : string) : option (list (string * JSON) * string) :=
  match fuel with
  | O => None
  | S f =>
      match skip_ws s with
      | String q r =>
          match (if Ascii.eqb q dquote then str_body r else None) with
          | Some (k, r1) =>
              match skip_ws r1 with
              | String ":" r2 =>
                  match value f r2 with
                  | Some (v, r3) =>
                      match skip_ws r3 with
                      | String "," r4 =>
                          match members f r4 with
                          | Some (ms, r5) => Some (add_member k v ms, r5)
                          | None => None
                          end
                      | String "}" r4 => Some ([(k, v)], r4)
                      | _ => None
                      end
                  | None => None
                  end
              | _ => None
              end
          | None => None
          end
      | _ => None
      end
  end.

(** `json.loads(s)`: one value, then only whitespace. *)
Definition loads (s : string) : option JSON :=
  match value (S (String.length s)) s with
  | Some (j, rest) =>
      match skip_ws rest with
      | EmptyString => Some j
      | _ => None
      end
  | None => None
  end.

(** *** SDP text: the `a=msid:` attribute of each `m=` section. *)

Definition sdp_step (acc : list (option string)) (line : string) : list (option string) :=
  if String.prefix "m=" line then None :: acc
  else if String.prefix "a=msid:" line then
    match acc with
    | _ :: older => Some (String.substring 7 (String.length line - 7) line) :: older
    | [] => []
    end
  else acc.

Definition media_msids (x : JSON) : Outcome (list (option string)) :=
  match x with
  | JStr text =>
      Ok (rev (fold_left sdp_step
                 (map PyStr.strip (PyStr.split (ascii_of_nat 10) text)) []))
  | _ => Raised AttributeError
  end.

(** *** Hubs *)

Definition accepting_hub (r : Request) : Outcome Response :=
  match r with
  | PostRegister _ =>
      Ok (mkResponse 200 (Some (JObj [("data", JObj [("client_id", JStr "client-1")])])))
  | PutNegotiate _ =>
      Ok (mkResponse 200
            (Some (JObj [("data", JObj [("answer", JObj [("sdp", JStr "v=0")])])])))
  | _ => Ok (mkResponse 200 (Some (JObj [])))
  end.

(** A hub that refuses the negotiation-permission check. *)
Definition refusing_hub (r : Request) : Outcome Response :=
  match r with
  | PostIsAllowNegotiate =>
      Ok (mkResponse 403 (Some (JObj [("message", JStr "forbidden")])))
  | _ => accepting_hub r
  end.

Definition library : Library := {|
  json_parse := loads;
  http_send := accepting_hub;
  candidate_from_sdp := fun _ => true;
  sdp_media_msids := media_msids;
  av_flush := fun _ _ => Ok tt;
  av_close := fun _ => Ok tt
|}.

Definition refusing_library : Library := {|
  json_parse := loads;
  http_send := refusing_hub;
  candidate_from_sdp := fun _ => true;
  sdp_media_msids := media_msids;
  av_flush := fun _ _ => Ok tt;
  av_close := fun _ => Ok tt
|}.

(** The same world on a disk that cannot be written: flushing an
    encoder and closing a container raise. *)
Definition diskless_library : Library := {|
  json_parse := loads;
  http_send := accepting_hub;
  candidate_from_sdp := fun _ => true;
  sdp_media_msids := media_msids;
  av_flush := fun _ _ => Raised OSError;
  av_close := fun _ => Raised OSError
|}.

(** *** An engine *)

Record Engine : Type := mkEngine {
  e_state : ConnectionState;
  e_gathering : IceGatheringState;
  e_local : option SessionDescription;
  e_remote : option SessionDescription;
  e_close_fails : bool          (* whether `close()` raises *)
}.

Definition engine_close (p : Engine) : Outcome unit * Engine :=
  if e_close_fails p then (Raised TransportError, p)
  else (Ok tt, mkEngine CsClosed (e_gathering p) (e_local p) (e_remote p) false).

#[export] Instance engine : PeerConnection Engine := {|
  connectionState := e_state;
  iceGatheringState := e_gathering;
  localDescription := e_local;
  remoteDescription := e_remote;
  pc_close := engine_close;
  createDataChannel := fun _ p => (Ok tt, p);
  createOffer := fun p => (Ok (mkSD "offer" (JStr "v=0")), p);
  createAnswer := fun p => (Ok (mkSD "answer" (JStr "v=0")), p);
  setLocalDescription := fun d p =>
    (Ok tt, mkEngine (e_state p) IgComplete (Some d) (e_remote p) (e_close_fails p));
  setRemoteDescription := fun d p =>
    (Ok tt, mkEngine (e_state p) (e_gathering p) (e_local p) (Some d) (e_close_fails p));
  addIceCandidate := fun _ p => (Ok tt, p);
  addTransceiver := fun _ p => (Ok tt, p)
|}.

Definition fresh_engine : Engine := mkEngine CsNew IgNew None None false.


End Sample.

(** * Properties *)

(** ** Observations on states and traces *)

#[local] Existing Instance RoomRecorder.RecordingHandler.
#[local] Existing Instance Publisher.NoopHandler.

(** A recorder that has started and not stopped. *)
Definition running (r : Recorder.t) : bool :=
  Recorder.is_started r && negb (Recorder.is_stopped r).

(** The final state of a recorder under a sequence of operations. *)
Fixpoint final_state `{Library} (ops : list Recorder.Op) (r : Recorder.t) : Recorder.t :=
  match ops with
  | [] => r
  | o :: rest => final_state rest (state_of (Recorder.apply o r))
  end.

(** No state with stopped = true is followed by a state with started = true. *)
Definition never_restarts (l : list Recorder.t) : Prop :=
  forall i j ri rj,
    i < j -> nth_error l i = Some ri -> nth_error l j = Some rj ->
    Recorder.is_stopped ri = true -> Recorder.is_started rj = false.




(** The emissions of [event] in a trace: for each, the listeners it called. *)
Definition emissions (event : string) (tr : list Effect) : list (list Listener) :=
  flat_map (fun e =>
              match e with
              | Emit ev called => if String.eqb ev event then [called] else []
              | _ => []
              end) tr.

(** A trace without a call on the transport, an emission or the closing
    of a session. *)
Definition quiet (tr : list Effect) : bool :=
  forallb (fun e => match e with
                    | PcCall _ | Emit _ _ | CloseSession _ => false
                    | _ => true
                    end) tr.

(** The sessions closed by the registry in a trace, by room. *)
Definition closes (tr : list Effect) : list string :=
  flat_map (fun e => match e with CloseSession r => [r] | _ => [] end) tr.

(** The rooms whose registry hook is among the listeners [ls]. *)
Definition hooked_rooms (ls : list Listener) : list string :=
  flat_map (fun l => match l with RegistryHook r => [r] | Subscriber _ => [] end) ls.

(** A clean-up hook that returns, works on the variant's own attributes
    only, and neither calls the transport, nor emits, nor closes sessions. *)
Definition cleanup_contained {PC Ext : Type} (h : RTC.TrackHandler (PC := PC) (Ext := Ext)) : Prop :=
  forall s : RTC.t PC Ext,
  exists e tr, RTC._on_close s = (Ok tt, RTC.set_ext e s, tr) /\ quiet tr = true.

(** A clean-up hook that works on the variant's own attributes only and
    neither calls the transport, nor emits, nor closes sessions, whether
    it returns or raises. *)
Definition cleanup_quiet {PC Ext : Type} (h : RTC.TrackHandler (PC := PC) (Ext := Ext)) : Prop :=
  forall s : RTC.t PC Ext,
  exists o e tr, RTC._on_close s = (o, RTC.set_ext e s, tr) /\ quiet tr = true.

(** An environment in which every output file can be written. *)
Definition writes_succeed `{Library} : Prop :=
  (forall f t, av_flush f t = Ok tt) /\ (forall f, av_close f = Ok tt).

(** The recorder [r] after the session bound the proxy numbered [n] of
    the audio or video track [t] to it. *)
Definition with_track (t : Track) (n : nat) (r : Recorder.t) : Recorder.t :=
  if String.eqb (kind t) "audio"
  then state_of (Recorder.add_audio_track (mkRelayTrack n t) r)
  else state_of (Recorder.add_video_track (mkRelayTrack n t) r).


(** The files of the recorders created in a trace. *)
Definition created (tr : list Effect) : list string :=
  flat_map (fun e => match e with AvOpen f => [f] | _ => [] end) tr.

(** The tracks handed to the relay in a trace. *)
Definition relayed (tr : list Effect) : list Track :=
  flat_map (fun e => match e with RelaySubscribe t => [t] | _ => [] end) tr.

(** A trace entry that is only a debug log line. *)
Definition is_debug_log (e : Effect) : bool :=
  match e with Log Debug _ => true | _ => false end.

(** The result [r] with the log lines [logs] written first. *)
Definition after_logs {S A : Type} (logs : list Effect)
           (r : Outcome A * S * list Effect) : Outcome A * S * list Effect :=
  (outcome_of r, state_of r, logs ++ trace_of r).

(** The requests sent in a trace. *)
Definition requests (tr : list Effect) : list Request :=
  flat_map (fun e => match e with Http r => [r] | _ => [] end) tr.

(** Whether a trace starts the event-stream loop. *)
Definition listen_scheduled (tr : list Effect) : bool :=
  existsb (fun e => match e with ScheduleListen => true | _ => false end) tr.

(** Whether a trace holds the line `connect` logs when it fails. *)
Definition logs_failure (tr : list Effect) : bool :=
  existsb (fun e => match e with
                    | Log Error msg => String.eqb msg "Failed to connect: %s"
                    | _ => false
                    end) tr.


(** Case analysis on the innermost undecided call of the goal. *)
Ltac case_step :=
  match goal with
  | |- context [match ?x with _ => _ end] =>
      lazymatch x with
      | context [match _ with _ => _ end] => fail
      | _ => destruct x eqn:?
      end
  end.

(** A recorder with an audio or a video track bound. *)
Definition has_track (r : Recorder.t) : bool :=
  match Recorder.audio_track r, Recorder.video_track r with
  | None, None => false
  | _, _ => true
  end.

(** The calls made on the container and the encoder tasks in a trace. *)
Definition writer_calls (tr : list Effect) : list Effect :=
  filter Recorder.is_writer_call tr.

(** The tracks registered with a writer, by proxy number. *)
Definition track_keys (w : MediaRecorder.t) : list nat :=
  map (fun p => proxy_no (fst p)) (MediaRecorder.tracks w).

(** What the operations of a recorder keep: once stopped the container is
    closed, and a closed container has no track left. *)
Definition finished_when_stopped (r : Recorder.t) : Prop :=
  (Recorder.is_stopped r = true ->
   MediaRecorder.container (Recorder._recorder r) = false) /\
  (MediaRecorder.container (Recorder._recorder r) = false ->
   MediaRecorder.tracks (Recorder._recorder r) = []).

(** A media section whose msid attribute has exactly two parts. *)
Definition msid_parts (m : option string) : option (string * string) :=
  match m with
  | Some (String c rest as x) =>
      match PyStr.split " " x with
      | [b0; b1] => Some (b0, b1)
      | _ => None
      end
  | _ => None
  end.

(** `track[k]` of an announced track, when it is there. *)
Definition member (j : JSON) (k : string) : JSON :=
  match RTC.getitem j k with Ok v => v | _ => JNull end.

(** An entry of a `tracks_available` payload carrying both fields. *)
Definition announced (track : JSON) : bool :=
  match RTC.getitem track "client_id", RTC.getitem track "track_id" with
  | Ok _, Ok _ => true
  | _, _ => false
  end.

(** The subscription request built from the entries of a payload. *)
Definition subscriptions (its : list (string * JSON)) : list JSON :=
  map (fun kv => JObj [("track_id", member (snd kv) "track_id");
                       ("client_id", member (snd kv) "client_id")]) its.

(** `tracks_map` after the entries of a payload have been written to it. *)
Definition recorded (its : list (string * JSON)) (m : Dict.t JSON) : Dict.t JSON :=
  fold_left (fun m kv => Dict.set (fst kv) (member (snd kv) "client_id") m) its m.

(** The body of the `settracksources` request for the entries of a payload. *)
Definition track_sources (its : list (string * JSON)) : JSON :=
  JArr (map (fun p => JObj [("track_id", JStr (fst p)); ("source", JStr "media")]) its).

(** The recorders of a dict after [f] ran on each, and the calls made. *)
Definition states_under (f : M Recorder.t unit) (d : Dict.t Recorder.t)
  : Dict.t Recorder.t :=
  map (fun kv => (fst kv, state_of (f (snd kv)))) d.

Definition traces_under (f : M Recorder.t unit) (d : Dict.t Recorder.t)
  : list Effect :=
  flat_map (fun kv => trace_of (f (snd kv))) d.

(** ** Scenarios

    The scenarios run in the concrete world. *)

#[local] Existing Instance Sample.engine.
#[local] Existing Instance Sample.library.

Definition mic : Track := mkTrack "a1" "audio".
Definition cam : Track := mkTrack "v1" "video".

Definition mic_proxy : RelayTrack := mkRelayTrack 0 mic.
Definition cam_proxy : RelayTrack := mkRelayTrack 1 cam.

(** A recorder as `Recorder(threadpool, "stream0", "recordings/stream0.mp4")`
    builds it. *)
Definition fresh_recorder : Recorder.t :=
  fst (Recorder.new "stream0" "recordings/stream0.mp4").

(** The same recorder with a microphone bound, started. *)
Definition running_recorder : Recorder.t :=
  final_state [Recorder.AddAudio mic_proxy; Recorder.Start] fresh_recorder.

(** ... and then stopped. *)
Definition stopped_recorder : Recorder.t :=
  final_state [Recorder.AddAudio mic_proxy; Recorder.Start; Recorder.Stop] fresh_recorder.


(** A recording session as the registry sets it up for a room on
    engine [p]: built, then hooked on "ended"; a subscriber listens too. *)
Definition room_session (room : string) (p : Sample.Engine)
  : RTC.t Sample.Engine RoomRecorder.Ext :=
  state_of
    ((RTC.on "ended" (RegistryHook room) ;; RTC.on "ended" (Subscriber 0))
       (state_of (RoomRecorder.new "recordings" room "token" "recorder-bot" p))).

Definition room1 : RTC.t Sample.Engine RoomRecorder.Ext :=
  room_session "room1" Sample.fresh_engine.



Definition newline : string := String (ascii_of_nat 10) EmptyString.

(** A remote description announcing one stream, "stream0", with an audio
    and a video track. *)
Definition remote_sdp : string :=
  String.concat newline
    ["v=0";
     "m=audio 9 UDP/TLS/RTP/SAVPF 111"; "a=msid:stream0 a1";
     "m=video 9 UDP/TLS/RTP/SAVPF 96"; "a=msid:stream0 v1"].

Definition negotiated_engine : Sample.Engine :=
  Sample.mkEngine CsConnected IgComplete
    (Some (mkSD "answer" (JStr "v=0")))
    (Some (mkSD "offer" (JStr remote_sdp)))
    false.

(** A remote description announcing two streams, each with an audio and
    a video track, and the session of room "room1" connected under it. *)
Definition two_streams_sdp : string :=
  String.concat newline
    ["v=0";
     "m=audio 9 UDP/TLS/RTP/SAVPF 111"; "a=msid:stream0 a1";
     "m=video 9 UDP/TLS/RTP/SAVPF 96"; "a=msid:stream0 v1";
     "m=audio 9 UDP/TLS/RTP/SAVPF 111"; "a=msid:stream1 a2";
     "m=video 9 UDP/TLS/RTP/SAVPF 96"; "a=msid:stream1 v2"].

Definition two_streams_engine : Sample.Engine :=
  Sample.mkEngine CsConnected IgComplete
    (Some (mkSD "answer" (JStr "v=0")))
    (Some (mkSD "offer" (JStr two_streams_sdp)))
    false.

(** The session of room "room1" once connected. *)
Definition live_room : RTC.t Sample.Engine RoomRecorder.Ext :=
  room_session "room1" negotiated_engine.

Definition two_streams_room : RTC.t Sample.Engine RoomRecorder.Ext :=
  room_session "room1" two_streams_engine.

(** The connected session after it received the microphone track, and
    after it received instead a track that is neither audio nor video. *)
Definition recording_room : RTC.t Sample.Engine RoomRecorder.Ext :=
  state_of (RTC.on_track mic live_room).

Definition odd_track : Track := mkTrack "x1" "text".

Definition trackless_room : RTC.t Sample.Engine RoomRecorder.Ext :=
  state_of (RTC.on_track odd_track live_room).

Definition quote : string := String Sample.dquote EmptyString.

(** The `data:` line of a `candidate` event. *)
Definition candidate_line : string :=
  String.concat quote
    ["data: {"; "candidate"; ": "; "candidate:1 1 udp 2130706431 10.0.0.1 5000 typ host";
     ", "; "sdpMid"; ": "; "0"; ", "; "sdpMLineIndex"; ": 0}"].

(** The entries of a `tracks_available` payload, and its text. *)
Definition available_tracks : list (string * JSON) :=
  [("t1", JObj [("client_id", JStr "c1"); ("track_id", JStr "t1")]);
   ("t2", JObj [("client_id", JStr "c2"); ("track_id", JStr "t2")])].

Definition available_payload : string :=
  String.concat quote
    ["{"; "tracks"; ": {"; "t1"; ": {"; "client_id"; ": "; "c1"; ", "; "track_id"; ": ";
     "t1"; "}, "; "t2"; ": {"; "client_id"; ": "; "c2"; ", "; "track_id"; ": "; "t2";
     "}}}"].

(** A hub that turns down the `settracksources` request. *)
Definition strict_hub (r : Request) : Outcome Response :=
  match r with
  | PutSetTrackSources _ => Ok (mkResponse 500 (Some (JObj [])))
  | _ => Sample.accepting_hub r
  end.

Definition strict_library : Library := {|
  json_parse := Sample.loads;
  http_send := strict_hub;
  candidate_from_sdp := fun _ => true;
  sdp_media_msids := Sample.media_msids;
  av_flush := fun _ _ => Ok tt;
  av_close := fun _ => Ok tt
|}.

Definition tracks_line : string := ("data: " ++ available_payload)%string.

(** The registry after a recorder was created for room "room1", the
    session that call stored, and the registry after a second recorder was
    created for the same room. *)
Definition first_registry : RecorderManager.t Sample.Engine :=
  state_of (RecorderManager.create_recorder "token" "room1" "bot" "recordings"
              Sample.fresh_engine (RecorderManager.mk [])).

Definition first_session : RTC.t Sample.Engine RoomRecorder.Ext :=
  state_of
    (RTC.on "ended" (RegistryHook "room1")
       (state_of (RTC.register
                    (state_of (RoomRecorder.new "recordings" "room1" "token" "bot"
                                 Sample.fresh_engine))))).

Definition second_registry : RecorderManager.t Sample.Engine :=
  state_of (RecorderManager.create_recorder "token" "room1" "bot2" "recordings"
              Sample.fresh_engine first_registry).

(** A connected session whose remote description announces an audio
    section without msid. *)
Definition plain_room : RTC.t Sample.Engine RoomRecorder.Ext :=
  room_session "room1"
    (Sample.mkEngine CsConnected IgComplete
       (Some (mkSD "answer" (JStr "v=0")))
       (Some (mkSD "offer"
                (JStr (String.concat newline ["v=0"; "m=audio 9 UDP/TLS/RTP/SAVPF 111"]))))
       false).

(** ** Recorder *)

Section RecorderFacts.

Context `{Library}.

Lemma writer_run A (m : M MediaRecorder.t A) (r : Recorder.t) :
  Recorder.writer m r =
    (outcome_of (m (Recorder._recorder r)),
     Recorder.set_recorder (state_of (m (Recorder._recorder r))) r,
     trace_of (m (Recorder._recorder r))).
Proof.
  unfold Recorder.writer, zoom, outcome_of, state_of, trace_of.
  destruct (m (Recorder._recorder r)) as [[o w] tr]. reflexivity.
Qed.

Lemma stop_idle (r : Recorder.t) :
  running r = false -> Recorder.stop r = (Ok tt, r, []).
Proof.
  unfold running, Recorder.is_started, Recorder.is_stopped. intros Hg.
  unfold Recorder.stop, bind, get. cbv beta iota. rewrite Hg. reflexivity.
Qed.

(** `stop()` on a running recorder whose writer finalizes the file. *)
Lemma stop_running (r : Recorder.t) :
  running r = true ->
  outcome_of (MediaRecorder.stop (Recorder._recorder r)) = Ok tt ->
  Recorder.stop r =
    (Ok tt,
     Recorder.set_flags false true
       (Recorder.set_recorder (state_of (MediaRecorder.stop (Recorder._recorder r))) r),
     trace_of (MediaRecorder.stop (Recorder._recorder r))
       ++ [Log Debug "Recorder stopped at %s"]).
Proof.
  unfold running, Recorder.is_started, Recorder.is_stopped. intros Hg Hok.
  unfold Recorder.stop, bind, get. cbv beta iota. rewrite Hg.
  rewrite writer_run. rewrite Hok. reflexivity.
Qed.

(** `stop()` on a running recorder whose writer fails: the exception
    leaves `stop()` before the flags are touched. *)
Lemma stop_failing (r : Recorder.t) :
  running r = true ->
  outcome_of (MediaRecorder.stop (Recorder._recorder r)) <> Ok tt ->
  Recorder.stop r =
    (outcome_of (MediaRecorder.stop (Recorder._recorder r)),
     Recorder.set_recorder (state_of (MediaRecorder.stop (Recorder._recorder r))) r,
     trace_of (MediaRecorder.stop (Recorder._recorder r))).
Proof.
  unfold running, Recorder.is_started, Recorder.is_stopped. intros Hg Hbad.
  unfold Recorder.stop, bind, get. cbv beta iota. rewrite Hg.
  rewrite writer_run.
  destruct (outcome_of (MediaRecorder.stop (Recorder._recorder r))) as [[] | e | ];
    [exfalso; apply Hbad; reflexivity | reflexivity | reflexivity].
Qed.

(** What the writer's `stop()` leaves: a closed container without tracks
    when it returns, an open one when it does not. *)
Lemma writer_stop_state (w : MediaRecorder.t) :
  (outcome_of (MediaRecorder.stop w) = Ok tt ->
   MediaRecorder.container (state_of (MediaRecorder.stop w)) = false /\
   (MediaRecorder.container w = true ->
    MediaRecorder.tracks (state_of (MediaRecorder.stop w)) = [] /\
    In (AvClose (MediaRecorder.file w)) (trace_of (MediaRecorder.stop w)))) /\
  (outcome_of (MediaRecorder.stop w) <> Ok tt ->
   MediaRecorder.container w = true /\
   MediaRecorder.container (state_of (MediaRecorder.stop w)) = true).
Proof.
  unfold MediaRecorder.stop.
  destruct (MediaRecorder.container w) eqn:Hc.
  - destruct (MediaRecorder.stop_tracks _ _) as [[o l] tr].
    destruct o as [[] | e | ].
    + destruct (av_close (MediaRecorder.file w)) as [[] | e | ];
        unfold outcome_of, state_of, trace_of; simpl; split;
        try (intros Hx; discriminate Hx);
        try (intros Hx; exfalso; apply Hx; reflexivity).
      * intros _. split; [reflexivity |]. intros _. split; [reflexivity |].
        apply in_or_app. right. left. reflexivity.
      * intros _. split; [reflexivity | exact Hc].
      * intros _. split; [reflexivity | exact Hc].
    + unfold outcome_of, state_of; simpl. split; [intros Hx; discriminate Hx |].
      intros _. split; [reflexivity | exact Hc].
    + unfold outcome_of, state_of; simpl. split; [intros Hx; discriminate Hx |].
      intros _. split; [reflexivity | exact Hc].
  - unfold outcome_of, state_of; simpl. split.
    + intros _. split; [exact Hc | intros Hx; discriminate Hx].
    + intros Hx. exfalso. apply Hx. reflexivity.
Qed.

Lemma start_flags (r : Recorder.t) :
  let r' := state_of (Recorder.start r) in
  (outcome_of (Recorder.start r) = Ok tt /\
   Recorder.is_started r' = true /\ Recorder.is_stopped r' = false) \/
  (Recorder.audio_track r = None /\ Recorder.video_track r = None /\ r' = r).
Proof.
  unfold Recorder.start, bind, get. cbv beta iota zeta.
  destruct (Recorder.audio_track r) eqn:Ha, (Recorder.video_track r) eqn:Hv;
    try (right; repeat split; reflexivity);
    left; rewrite writer_run; unfold MediaRecorder.start;
    destruct (MediaRecorder.start_tracks _ _); repeat split; reflexivity.
Qed.

Lemma add_track_flags (r : Recorder.t) (t : RelayTrack) :
  (Recorder.is_started (state_of (Recorder.add_audio_track t r)) = Recorder.is_started r /\
   Recorder.is_stopped (state_of (Recorder.add_audio_track t r)) = Recorder.is_stopped r) /\
  (Recorder.is_started (state_of (Recorder.add_video_track t r)) = Recorder.is_started r /\
   Recorder.is_stopped (state_of (Recorder.add_video_track t r)) = Recorder.is_stopped r).
Proof.
  unfold Recorder.add_audio_track, Recorder.add_video_track, bind, modify.
  cbv beta iota. rewrite !writer_run.
  unfold MediaRecorder.addTrack, bind, get. cbv beta iota. simpl.
  destruct (MediaRecorder.container (Recorder._recorder r)); simpl; auto.
Qed.

(** Every operation keeps "started and stopped are not both set". *)
Lemma apply_exclusive (o : Recorder.Op) (r : Recorder.t) :
  Recorder.is_started r && Recorder.is_stopped r = false ->
  Recorder.is_started (state_of (Recorder.apply o r))
    && Recorder.is_stopped (state_of (Recorder.apply o r)) = false.
Proof.
  intros Hr. destruct o as [t | t | | ]; simpl.
  - destruct (add_track_flags r t) as [[-> ->] _]. exact Hr.
  - destruct (add_track_flags r t) as [_ [-> ->]]. exact Hr.
  - destruct (start_flags r) as [(_ & -> & ->) | (_ & _ & ->)]; [reflexivity | exact Hr].
  - destruct (running r) eqn:Hg.
    + destruct (outcome_of (MediaRecorder.stop (Recorder._recorder r)))
        as [[] | e | ] eqn:Hw.
      * rewrite (stop_running r Hg Hw). reflexivity.
      * rewrite (stop_failing r Hg) by (rewrite Hw; discriminate). exact Hr.
      * rewrite (stop_failing r Hg) by (rewrite Hw; discriminate). exact Hr.
    + rewrite (stop_idle r Hg). exact Hr.
Qed.

Lemma states_exclusive (ops : list Recorder.Op) :
  forall r,
    Recorder.is_started r && Recorder.is_stopped r = false ->
    Forall (fun x => Recorder.is_started x && Recorder.is_stopped x = false)
           (Recorder.states ops r).
Proof.
  induction ops as [| o ops IH]; intros r Hr; simpl.
  - constructor; [exact Hr | constructor].
  - constructor; [exact Hr | apply IH, apply_exclusive, Hr].
Qed.


(** Operations other than `start()` leave a stopped recorder stopped and
    not started, state after state. *)
Lemma stopped_run (ops : list Recorder.Op) :
  forall r m rj,
    Recorder.is_stopped r = true ->
    Recorder.is_started r = false ->
    nth_error (Recorder.states ops r) m = Some rj ->
    (forall n, n < m -> nth_error ops n <> Some Recorder.Start) ->
    Recorder.is_stopped rj = true /\ Recorder.is_started rj = false.
Proof.
  induction ops as [| o ops IH]; intros r m rj Hs Hn Hm Hops.
  - destruct m as [| m]; simpl in Hm.
    + inversion Hm; subst. split; assumption.
    + destruct m; discriminate Hm.
  - destruct m as [| m]; simpl in Hm.
    + inversion Hm; subst. split; assumption.
    + assert (Ho : o <> Recorder.Start).
      { intros ->. apply (Hops 0); [lia | reflexivity]. }
      apply (IH (state_of (Recorder.apply o r)) m rj).
      * destruct o as [t | t | | ]; simpl.
        -- destruct (add_track_flags r t) as [[_ ->] _]. exact Hs.
        -- destruct (add_track_flags r t) as [_ [_ ->]]. exact Hs.
        -- contradiction.
        -- rewrite stop_idle; [exact Hs |]. unfold running. rewrite Hn. reflexivity.
      * destruct o as [t | t | | ]; simpl.
        -- destruct (add_track_flags r t) as [[-> _] _]. exact Hn.
        -- destruct (add_track_flags r t) as [_ [-> _]]. exact Hn.
        -- contradiction.
        -- rewrite stop_idle; [exact Hn |]. unfold running. rewrite Hn. reflexivity.
      * exact Hm.
      * intros n Hlt. apply (Hops (S n)). lia.
Qed.

(** The states from the [i]-th on are the states of the remaining
    operations run from the [i]-th state. *)
Lemma states_from (i : nat) :
  forall ops r ri m,
    nth_error (Recorder.states ops r) i = Some ri ->
    nth_error (Recorder.states ops r) (i + m)
      = nth_error (Recorder.states (skipn i ops) ri) m.
Proof.
  induction i as [| i IH]; intros ops r ri m Hi.
  - assert (Hr : ri = r) by (destruct ops; simpl in Hi; inversion Hi; reflexivity).
    subst ri. reflexivity.
  - destruct ops as [| o ops]; simpl in Hi.
    + destruct i; discriminate Hi.
    + simpl. apply IH. exact Hi.
Qed.

End RecorderFacts.

(** C8, as stated, fails: a recorder with a microphone bound that is
    started, stopped and started again is stopped (state 3) and later
    started (state 4). *)
Lemma restart_after_stop :
  ~ never_restarts
      (Recorder.states
         [Recorder.AddAudio mic_proxy; Recorder.Start; Recorder.Stop; Recorder.Start]
         fresh_recorder).
Proof.
  intros Hnever.
  specialize (Hnever 3 4 stopped_recorder
                (state_of (Recorder.start stopped_recorder))).
  assert (Hs : Recorder.is_started (state_of (Recorder.start stopped_recorder)) = false).
  { apply Hnever; [lia | reflexivity | reflexivity | reflexivity]. }
  vm_compute in Hs. discriminate Hs.
Qed.

(** C8 (amended): what every sequence of add-track/start/stop operations
    on a new recorder keeps is that started and stopped are never both
    true, and that a recorder leaves the stopped state through `start()`
    only: a state with stopped = true is followed by states with
    stopped = true and started = false as long as no `start()` is
    applied. *)
Theorem stopped_until_start `{Library} (sid path : string) (ops : list Recorder.Op) :
  let l := Recorder.states ops (fst (Recorder.new sid path)) in
  Forall (fun r => Recorder.is_started r && Recorder.is_stopped r = false) l /\
  (forall i j ri rj,
      i < j ->
      nth_error l i = Some ri ->
      nth_error l j = Some rj ->
      Recorder.is_stopped ri = true ->
      (forall n, i <= n < j -> nth_error ops n <> Some Recorder.Start) ->
      Recorder.is_stopped rj = true /\ Recorder.is_started rj = false).
Proof.
  intros l.
  assert (Hex : Forall (fun r => Recorder.is_started r && Recorder.is_stopped r = false) l)
    by (apply states_exclusive; reflexivity).
  split; [exact Hex |].
  intros i j ri rj Hij Hi Hj Hs Hops.
  assert (Hn : Recorder.is_started ri = false).
  { rewrite Forall_forall in Hex. specialize (Hex ri (nth_error_In _ _ Hi)).
    simpl in Hex. rewrite Hs, andb_true_r in Hex. exact Hex. }
  replace j with (i + (j - i)) in Hj by lia.
  subst l. rewrite (states_from i ops _ (j - i) Hi) in Hj.
  apply (@stopped_run _ (skipn i ops) ri (j - i) rj Hs Hn Hj).
  intros n Hlt. rewrite nth_error_skipn. apply Hops. lia.
Qed.

Lemma stopped_until_start_witness :
  Recorder.is_stopped
    (final_state [Recorder.AddAudio mic_proxy; Recorder.Start; Recorder.Stop;
                  Recorder.AddVideo cam_proxy; Recorder.Stop] fresh_recorder) = true /\
  Recorder.is_started
    (final_state [Recorder.AddAudio mic_proxy; Recorder.Start; Recorder.Stop;
                  Recorder.AddVideo cam_proxy; Recorder.Stop] fresh_recorder) = false.
Proof.
  apply (proj2 (stopped_until_start "stream0" "recordings/stream0.mp4"
                  [Recorder.AddAudio mic_proxy; Recorder.Start; Recorder.Stop;
                   Recorder.AddVideo cam_proxy; Recorder.Stop])
           3 5 stopped_recorder).
  - lia.
  - reflexivity.
  - reflexivity.
  - reflexivity.
  - intros n Hn. assert (Hc : n = 3 \/ n = 4) by lia.
    destruct Hc as [-> | ->]; discriminate.
Defined.



(** ** Session close *)

Lemma quiet_app (a b : list Effect) :
  quiet (a ++ b) = quiet a && quiet b.
Proof. unfold quiet. apply forallb_app. Qed.


Lemma quiet_emissions (ev : string) (tr : list Effect) :
  quiet tr = true -> emissions ev tr = [].
Proof.
  unfold quiet, emissions. induction tr as [| e tr IH]; simpl; intros Hq.
  - reflexivity.
  - apply andb_true_iff in Hq. destruct Hq as [He Hq].
    destruct e; try discriminate He; simpl; auto.
Qed.


Lemma emissions_app (ev : string) (a b : list Effect) :
  emissions ev (a ++ b) = emissions ev a ++ emissions ev b.
Proof. unfold emissions. apply flat_map_app. Qed.

Section CloseFacts.

Context {PC Ext : Type} `{PeerConnection PC}.
Context (handler : RTC.TrackHandler (PC := PC) (Ext := Ext)).
Hypothesis Hclean : cleanup_contained handler.

(** `close()` on a session whose transport is still there. *)
Lemma close_live (s : RTC.t PC Ext) (p p' : PC) :
  RTC.pc s = Some p ->
  pc_close p = (Ok tt, p') ->
  exists e tr,
    quiet tr = true /\
    RTC.close s =
      (Ok tt,
       RTC.set_listeners [] (RTC.set_ext e (RTC.set_pc None s)),
       PcCall PcClose :: tr
         ++ [Emit "ended" (RTC.listeners_of "ended" s); RemoveAllListeners;
             Log Debug "Agent closed %s"]).
Proof.
  intros Hpc Hclose.
  destruct (Hclean (RTC.set_pc None s)) as (e & tr & Hrun & Hq).
  exists e, tr. split; [exact Hq |].
  unfold RTC.close, bind, get. cbv beta iota. rewrite Hpc.
  unfold RTC.with_pc. rewrite Hpc, Hclose. unfold modify. cbv beta iota.
  replace (RTC.set_pc None (RTC.set_pc (Some p') s)) with (RTC.set_pc None s)
    by reflexivity.
  rewrite Hrun. reflexivity.
Qed.



End CloseFacts.

Section CleanupFacts.

Context `{Library}.

Lemma stop_tracks_quiet (f : string) (l : list (RelayTrack * MediaRecorder.Context)) :
  quiet (trace_of (MediaRecorder.stop_tracks f l)) = true.
Proof.
  induction l as [| [t c] l IH]; simpl; [reflexivity |].
  destruct (MediaRecorder.stop_tracks f l) as [[o l'] tr].
  unfold trace_of in *. simpl in IH.
  destruct (MediaRecorder.task c); [| exact IH].
  destruct (av_flush f t); simpl; [exact IH | reflexivity | reflexivity].
Qed.

Lemma stop_tracks_ok (f : string) (l : list (RelayTrack * MediaRecorder.Context)) :
  (forall t, av_flush f t = Ok tt) ->
  outcome_of (MediaRecorder.stop_tracks f l) = Ok tt.
Proof.
  intros Hflush. induction l as [| [t c] l IH]; simpl; [reflexivity |].
  destruct (MediaRecorder.stop_tracks f l) as [[o l'] tr].
  unfold outcome_of in *. simpl in IH. subst o.
  destruct (MediaRecorder.task c); [| reflexivity].
  rewrite Hflush. reflexivity.
Qed.

Lemma writer_stop_quiet (w : MediaRecorder.t) :
  quiet (trace_of (MediaRecorder.stop w)) = true.
Proof.
  unfold MediaRecorder.stop. destruct (MediaRecorder.container w); [| reflexivity].
  pose proof (stop_tracks_quiet (MediaRecorder.file w) (MediaRecorder.tracks w)) as Hq.
  destruct (MediaRecorder.stop_tracks _ _) as [[o l] tr].
  unfold trace_of in *. simpl in Hq.
  destruct o as [[] | e | ]; [| exact Hq | exact Hq].
  destruct (av_close (MediaRecorder.file w)); simpl;
    rewrite quiet_app, Hq; reflexivity.
Qed.

Lemma writer_stop_ok (w : MediaRecorder.t) :
  writes_succeed -> outcome_of (MediaRecorder.stop w) = Ok tt.
Proof.
  intros [Hflush Hclose]. unfold MediaRecorder.stop.
  destruct (MediaRecorder.container w); [| reflexivity].
  pose proof (stop_tracks_ok (MediaRecorder.file w) (MediaRecorder.tracks w)
                (Hflush (MediaRecorder.file w))) as Hok.
  destruct (MediaRecorder.stop_tracks _ _) as [[o l] tr].
  unfold outcome_of in *. simpl in Hok. subst o.
  rewrite Hclose. reflexivity.
Qed.

Lemma stop_quiet (r : Recorder.t) :
  quiet (trace_of (Recorder.stop r)) = true.
Proof.
  destruct (running r) eqn:Hrun.
  - destruct (outcome_of (MediaRecorder.stop (Recorder._recorder r)))
      as [[] | e | ] eqn:Hw.
    + rewrite (stop_running r Hrun Hw). unfold trace_of. simpl.
      rewrite quiet_app. simpl. rewrite andb_true_r. apply writer_stop_quiet.
    + rewrite (stop_failing r Hrun) by (rewrite Hw; discriminate).
      apply writer_stop_quiet.
    + rewrite (stop_failing r Hrun) by (rewrite Hw; discriminate).
      apply writer_stop_quiet.
  - rewrite (stop_idle r Hrun). reflexivity.
Qed.

Lemma stop_ok (r : Recorder.t) :
  writes_succeed -> outcome_of (Recorder.stop r) = Ok tt.
Proof.
  intros Hw. destruct (running r) eqn:Hrun.
  - rewrite (stop_running r Hrun (writer_stop_ok (Recorder._recorder r) Hw)).
    reflexivity.
  - rewrite (stop_idle r Hrun). reflexivity.
Qed.

(** `if recorder.is_started and not recorder.is_stopped: await recorder.stop()`
    is what `stop()` does by itself. *)
Lemma stop_if_running_is_stop (r : Recorder.t) :
  RoomRecorder.stop_if_running r = Recorder.stop r.
Proof.
  unfold RoomRecorder.stop_if_running, bind, get. cbv beta iota.
  fold (running r). destruct (running r) eqn:Hrun.
  - destruct (Recorder.stop r) as [[o r'] tr]. destruct o; simpl; reflexivity.
  - rewrite (stop_idle r Hrun). reflexivity.
Qed.

Lemma each_recorder_trace_quiet (f : M Recorder.t unit) :
  (forall r, quiet (trace_of (f r)) = true) ->
  forall d, quiet (trace_of (RoomRecorder.each_recorder f d)) = true.
Proof.
  intros Hf. induction d as [| [k r] d IH]; simpl; [reflexivity |].
  pose proof (Hf r) as Hq. destruct (f r) as [[o r'] tr].
  unfold trace_of in Hq. simpl in Hq.
  destruct (RoomRecorder.each_recorder f d) as [[o2 d'] tr2].
  unfold trace_of in IH. simpl in IH.
  destruct o; unfold trace_of; simpl; [| exact Hq | exact Hq].
  rewrite quiet_app, Hq, IH. reflexivity.
Qed.

Lemma each_recorder_quiet (f : M Recorder.t unit) :
  (forall r, outcome_of (f r) = Ok tt /\ quiet (trace_of (f r)) = true) ->
  forall d,
    outcome_of (RoomRecorder.each_recorder f d) = Ok tt /\
    quiet (trace_of (RoomRecorder.each_recorder f d)) = true.
Proof.
  intros Hf. induction d as [| [k r] d IH]; simpl.
  - split; reflexivity.
  - destruct (Hf r) as [Ho Hq]. destruct (f r) as [[o r'] tr].
    unfold outcome_of, trace_of in Ho, Hq. simpl in Ho, Hq. subst o.
    destruct (RoomRecorder.each_recorder f d) as [[o2 d'] tr2].
    unfold outcome_of, trace_of in *. simpl in *.
    destruct IH as [Ho2 Hq2]. split; [exact Ho2 |].
    rewrite quiet_app, Hq, Hq2. reflexivity.
Qed.

End CleanupFacts.

(** The clean-up of a recording session stops recorders and nothing else;
    it returns when the output files can be written. *)
Lemma recording_cleanup_quiet {PC : Type} `{PeerConnection PC} `{Library} :
  cleanup_quiet (RoomRecorder.RecordingHandler (PC := PC)).
Proof.
  intros s. simpl. unfold RoomRecorder._on_close, RoomRecorder.for_recorders.
  unfold bind, tell, zoom. cbv beta iota.
  pose proof (each_recorder_trace_quiet RoomRecorder.stop_if_running
                (fun r => eq_ind_r (fun m => quiet (trace_of m) = true)
                            (stop_quiet r) (stop_if_running_is_stop r))
                (RoomRecorder.recorders s)) as Hq.
  destruct (RoomRecorder.each_recorder RoomRecorder.stop_if_running
              (RoomRecorder.recorders s)) as [[o d] tr].
  unfold trace_of in Hq. simpl in Hq.
  exists o. eexists. exists (Log Debug "Recorder %s closed" :: tr).
  split; [reflexivity | exact Hq].
Qed.

Lemma recording_cleanup_contained {PC : Type} `{PeerConnection PC} `{Library} :
  writes_succeed ->
  cleanup_contained (RoomRecorder.RecordingHandler (PC := PC)).
Proof.
  intros Hw s. simpl. unfold RoomRecorder._on_close, RoomRecorder.for_recorders.
  unfold bind, tell, zoom. cbv beta iota.
  destruct (each_recorder_quiet RoomRecorder.stop_if_running
              (fun r => eq_ind_r (fun m => outcome_of m = Ok tt /\ quiet (trace_of m) = true)
                          (conj (stop_ok r Hw) (stop_quiet r))
                          (stop_if_running_is_stop r))
              (RoomRecorder.recorders s))
    as [Ho Hq].
  destruct (RoomRecorder.each_recorder RoomRecorder.stop_if_running
              (RoomRecorder.recorders s)) as [[o d] tr].
  unfold outcome_of, trace_of in Ho, Hq. simpl in Ho, Hq. subst o.
  eexists. exists (Log Debug "Recorder %s closed" :: tr).
  split; [reflexivity | exact Hq].
Qed.

(** The concrete world writes its files. *)
Lemma sample_writes : writes_succeed (H := Sample.library).
Proof. split; reflexivity. Qed.

Lemma noop_cleanup_contained {PC : Type} :
  cleanup_contained (Publisher.NoopHandler (PC := PC)).
Proof.
  intros s. exists (RTC.ext s), []. split; [destruct s; reflexivity | reflexivity].
Qed.




(** ** The per-track activity counter *)

(** C7, as stated, fails: a track received by the recording session of
    room "room1" before any remote description is set makes
    `get_track_msid` return `{}`, the dict lookup raise, and `on_track`
    leave the counter where it was. *)
Lemma unhandled_track_not_counted :
  outcome_of (RTC._handle_track mic room1) = Raised TypeError /\
  RTC._track_count (state_of (RTC.on_track mic room1))
    <> (RTC._track_count room1 + 1)%Z.
Proof.
  split; [reflexivity |]. vm_compute. intros Habs. discriminate Habs.
Qed.

(** C7 (amended): `on_track` increments the counter for a received track
    whose handler returns, and leaves it as the handler left it when the
    handler raises; the "ended" hook is attached in both cases.  On
    "ended" the counter is decremented if it is positive; the session
    closes itself whenever the counter is zero after that, whether it just
    came back to zero or was already there. *)
Theorem track_counter {PC Ext : Type} `{PeerConnection PC}
        (handler : RTC.TrackHandler (PC := PC) (Ext := Ext))
        (s : RTC.t PC Ext) (t : Track) :
  let h := RTC._handle_track t s in
  let c := RTC._track_count s in
  let s1 := if (0 <? c)%Z then RTC.set_track_count (c - 1)%Z s else s in
  let logs := if (0 <? c)%Z then [Log Debug "Track %d active"] else [] in
  (outcome_of h = Ok tt ->
   RTC._track_count (state_of (RTC.on_track t s))
     = (RTC._track_count (state_of h) + 1)%Z) /\
  ((exists e, outcome_of h = Raised e) ->
   outcome_of (RTC.on_track t s) = Ok tt /\
   RTC._track_count (state_of (RTC.on_track t s)) = RTC._track_count (state_of h)) /\
  (outcome_of h <> Diverged ->
   In (TrackOnEnded t "RTC.on_ended") (trace_of (RTC.on_track t s))) /\
  (RTC._track_count s1 <> 0%Z -> RTC.on_ended s = (Ok tt, s1, logs)) /\
  (RTC._track_count s1 = 0%Z ->
   RTC.on_ended s =
     (outcome_of ((RTC.close ;; tell (Log Debug "All tracks ended")) s1),
      state_of ((RTC.close ;; tell (Log Debug "All tracks ended")) s1),
      logs ++ trace_of ((RTC.close ;; tell (Log Debug "All tracks ended")) s1))).
Proof.
  intros h c s1 logs.
  assert (Hended :
    RTC.on_ended s =
      (if (RTC._track_count s1 =? 0)%Z
       then (outcome_of ((RTC.close ;; tell (Log Debug "All tracks ended")) s1),
             state_of ((RTC.close ;; tell (Log Debug "All tracks ended")) s1),
             logs ++ trace_of ((RTC.close ;; tell (Log Debug "All tracks ended")) s1))
       else (Ok tt, s1, logs))).
  { unfold RTC.on_ended. unfold bind at 1. unfold gets at 1. cbv beta iota.
    fold c. subst s1 logs. destruct (0 <? c)%Z eqn:Hpos.
    - unfold bind at 1. unfold bind at 1. unfold modify, tell. cbv beta iota.
      fold c. unfold bind at 1. unfold gets. cbv beta iota.
      destruct (RTC._track_count (RTC.set_track_count (c - 1) s) =? 0)%Z.
      + destruct ((RTC.close ;; (fun s0 => (Ok tt, s0, [Log Debug "All tracks ended"])))
                    (RTC.set_track_count (c - 1)%Z s)) as [[o s'] tr].
        reflexivity.
      + reflexivity.
    - unfold bind at 1. unfold ret at 1. cbv beta iota.
      unfold bind at 1. unfold gets. cbv beta iota.
      destruct (RTC._track_count s =? 0)%Z.
      + unfold tell.
        destruct ((RTC.close ;; (fun s0 => (Ok tt, s0, [Log Debug "All tracks ended"]))) s)
          as [[o s'] tr].
        reflexivity.
      + reflexivity. }
  assert (Htrack :
    RTC.on_track t s =
      match h with
      | (Ok _, s', tr) =>
          (Ok tt, RTC.set_track_count (RTC._track_count s' + 1)%Z s',
           Log Debug "Track %s received" :: tr
             ++ [Log Debug "Track %d active"; TrackOnEnded t "RTC.on_ended"])
      | (Raised _, s', tr) =>
          (Ok tt, s',
           Log Debug "Track %s received" :: tr
             ++ [Log Error "Failed to handle track: %s"; TrackOnEnded t "RTC.on_ended"])
      | (Diverged, s', tr) => (Diverged, s', Log Debug "Track %s received" :: tr)
      end).
  { unfold RTC.on_track, bind, try_except, tell, modify. cbv beta iota.
    subst h. destruct (RTC._handle_track t s) as [[[[] | e | ] s'] tr]; simpl;
      rewrite <- ?app_assoc; reflexivity. }
  split; [| split; [| split; [| split]]].
  - intros Hok. rewrite Htrack. destruct h as [[[[] | e | ] s'] tr]; try discriminate Hok.
    reflexivity.
  - intros [e He]. rewrite Htrack.
    destruct h as [[[[] | e' | ] s'] tr]; try discriminate He. split; reflexivity.
  - intros Hnd. rewrite Htrack.
    destruct h as [[[[] | e' | ] s'] tr]; unfold trace_of; simpl.
    + right. apply in_or_app. right. right. left. reflexivity.
    + right. apply in_or_app. right. right. left. reflexivity.
    + exfalso. apply Hnd. reflexivity.
  - intros Hnz. rewrite Hended. apply Z.eqb_neq in Hnz. rewrite Hnz. reflexivity.
  - intros Hz. rewrite Hended. apply Z.eqb_eq in Hz. rewrite Hz. reflexivity.
Qed.

Lemma track_counter_witness :
  RTC._track_count (state_of (RTC.on_track mic live_room)) = 1%Z /\
  RTC.pc (state_of (RTC.on_ended (state_of (RTC.on_track mic live_room)))) = None.
Proof.
  split.
  - rewrite (proj1 (track_counter RoomRecorder.RecordingHandler live_room mic));
      reflexivity.
  - rewrite (proj2 (proj2 (proj2 (proj2
               (track_counter RoomRecorder.RecordingHandler
                  (state_of (RTC.on_track mic live_room)) mic)))));
      reflexivity.
Defined.

(** ** Recording session: tracks to recorders *)

Lemma dict_get_set_same V (k : string) (v : V) (d : Dict.t V) :
  Dict.get k (Dict.set k v d) = Some v.
Proof.
  induction d as [| [k' v'] d IH]; simpl.
  - rewrite String.eqb_refl. reflexivity.
  - destruct (String.eqb k k') eqn:Hk; simpl; rewrite Hk; [reflexivity | exact IH].
Qed.

Lemma dict_set_set V (k : string) (v w : V) (d : Dict.t V) :
  Dict.set k w (Dict.set k v d) = Dict.set k w d.
Proof.
  induction d as [| [k' v'] d IH]; simpl.
  - rewrite String.eqb_refl. reflexivity.
  - destruct (String.eqb k k') eqn:Hk; simpl; rewrite Hk; [reflexivity | rewrite IH; reflexivity].
Qed.

Lemma dict_set_absent V (k : string) (v : V) (d : Dict.t V) :
  Dict.get k d = None -> Dict.set k v d = d ++ [(k, v)].
Proof.
  induction d as [| [k' v'] d IH]; simpl; intros Hg.
  - reflexivity.
  - destruct (String.eqb k k'); [discriminate Hg | rewrite (IH Hg); reflexivity].
Qed.

Lemma msid_step_parts (acc : Dict.t string * string) (m : option string) :
  RoomRecorder.msid_step acc m =
    match msid_parts m with
    | Some (b0, b1) => (Dict.set b1 b0 (fst acc), b1)
    | None => acc
    end.
Proof.
  unfold RoomRecorder.msid_step, msid_parts.
  destruct m as [[| c rest] |]; try reflexivity.
  destruct (PyStr.split " " (String c rest)) as [| b0 [| b1 [| b2 l]]]; reflexivity.
Qed.

Lemma fold_msid_invalid (post : list (option string)) :
  forall acc,
    Forall (fun m => msid_parts m = None) post ->
    fold_left RoomRecorder.msid_step post acc = acc.
Proof.
  induction post as [| m post IH]; intros acc Hall; simpl; [reflexivity |].
  inversion Hall as [| ? ? Hm Hrest]; subst.
  rewrite msid_step_parts, Hm. apply IH. exact Hrest.
Qed.

Lemma fold_msid_last (pre post : list (option string)) (x : option string)
      (b0 b1 : string) (acc : Dict.t string * string) :
  msid_parts x = Some (b0, b1) ->
  Forall (fun m => msid_parts m = None) post ->
  exists tm,
    fold_left RoomRecorder.msid_step (pre ++ x :: post) acc = (tm, b1) /\
    Dict.get b1 tm = Some b0.
Proof.
  intros Hx Hpost. rewrite fold_left_app. simpl.
  rewrite (msid_step_parts _ x), Hx.
  rewrite (@fold_msid_invalid post _ Hpost).
  eexists. split; [reflexivity | apply dict_get_set_same].
Qed.

Section RoomFacts.

Context {PC : Type} `{PeerConnection PC} `{Library}.

Lemma get_track_msid_pure (tid : string) (s : RTC.t PC RoomRecorder.Ext) :
  RoomRecorder.get_track_msid tid s = (outcome_of (RoomRecorder.get_track_msid tid s), s, []).
Proof.
  unfold RoomRecorder.get_track_msid, bind, RTC.pc_attr, RTC.lift, ret. cbv beta iota.
  destruct (RTC.pc s) as [p |]; [| reflexivity].
  destruct (remoteDescription p) as [d |]; [| reflexivity].
  destruct (sdp_media_msids (sd_sdp d)) as [media | e | ]; try reflexivity.
  destruct (fold_left RoomRecorder.msid_step media (Dict.empty, tid)) as [tm tid'].
  reflexivity.
Qed.

Lemma get_track_msid_pc (tid : string) (s s' : RTC.t PC RoomRecorder.Ext) :
  RTC.pc s = RTC.pc s' ->
  outcome_of (RoomRecorder.get_track_msid tid s') = outcome_of (RoomRecorder.get_track_msid tid s).
Proof.
  intros Hpc.
  unfold RoomRecorder.get_track_msid, bind, RTC.pc_attr, RTC.lift, ret. cbv beta iota.
  rewrite <- Hpc.
  destruct (RTC.pc s) as [p |]; [| reflexivity].
  destruct (remoteDescription p) as [d |]; [| reflexivity].
  destruct (sdp_media_msids (sd_sdp d)) as [media | e | ]; try reflexivity.
  destruct (fold_left RoomRecorder.msid_step media (Dict.empty, tid)) as [tm tid'].
  reflexivity.
Qed.


Lemma add_track_open (t : Track) (n : nat) (r : Recorder.t) :
  MediaRecorder.container (Recorder._recorder r) = true ->
  (Recorder.add_audio_track (mkRelayTrack n t) r =
     (Ok tt, state_of (Recorder.add_audio_track (mkRelayTrack n t) r),
      [AvAddStream (MediaRecorder.file (Recorder._recorder r))
         (MediaRecorder.codec_for (MediaRecorder.format_name (Recorder._recorder r)) (kind t))])) /\
  (Recorder.add_video_track (mkRelayTrack n t) r =
     (Ok tt, state_of (Recorder.add_video_track (mkRelayTrack n t) r),
      [AvAddStream (MediaRecorder.file (Recorder._recorder r))
         (MediaRecorder.codec_for (MediaRecorder.format_name (Recorder._recorder r)) (kind t))])).
Proof.
  intros Hopen.
  unfold Recorder.add_audio_track, Recorder.add_video_track, bind, modify.
  cbv beta iota. rewrite !writer_run.
  unfold MediaRecorder.addTrack, bind, get. cbv beta iota. simpl.
  rewrite Hopen. simpl. split; reflexivity.
Qed.

Lemma handle_resolved (s : RTC.t PC RoomRecorder.Ext) (t : Track) (m : string) :
  outcome_of (RoomRecorder.get_track_msid (track_id t) s) = Ok (RoomRecorder.Msid m) ->
  kind t = "audio" \/ kind t = "video" ->
  forall r0,
  r0 = match Dict.get m (RoomRecorder.recorders s) with
       | Some r => r
       | None => fst (Recorder.new m (RoomRecorder.recorder_path
                                        (RoomRecorder._dirpath (RTC.ext s)) m))
       end ->
  MediaRecorder.container (Recorder._recorder r0) = true ->
  exists tr,
    RoomRecorder._handle_track t s =
      (Ok tt,
       RoomRecorder.set_recorders
         (Dict.set m (with_track t (RoomRecorder._relay (RTC.ext s)) r0)
            (RoomRecorder.recorders s))
         (RoomRecorder.set_relay (S (RoomRecorder._relay (RTC.ext s))) s),
       tr) /\
    created tr =
      match Dict.get m (RoomRecorder.recorders s) with
      | Some _ => []
      | None => [RoomRecorder.recorder_path (RoomRecorder._dirpath (RTC.ext s)) m]
      end /\
    relayed tr = [t] /\
    writer_calls tr =
      match Dict.get m (RoomRecorder.recorders s) with
      | Some _ => []
      | None => [AvOpen (RoomRecorder.recorder_path (RoomRecorder._dirpath (RTC.ext s)) m)]
      end
      ++ [AvAddStream (MediaRecorder.file (Recorder._recorder r0))
            (MediaRecorder.codec_for (MediaRecorder.format_name (Recorder._recorder r0))
               (kind t))].
Proof.
  intros Hm Hk r0 Hr0 Hopen.
  unfold RoomRecorder._handle_track. unfold bind at 1.
  rewrite get_track_msid_pure, Hm.
  unfold bind at 1. unfold RoomRecorder.subscribe at 1.
  unfold bind at 1. unfold gets at 1. unfold Dict.contains.
  unfold RoomRecorder.on_recorder, RoomRecorder.create_recorder.
  unfold RoomRecorder.recorders in *.
  cbn [RoomRecorder.set_relay RoomRecorder.set_recorders RTC.set_ext RTC.ext
       RoomRecorder._recorders RoomRecorder._dirpath RoomRecorder._relay].
  set (d := RoomRecorder._recorders (RTC.ext s)) in *.
  set (n := RoomRecorder._relay (RTC.ext s)) in *.
  unfold with_track.
  assert (Hrel : forall x, RoomRecorder._recorders (RTC.ext (RoomRecorder.set_relay x s)) = d)
    by reflexivity.
  destruct (Dict.get m d) as [r |] eqn:Hget; subst r0.
  - destruct (add_track_open t n r Hopen) as [Ha Hv].
    destruct Hk as [Hk | Hk]; rewrite Hk.
    + change (String.eqb "audio" "audio") with true. cbv iota.
      unfold bind, ret, RTC.emit, tell. cbv beta iota.
      rewrite Hrel, Hget, Ha. cbv beta iota. simpl.
      eexists.
      split; [reflexivity | split; [reflexivity | split; [reflexivity |]]].
      rewrite ?Hk. reflexivity.
    + change (String.eqb "video" "audio") with false.
      change (String.eqb "video" "video") with true. cbv iota.
      unfold bind, ret, RTC.emit, tell. cbv beta iota.
      rewrite Hrel, Hget, Hv. cbv beta iota. simpl.
      eexists.
      split; [reflexivity | split; [reflexivity | split; [reflexivity |]]].
      rewrite ?Hk. reflexivity.
  - unfold Recorder.new, MediaRecorder.new in *. cbv beta iota zeta in *.
    cbn [fst] in Hopen.
    match type of Hopen with
    | MediaRecorder.container (Recorder._recorder ?x) = true => set (r := x) in *
    end.
    destruct (add_track_open t n r Hopen) as [Ha Hv].
    assert (Hnew : Dict.get m (Dict.set m r d) = Some r) by apply dict_get_set_same.
    destruct Hk as [Hk | Hk]; rewrite Hk.
    + change (String.eqb "audio" "audio") with true. cbv iota.
      unfold bind, ret, RTC.emit, tell. cbv beta iota.
      cbn [RoomRecorder.set_relay RoomRecorder.set_recorders RTC.set_ext RTC.ext
           RoomRecorder._recorders RoomRecorder._dirpath RoomRecorder._relay].
      fold d. fold r. rewrite Hnew, Ha. cbv beta iota. simpl.
      rewrite dict_set_set.
      eexists.
      split; [reflexivity | split; [reflexivity | split; [reflexivity |]]].
      rewrite ?Hk. reflexivity.
    + change (String.eqb "video" "audio") with false.
      change (String.eqb "video" "video") with true. cbv iota.
      unfold bind, ret, RTC.emit, tell. cbv beta iota.
      cbn [RoomRecorder.set_relay RoomRecorder.set_recorders RTC.set_ext RTC.ext
           RoomRecorder._recorders RoomRecorder._dirpath RoomRecorder._relay].
      fold d. fold r. rewrite Hnew, Hv. cbv beta iota. simpl.
      rewrite dict_set_set.
      eexists.
      split; [reflexivity | split; [reflexivity | split; [reflexivity |]]].
      rewrite ?Hk. reflexivity.
Qed.

(** With a remote description, the answer is the stream of the last
    section that has a two-part msid, whatever track is asked for. *)
Lemma get_track_msid_last (s : RTC.t PC RoomRecorder.Ext) (asked : string) (p : PC)
      (d : SessionDescription) (pre post : list (option string)) (x : option string)
      (b0 b1 : string) :
  RTC.pc s = Some p ->
  remoteDescription p = Some d ->
  sdp_media_msids (sd_sdp d) = Ok (pre ++ x :: post) ->
  msid_parts x = Some (b0, b1) ->
  Forall (fun m => msid_parts m = None) post ->
  RoomRecorder.get_track_msid asked s = (Ok (RoomRecorder.Msid b0), s, []).
Proof.
  intros Hpc Hd Hmedia Hx Hpost.
  unfold RoomRecorder.get_track_msid, bind, RTC.pc_attr, RTC.lift.
  rewrite Hpc, Hd, Hmedia. cbv beta iota.
  destruct (@fold_msid_last pre post x b0 b1 (Dict.empty, asked) Hx Hpost)
    as (tm & -> & Hget).
  unfold ret. rewrite Hget. reflexivity.
Qed.

End RoomFacts.

Lemma with_track_open (t : Track) (n : nat) (r : Recorder.t) :
  MediaRecorder.container (Recorder._recorder (with_track t n r))
    = MediaRecorder.container (Recorder._recorder r).
Proof.
  unfold with_track, Recorder.add_audio_track, Recorder.add_video_track, bind, modify.
  cbv beta iota. rewrite !writer_run.
  unfold MediaRecorder.addTrack, bind, get, state_of. cbv beta iota. simpl.
  destruct (String.eqb (kind t) "audio");
    destruct (MediaRecorder.container (Recorder._recorder r)) eqn:Hc; simpl; auto.
Qed.

Lemma with_track_file (t : Track) (n : nat) (r : Recorder.t) :
  MediaRecorder.file (Recorder._recorder (with_track t n r))
    = MediaRecorder.file (Recorder._recorder r) /\
  MediaRecorder.format_name (Recorder._recorder (with_track t n r))
    = MediaRecorder.format_name (Recorder._recorder r).
Proof.
  unfold with_track, Recorder.add_audio_track, Recorder.add_video_track, bind, modify.
  cbv beta iota. rewrite !writer_run.
  unfold MediaRecorder.addTrack, bind, get, state_of. cbv beta iota. simpl.
  destruct (String.eqb (kind t) "audio");
    destruct (MediaRecorder.container (Recorder._recorder r)) eqn:Hc; simpl; auto.
Qed.

Lemma with_track_audio (t : Track) (n : nat) (r : Recorder.t) :
  kind t = "audio" ->
  Recorder.sid (with_track t n r) = Recorder.sid r /\
  Recorder.audio_track (with_track t n r) = Some (mkRelayTrack n t) /\
  Recorder.video_track (with_track t n r) = Recorder.video_track r.
Proof.
  intros Hk. unfold with_track. rewrite Hk.
  change (String.eqb "audio" "audio") with true. cbv iota.
  unfold Recorder.add_audio_track, bind, modify. cbv beta iota. rewrite writer_run.
  unfold state_of. simpl. auto.
Qed.

Lemma with_track_video (t : Track) (n : nat) (r : Recorder.t) :
  kind t = "video" ->
  Recorder.sid (with_track t n r) = Recorder.sid r /\
  Recorder.audio_track (with_track t n r) = Recorder.audio_track r /\
  Recorder.video_track (with_track t n r) = Some (mkRelayTrack n t).
Proof.
  intros Hk. unfold with_track. rewrite Hk.
  change (String.eqb "video" "audio") with false. cbv iota.
  unfold Recorder.add_video_track, bind, modify. cbv beta iota. rewrite writer_run.
  unfold state_of. simpl. auto.
Qed.

Lemma recorders_set_recorders {PC : Type} (d : Dict.t Recorder.t)
      (s : RTC.t PC RoomRecorder.Ext) :
  RoomRecorder.recorders (RoomRecorder.set_recorders d s) = d.
Proof. reflexivity. Qed.

(** Two tracks handled one after the other by a session that has no
    recorder for the stream they resolve to. *)
Lemma handle_pair {PC : Type} `{PeerConnection PC} `{Library}
      (s : RTC.t PC RoomRecorder.Ext) (t1 t2 : Track) (m : string) :
  kind t1 = "audio" \/ kind t1 = "video" ->
  kind t2 = "audio" \/ kind t2 = "video" ->
  outcome_of (RoomRecorder.get_track_msid (track_id t1) s) = Ok (RoomRecorder.Msid m) ->
  outcome_of (RoomRecorder.get_track_msid (track_id t2) s) = Ok (RoomRecorder.Msid m) ->
  Dict.get m (RoomRecorder.recorders s) = None ->
  let path := RoomRecorder.recorder_path (RoomRecorder._dirpath (RTC.ext s)) m in
  let n := RoomRecorder._relay (RTC.ext s) in
  let run := (RoomRecorder._handle_track t1 ;; RoomRecorder._handle_track t2) s in
  outcome_of run = Ok tt /\
  created (trace_of run) = [path] /\
  relayed (trace_of run) = [t1; t2] /\
  writer_calls (trace_of run)
    = [AvOpen path;
       AvAddStream path (MediaRecorder.codec_for "mp4" (kind t1));
       AvAddStream path (MediaRecorder.codec_for "mp4" (kind t2))] /\
  RoomRecorder.recorders (state_of run) =
    RoomRecorder.recorders s
      ++ [(m, with_track t2 (S n) (with_track t1 n (fst (Recorder.new m path))))].
Proof.
  intros Hk1 Hk2 Hm1 Hm2 Hnone path n run.
  destruct (handle_resolved s t1 Hm1 Hk1 (r0 := fst (Recorder.new m path)))
    as (tr1 & Hrun1 & Hc1 & Hs1 & Hw1).
  { rewrite Hnone. reflexivity. }
  { reflexivity. }
  rewrite Hnone in Hc1, Hw1. fold path in Hc1, Hw1. fold n in Hrun1.
  set (r1 := with_track t1 n (fst (Recorder.new m path))) in *.
  set (s1 := RoomRecorder.set_recorders (Dict.set m r1 (RoomRecorder.recorders s))
               (RoomRecorder.set_relay (S n) s)) in *.
  assert (Hget1 : Dict.get m (RoomRecorder.recorders s1) = Some r1).
  { subst s1. rewrite recorders_set_recorders. apply dict_get_set_same. }
  assert (Hm2' : outcome_of (RoomRecorder.get_track_msid (track_id t2) s1)
                 = Ok (RoomRecorder.Msid m)).
  { rewrite <- Hm2. apply get_track_msid_pc. reflexivity. }
  destruct (handle_resolved s1 t2 Hm2' Hk2 (r0 := r1)) as (tr2 & Hrun2 & Hc2 & Hs2 & Hw2).
  { rewrite Hget1. reflexivity. }
  { subst r1. rewrite with_track_open. reflexivity. }
  rewrite Hget1 in Hc2, Hw2.
  assert (Hfile : MediaRecorder.file (Recorder._recorder r1) = path
                  /\ MediaRecorder.format_name (Recorder._recorder r1) = "mp4").
  { subst r1. destruct (with_track_file t1 n (fst (Recorder.new m path))) as [-> ->].
    split; reflexivity. }
  destruct Hfile as [Hfile Hfmt]. rewrite Hfile, Hfmt in Hw2.
  subst run. unfold bind. rewrite Hrun1, Hrun2.
  unfold outcome_of, state_of, trace_of. simpl.
  split; [reflexivity | split; [| split; [| split]]].
  - unfold created in *. rewrite flat_map_app, Hc1, Hc2. reflexivity.
  - unfold relayed in *. rewrite flat_map_app, Hs1, Hs2. reflexivity.
  - unfold writer_calls in *. rewrite filter_app, Hw1, Hw2. reflexivity.
  - subst s1. rewrite !recorders_set_recorders, dict_set_set.
    apply dict_set_absent. exact Hnone.
Qed.

(** The writer of a new recorder after two tracks were bound to it holds
    both, under the numbers of their proxies. *)
Lemma with_track_keys (t1 t2 : Track) (n : nat) (m path : string) :
  let r := with_track t2 (S n) (with_track t1 n (fst (Recorder.new m path))) in
  Recorder.sid r = m /\
  track_keys (Recorder._recorder r) = [n; S n].
Proof.
  cbv zeta. unfold with_track, Recorder.add_audio_track, Recorder.add_video_track,
    bind, modify.
  cbv beta iota. rewrite !writer_run.
  unfold MediaRecorder.addTrack, bind, get, modify, tell, state_of, trace_of, outcome_of,
    track_keys.
  destruct (String.eqb (kind t1) "audio"), (String.eqb (kind t2) "audio");
    simpl; rewrite ?writer_run; simpl;
    replace (Nat.eqb n n) with true by (symmetry; apply Nat.eqb_refl);
    (replace (match n with 0 => false | S m' => Nat.eqb n m' end) with false
      by (symmetry; apply (Nat.eqb_neq (S n) n); lia));
    split; reflexivity.
Qed.

(** C10, on the code: the stream a track is recorded under does not
    depend on the track.  `get_track_msid` answers with the stream of the
    last media section that has a two-part msid, so any two audio or video
    tracks received by a session without a recorder for that stream,
    whatever their ids and whatever stream the remote description
    announces them under, are relayed, create one recorder named after
    that last stream and are both registered with its writer. *)
Theorem tracks_join_last_stream {PC : Type} `{PeerConnection PC} `{Library}
        (s : RTC.t PC RoomRecorder.Ext) (p : PC) (d : SessionDescription)
        (pre post : list (option string)) (x : option string) (b0 b1 : string)
        (t1 t2 : Track) :
  RTC.pc s = Some p ->
  remoteDescription p = Some d ->
  sdp_media_msids (sd_sdp d) = Ok (pre ++ x :: post) ->
  msid_parts x = Some (b0, b1) ->
  Forall (fun m => msid_parts m = None) post ->
  kind t1 = "audio" \/ kind t1 = "video" ->
  kind t2 = "audio" \/ kind t2 = "video" ->
  Dict.get b0 (RoomRecorder.recorders s) = None ->
  let path := RoomRecorder.recorder_path (RoomRecorder._dirpath (RTC.ext s)) b0 in
  let n := RoomRecorder._relay (RTC.ext s) in
  let run := (RoomRecorder._handle_track t1 ;; RoomRecorder._handle_track t2) s in
  outcome_of run = Ok tt /\
  relayed (trace_of run) = [t1; t2] /\
  writer_calls (trace_of run)
    = [AvOpen path;
       AvAddStream path (MediaRecorder.codec_for "mp4" (kind t1));
       AvAddStream path (MediaRecorder.codec_for "mp4" (kind t2))] /\
  exists r,
    RoomRecorder.recorders (state_of run) = RoomRecorder.recorders s ++ [(b0, r)] /\
    r = with_track t2 (S n) (with_track t1 n (fst (Recorder.new b0 path))) /\
    Recorder.sid r = b0 /\
    track_keys (Recorder._recorder r) = [n; S n] /\
    (kind t1 = "audio" -> kind t2 = "video" ->
     Recorder.audio_track r = Some (mkRelayTrack n t1) /\
     Recorder.video_track r = Some (mkRelayTrack (S n) t2)) /\
    (kind t1 = "video" -> kind t2 = "audio" ->
     Recorder.video_track r = Some (mkRelayTrack n t1) /\
     Recorder.audio_track r = Some (mkRelayTrack (S n) t2)).
Proof.
  intros Hpc Hd Hmedia Hx Hpost Hk1 Hk2 Hnone path n run.
  assert (Hm : forall asked,
             outcome_of (RoomRecorder.get_track_msid asked s)
             = Ok (RoomRecorder.Msid b0)).
  { intros asked.
    rewrite (@get_track_msid_last _ _ _ s asked p d pre post x b0 b1
               Hpc Hd Hmedia Hx Hpost).
    reflexivity. }
  destruct (@handle_pair _ _ _ s t1 t2 b0 Hk1 Hk2 (Hm _) (Hm _) Hnone)
    as (Ho & _ & Hs & Hw & Hr).
  split; [exact Ho | split; [exact Hs | split; [exact Hw |]]].
  eexists. split; [exact Hr |]. split; [reflexivity |].
  destruct (with_track_keys t1 t2 n b0 path) as [Hsid Hkeys]. cbv zeta in Hsid, Hkeys.
  split; [exact Hsid | split; [exact Hkeys | split]].
  - intros Ha Hv.
    destruct (@with_track_video t2 (S n) (with_track t1 n (fst (Recorder.new b0 path))) Hv)
      as (_ & Ha2 & Hv2).
    destruct (@with_track_audio t1 n (fst (Recorder.new b0 path)) Ha) as (_ & Ha1 & _).
    split; [exact (eq_trans Ha2 Ha1) | exact Hv2].
  - intros Hv Ha.
    destruct (@with_track_audio t2 (S n) (with_track t1 n (fst (Recorder.new b0 path))) Ha)
      as (_ & Ha2 & Hv2).
    destruct (@with_track_video t1 n (fst (Recorder.new b0 path)) Hv) as (_ & _ & Hv1).
    split; [exact (eq_trans Hv2 Hv1) | exact Ha2].
Qed.

Lemma tracks_join_last_stream_witness :
  let run := (RoomRecorder._handle_track mic ;; RoomRecorder._handle_track cam)
               two_streams_room in
  writer_calls (trace_of run)
    = [AvOpen "recordings/stream1.mp4";
       AvAddStream "recordings/stream1.mp4" "aac";
       AvAddStream "recordings/stream1.mp4" "libx264"] /\
  Dict.keys (RoomRecorder.recorders (state_of run)) = ["stream1"] /\
  Dict.keys (RoomRecorder.recorders
               (state_of ((RoomRecorder._handle_track (mkTrack "a2" "audio") ;;
                           RoomRecorder._handle_track (mkTrack "v2" "video"))
                            (state_of run)))) = ["stream1"].
Proof.
  intros run.
  destruct (@tracks_join_last_stream _ _ _ two_streams_room
              two_streams_engine (mkSD "offer" (JStr two_streams_sdp))
              [Some "stream0 a1"; Some "stream0 v1"; Some "stream1 a2"] []
              (Some "stream1 v2") "stream1" "v2" mic cam)
    as (_ & _ & Hw & r & Hr & _);
    [reflexivity | reflexivity | reflexivity | reflexivity | constructor
     | left; reflexivity | right; reflexivity | reflexivity |].
  fold run in Hw, Hr.
  split; [| split].
  - exact Hw.
  - rewrite Hr. reflexivity.
  - reflexivity.
Defined.

(** ** The event-stream loop *)

Lemma prefix_head (a b : ascii) (s1 s2 : string) :
  String.prefix (String a s1) (String b s2) = true -> a = b.
Proof.
  change (String.prefix (String a s1) (String b s2))
    with (match ascii_dec a b with
          | left _ => String.prefix s1 s2
          | right _ => false
          end).
  destruct (ascii_dec a b) as [Heq | _]; [intros _; exact Heq | discriminate].
Qed.

Lemma data_line_not_event (line : string) :
  PyStr.startswith "data:" line = true -> PyStr.startswith "event:" line = false.
Proof.
  unfold PyStr.startswith. destruct line as [| c line]; intros Hd.
  - discriminate Hd.
  - apply prefix_head in Hd. subst c.
    destruct (String.prefix "event:" (String "d" line)) eqn:He; [| reflexivity].
    apply prefix_head in He. discriminate He.
Qed.

Lemma data_line_not_empty (line : string) :
  PyStr.startswith "data:" line = true -> String.eqb line EmptyString = false.
Proof.
  destruct line; intros Hd; [discriminate Hd | reflexivity].
Qed.

Lemma frame_data (line : string) (ev : option string) :
  PyStr.startswith "data:" line = true ->
  RTC.frame line ev
    = Some (ev, Some (PyStr.strip (PyStr.replace "data:" EmptyString line))).
Proof.
  intros Hd. unfold RTC.frame. rewrite (data_line_not_event line Hd), Hd. reflexivity.
Qed.

Section LoopFacts.

Context {PC Ext : Type} `{PeerConnection PC} `{Library}.
Context (handler : RTC.TrackHandler (PC := PC) (Ext := Ext)).

(** One turn of the loop on a framed line, the transport being there and
    not closed. *)
Lemma event_loop_turn (s : RTC.t PC Ext) (p : PC)
      (line : string) (rest : list string) (b : bool)
      (ev d ev' d' : option string) :
  RTC.pc s = Some p ->
  connectionState p <> CsClosed ->
  String.eqb line EmptyString = false ->
  RTC.frame line ev = Some (ev', d') ->
  RTC.event_loop (line :: rest) b ev d s =
    match d' with
    | Some x =>
        if negb (str_eq ev' "ping") then
          (tell (Log Debug "Event: %s") ;;
           if str_eq ev' "left" then RTC.close
           else RTC.dispatch ev' x ;; RTC.event_loop rest b ev' d') s
        else RTC.event_loop rest b ev' d' s
    | None => RTC.event_loop rest b ev' d' s
    end.
Proof.
  intros Hpc Hopen Hline Hframe. simpl. rewrite Hline, Hframe.
  unfold bind at 1. unfold RTC.pc_attr at 1. rewrite Hpc.
  destruct (connectionState p) eqn:Hcs; try (exfalso; apply Hopen; reflexivity);
    destruct d' as [x |];
    try (destruct (negb (str_eq ev' "ping")));
    match goal with
    | |- (let (_, _) := ?r in _) = _ => destruct r as [[o s'] tr]; reflexivity
    end.
Qed.

(** Without an event name, the dispatch chain matches nothing. *)
Lemma dispatch_no_event (x : string) (s : RTC.t PC Ext) :
  RTC.dispatch None x s = (Ok tt, s, []).
Proof. reflexivity. Qed.

(** A framed line read while the transport is gone or closed. *)
Lemma event_loop_gone (s : RTC.t PC Ext)
      (line : string) (rest : list string) (b : bool)
      (ev d ev' d' : option string) :
  RTC.pc_gone s = true ->
  String.eqb line EmptyString = false ->
  RTC.frame line ev = Some (ev', d') ->
  trace_of (RTC.event_loop (line :: rest) b ev d s) = [] /\
  state_of (RTC.event_loop (line :: rest) b ev d s) = s.
Proof.
  intros Hgone Hline Hframe. simpl. rewrite Hline, Hframe.
  unfold bind, RTC.pc_attr. unfold RTC.pc_gone in Hgone.
  destruct (RTC.pc s) as [p |]; [| split; reflexivity].
  destruct (connectionState p); try discriminate Hgone. split; reflexivity.
Qed.

(** A `data:` line read while no event name is pending: a log line, and
    on to the next line. *)
Lemma turn_without_event (s : RTC.t PC Ext)
      (line : string) (rest : list string) (b : bool) (d : option string) :
  RTC.pc_gone s = false ->
  PyStr.startswith "data:" line = true ->
  RTC.event_loop (line :: rest) b None d s =
    after_logs [Log Debug "Event: %s"]
      (RTC.event_loop rest b None
         (Some (PyStr.strip (PyStr.replace "data:" EmptyString line))) s).
Proof.
  intros Hgone Hdata. unfold RTC.pc_gone in Hgone.
  destruct (RTC.pc s) as [p |] eqn:Hpc; [| discriminate Hgone].
  assert (Hopen : connectionState p <> CsClosed).
  { intros Hc. rewrite Hc in Hgone. discriminate Hgone. }
  rewrite (@event_loop_turn s p line rest b None d _ _ Hpc Hopen
             (data_line_not_empty line Hdata) (frame_data line None Hdata)).
  change (negb (str_eq None "ping")) with true.
  change (str_eq None "left") with false. cbv iota.
  unfold bind, tell. cbv beta iota. rewrite dispatch_no_event.
  unfold after_logs, outcome_of, state_of, trace_of.
  destruct (RTC.event_loop rest b None
              (Some (PyStr.strip (PyStr.replace "data:" EmptyString line))) s)
    as [[o s'] tr].
  reflexivity.
Qed.

(** As long as no `event:` line has come, the loop only logs. *)
Lemma event_loop_without_event (lines : list string) (b : bool) :
  forall (d : option string) (s : RTC.t PC Ext),
    forallb (fun l => negb (PyStr.startswith "event:" l)) lines = true ->
    forallb is_debug_log (trace_of (RTC.event_loop lines b None d s)) = true /\
    state_of (RTC.event_loop lines b None d s) = s.
Proof.
  induction lines as [| line rest IH]; intros d s Hlines.
  - simpl. destruct b; split; reflexivity.
  - simpl in Hlines. apply andb_true_iff in Hlines. destruct Hlines as [Hl Hrest].
    apply negb_true_iff in Hl.
    destruct (String.eqb line EmptyString) eqn:Hempty.
    + simpl. rewrite Hempty. apply IH. exact Hrest.
    + destruct (PyStr.startswith "data:" line) eqn:Hdata.
      * destruct (RTC.pc_gone s) eqn:Hgone.
        -- destruct (@event_loop_gone s line rest b None d _ _ Hgone Hempty
                       (frame_data line None Hdata)) as [Htr Hst].
           rewrite Htr, Hst. split; reflexivity.
        -- rewrite (@turn_without_event s line rest b d Hgone Hdata).
           destruct (IH (Some (PyStr.strip (PyStr.replace "data:" EmptyString line)))
                       s Hrest) as [Htr Hst].
           unfold after_logs, trace_of, state_of in *. simpl. split; assumption.
      * simpl. rewrite Hempty. unfold RTC.frame. rewrite Hl, Hdata.
        apply IH. exact Hrest.
Qed.

End LoopFacts.

Lemma after_logs_nil {S A : Type} (r : Outcome A * S * list Effect) :
  after_logs [] r = r.
Proof. destruct r as [[o s] tr]. reflexivity. Qed.

(** C4: in the event loop a line triggers a handler only when, after it,
    the pending event name and the pending data are both there and the
    event is not `ping`.  In every other case the session is untouched and
    at most a debug line is written: a framed line that leaves no event,
    no data or a `ping` goes on to the next line; a blank line and a line
    that is neither `event:` nor `data:` go on at once; a framed line read
    while the transport is gone or closed ends the loop.  In particular a
    stream without any `event:` line, whatever its `data:` lines, only
    produces debug lines and leaves the session as it was, up to the
    `ready` flag set when the handler returns. *)
Theorem dispatch_needs_event_and_data {PC Ext : Type} `{PeerConnection PC} `{Library}
        (handler : RTC.TrackHandler (PC := PC) (Ext := Ext)) :
  (forall (s : RTC.t PC Ext) line rest b ev d ev' d',
      RTC.pc_gone s = false ->
      String.eqb line EmptyString = false ->
      RTC.frame line ev = Some (ev', d') ->
      ev' = None \/ d' = None \/ ev' = Some "ping" ->
      exists logs,
        forallb is_debug_log logs = true /\
        RTC.event_loop (line :: rest) b ev d s
          = after_logs logs (RTC.event_loop rest b ev' d' s)) /\
  (forall (s : RTC.t PC Ext) rest b ev d,
      RTC.event_loop (EmptyString :: rest) b ev d s = RTC.event_loop rest b ev d s) /\
  (forall (s : RTC.t PC Ext) line rest b ev d,
      String.eqb line EmptyString = false ->
      RTC.frame line ev = None ->
      RTC.event_loop (line :: rest) b ev d s = RTC.event_loop rest b None None s) /\
  (forall (s : RTC.t PC Ext) line rest b ev d ev' d',
      RTC.pc_gone s = true ->
      String.eqb line EmptyString = false ->
      RTC.frame line ev = Some (ev', d') ->
      trace_of (RTC.event_loop (line :: rest) b ev d s) = [] /\
      state_of (RTC.event_loop (line :: rest) b ev d s) = s) /\
  (forall lines b (s : RTC.t PC Ext),
      forallb (fun l => negb (PyStr.startswith "event:" l)) lines = true ->
      let r := RTC._event_handler (mkStream lines b) s in
      forallb is_debug_log (trace_of r) = true /\
      (state_of r = s \/ state_of r = RTC.set_ready (Some false) s)).
Proof.
  split; [| split; [| split; [| split]]].
  - intros s line rest b ev d ev' d' Hgone Hline Hframe Hcase.
    unfold RTC.pc_gone in Hgone.
    destruct (RTC.pc s) as [p |] eqn:Hpc; [| discriminate Hgone].
    assert (Hopen : connectionState p <> CsClosed).
    { intros Hc. rewrite Hc in Hgone. discriminate Hgone. }
    rewrite (@event_loop_turn PC Ext _ _ handler s p line rest b ev d ev' d'
               Hpc Hopen Hline Hframe).
    destruct d' as [x |].
    + destruct Hcase as [-> | [Hd | ->]]; [| discriminate Hd |].
      * exists [Log Debug "Event: %s"]. split; [reflexivity |].
        change (negb (str_eq None "ping")) with true.
        change (str_eq None "left") with false. cbv iota.
        unfold bind, tell. cbv beta iota. rewrite dispatch_no_event.
        unfold after_logs, outcome_of, state_of, trace_of.
        destruct (RTC.event_loop rest b None (Some x) s) as [[o s'] tr].
        reflexivity.
      * exists []. split; [reflexivity |].
        change (negb (str_eq (Some "ping") "ping")) with false. cbv iota.
        rewrite after_logs_nil. reflexivity.
    + exists []. split; [reflexivity |]. rewrite after_logs_nil. reflexivity.
  - intros s rest b ev d. reflexivity.
  - intros s line rest b ev d Hline Hframe. simpl. rewrite Hline, Hframe. reflexivity.
  - intros s line rest b ev d ev' d' Hgone Hline Hframe.
    apply (@event_loop_gone PC Ext _ _ handler s line rest b ev d ev' d'
             Hgone Hline Hframe).
  - intros lines b s Hlines r. subst r.
    destruct (event_loop_without_event handler lines b None s Hlines) as [Htr Hst].
    unfold RTC._event_handler, bind, tell, modify. cbv beta iota. simpl.
    destruct (RTC.event_loop lines b None None s) as [[o s'] tr].
    unfold trace_of, state_of in *. simpl in *. subst s'.
    destruct o as [[] | e | ]; simpl.
    + rewrite forallb_app, Htr. split; [reflexivity | right; reflexivity].
    + split; [exact Htr | left; reflexivity].
    + split; [exact Htr | left; reflexivity].
Qed.

Lemma dispatch_needs_event_and_data_witness :
  (exists logs,
      forallb is_debug_log logs = true /\
      RTC.event_loop ["data: {}"; "event: ping"] false None None live_room
        = after_logs logs
            (RTC.event_loop ["event: ping"] false None (Some "{}") live_room)) /\
  forallb is_debug_log
    (trace_of (RTC._event_handler (mkStream ["data: {}"; "junk"; "data: x"] false)
                 live_room)) = true.
Proof.
  split.
  - apply (proj1 (dispatch_needs_event_and_data RoomRecorder.RecordingHandler)
             live_room "data: {}" ["event: ping"] false None None None (Some "{}"));
      try reflexivity.
    left. reflexivity.
  - apply (proj2 (proj2 (proj2 (proj2
             (dispatch_needs_event_and_data RoomRecorder.RecordingHandler))))
             ["data: {}"; "junk"; "data: x"] false live_room).
    reflexivity.
Defined.

Section NegotiationFacts.

Context {PC Ext : Type} `{PeerConnection PC} `{Library}.
Context (handler : RTC.TrackHandler (PC := PC) (Ext := Ext)).

Lemma pc_gone_open (s : RTC.t PC Ext) :
  RTC.pc_gone s = false ->
  exists p, RTC.pc s = Some p /\ connectionState p <> CsClosed.
Proof.
  unfold RTC.pc_gone. destruct (RTC.pc s) as [p |]; [| discriminate].
  intros Hgone. exists p. split; [reflexivity |].
  intros Hc. rewrite Hc in Hgone. discriminate Hgone.
Qed.

(** `_negotiate()` without an offer stops at `json.loads(None)`. *)
Lemma negotiate_without_offer (s : RTC.t PC Ext) :
  RTC._negotiate None s = (Raised TypeError, s, []).
Proof. reflexivity. Qed.

Lemma negotiate_unparsable (s : RTC.t PC Ext) (x : string) :
  json_parse x = None ->
  RTC._negotiate (Some x) s = (Raised JSONDecodeError, s, []).
Proof.
  intros Hx. unfold RTC._negotiate, bind, RTC.lift, RTC.json_loads.
  rewrite Hx. reflexivity.
Qed.

(** An event line followed by a `data:` line, at the start of a stream. *)
Lemma event_then_data (s : RTC.t PC Ext) (name dline : string)
      (rest : list string) (b : bool) :
  RTC.pc_gone s = false ->
  String.eqb name "ping" = false ->
  String.eqb name "left" = false ->
  RTC.frame ("event: " ++ name)%string None = Some (Some name, None) ->
  PyStr.startswith "data:" dline = true ->
  let x := PyStr.strip (PyStr.replace "data:" EmptyString dline) in
  RTC.event_loop (("event: " ++ name)%string :: dline :: rest) b None None s =
    after_logs [Log Debug "Event: %s"]
      ((RTC.dispatch (Some name) x ;; RTC.event_loop rest b (Some name) (Some x)) s).
Proof.
  intros Hgone Hping Hleft Hframe Hdata x.
  destruct (pc_gone_open s Hgone) as (p & Hpc & Hopen).
  rewrite (@event_loop_turn PC Ext _ _ handler s p ("event: " ++ name)%string
             (dline :: rest) b None None _ _ Hpc Hopen eq_refl Hframe).
  rewrite (@event_loop_turn PC Ext _ _ handler s p dline rest b (Some name) None _ _
             Hpc Hopen (data_line_not_empty dline Hdata)
             (frame_data dline (Some name) Hdata)).
  unfold str_eq. rewrite Hping, Hleft. cbv iota. simpl negb. cbv iota.
  fold x. unfold bind at 1. unfold tell at 1.
  unfold after_logs, outcome_of, state_of, trace_of.
  destruct ((RTC.dispatch (Some name) x ;; RTC.event_loop rest b (Some name) (Some x)) s)
    as [[o s'] tr].
  reflexivity.
Qed.

End NegotiationFacts.

(** C6, on the code: an `allowed_renegotiation` event with a payload
    matches no branch of the dispatch chain, which compares with
    "allowed_renegotation"; the handler returns having written debug lines
    only.  An event spelled as the code expects does reach `_negotiate()`,
    which raises on `json.loads(None)` before any call on the transport or
    the hub. *)
Theorem allowed_renegotiation_ignored {PC Ext : Type} `{PeerConnection PC} `{Library}
        (handler : RTC.TrackHandler (PC := PC) (Ext := Ext))
        (s : RTC.t PC Ext) (dline : string) :
  RTC.pc_gone s = false ->
  PyStr.startswith "data:" dline = true ->
  RTC._event_handler (mkStream ["event: allowed_renegotiation"; dline] false) s
    = (Ok tt, RTC.set_ready (Some false) s,
       [Log Debug "Event stream started"; Log Debug "Event: %s";
        Log Debug "Event stream ended"]) /\
  RTC._event_handler (mkStream ["event: allowed_renegotation"; dline] false) s
    = (Raised TypeError, s,
       [Log Debug "Event stream started"; Log Debug "Event: %s";
        Log Debug "Allowed renegotiation"]).
Proof.
  intros Hgone Hdata. split.
  - unfold RTC._event_handler. unfold bind at 1. unfold tell at 1.
    unfold bind at 1. simpl stream_lines. simpl stream_breaks.
    rewrite (@event_then_data PC Ext _ _ handler s "allowed_renegotiation" dline [] false
               Hgone eq_refl eq_refl eq_refl Hdata).
    reflexivity.
  - unfold RTC._event_handler. unfold bind at 1. unfold tell at 1.
    unfold bind at 1. simpl stream_lines. simpl stream_breaks.
    rewrite (@event_then_data PC Ext _ _ handler s "allowed_renegotation" dline [] false
               Hgone eq_refl eq_refl eq_refl Hdata).
    reflexivity.
Qed.

Lemma allowed_renegotiation_ignored_witness :
  trace_of (RTC._event_handler
              (mkStream ["event: allowed_renegotiation"; "data: {}"] false) live_room)
    = [Log Debug "Event stream started"; Log Debug "Event: %s";
       Log Debug "Event stream ended"].
Proof.
  destruct (allowed_renegotiation_ignored RoomRecorder.RecordingHandler
              live_room "data: {}") as [Hignored _]; [reflexivity | reflexivity |].
  rewrite Hignored. reflexivity.
Defined.

(** C2, on the code: `_negotiate` parses its argument before entering its
    `try`, so an offer that is not JSON (or no offer at all) makes it
    raise instead of returning False, while with an offer that parses
    nothing is raised, whatever fails later; in the event loop the
    exception leaves `_event_handler`, `_listen` logs it and stops: the
    lines after the offending offer and the later streams are never
    read. *)
Theorem negotiate_raises_on_unparsable_offer {PC Ext : Type}
        `{PeerConnection PC} `{Library}
        (handler : RTC.TrackHandler (PC := PC) (Ext := Ext)) (s : RTC.t PC Ext) :
  RTC._negotiate None s = (Raised TypeError, s, []) /\
  (forall x,
      json_parse x = None ->
      RTC._negotiate (Some x) s = (Raised JSONDecodeError, s, [])) /\
  (forall x j e,
      json_parse x = Some j ->
      outcome_of (RTC._negotiate (Some x) s) <> Raised e) /\
  (forall dline rest b more,
      RTC.pc_gone s = false ->
      PyStr.startswith "data:" dline = true ->
      json_parse (PyStr.strip (PyStr.replace "data:" EmptyString dline)) = None ->
      RTC._listen (mkStream ("event: offer" :: dline :: rest) b :: more) s
        = (Ok tt, RTC.set_listened false s,
           [Http GetEvents; Log Debug "Event stream started"; Log Debug "Event: %s";
            Log Error "Event stream error: %s"])).
Proof.
  split; [reflexivity | split; [| split]].
  - intros x Hx. apply negotiate_unparsable. exact Hx.
  - intros x j e Hx. unfold RTC._negotiate, RTC.json_loads. rewrite Hx.
    unfold bind at 1. unfold RTC.lift at 1. unfold try_except.
    match goal with
    | |- outcome_of (let (p, t2) := match ?body with _ => _ end in _) <> _ =>
        destruct body as [[[r | e' | ] s'] tr]
    end; unfold outcome_of; simpl; discriminate.
  - intros dline rest b more Hgone Hdata Hbad.
    assert (Hgone' : RTC.pc_gone (RTC.set_listened true s) = false) by exact Hgone.
    unfold RTC._listen. unfold bind at 1. unfold modify at 1.
    unfold bind at 1. simpl RTC.listen_loop.
    unfold bind at 1. unfold get at 1. rewrite Hgone'.
    unfold bind at 1. unfold tell at 1. unfold bind at 1.
    unfold try_except. unfold bind at 1.
    unfold RTC._event_handler. unfold bind at 1. unfold tell at 1.
    unfold bind at 1. simpl stream_lines. simpl stream_breaks.
    rewrite (@event_then_data PC Ext _ _ handler (RTC.set_listened true s)
               "offer" dline rest b Hgone' eq_refl eq_refl eq_refl Hdata).
    unfold RTC.dispatch. change (str_eq (Some "offer") "offer") with true. cbv iota.
    unfold bind at 1. unfold bind at 1.
    rewrite (negotiate_unparsable (RTC.set_listened true s) _ Hbad).
    reflexivity.
Qed.

Lemma negotiate_raises_on_unparsable_offer_witness :
  RTC._negotiate (Some "not json") live_room = (Raised JSONDecodeError, live_room, []) /\
  trace_of (RTC._listen
              [mkStream ["event: offer"; "data: not json"; "event: left"; "data: {}"] false]
              live_room)
    = [Http GetEvents; Log Debug "Event stream started"; Log Debug "Event: %s";
       Log Error "Event stream error: %s"].
Proof.
  split.
  - apply (proj1 (proj2 (negotiate_raises_on_unparsable_offer
                           RoomRecorder.RecordingHandler live_room))).
    reflexivity.
  - rewrite (proj2 (proj2 (proj2 (negotiate_raises_on_unparsable_offer
                                    RoomRecorder.RecordingHandler live_room)))
               "data: not json" ["event: left"; "data: {}"] false []);
      reflexivity.
Defined.

(** ** Connecting *)

Section ConnectFacts.

Context {PC Ext : Type} `{PeerConnection PC} `{Library}.

(** What every run of the body of `connect` shows: it does not write the
    "Failed to connect" line itself, it schedules the event loop only on
    the way to a normal return, and it sends the permission check and
    the offer at most once each, in that order. *)
Lemma connect_body_shape (s : RTC.t PC Ext) :
  let r := RTC.connect_body s in
  logs_failure (trace_of r) = false /\
  (listen_scheduled (trace_of r) = true -> outcome_of r = Ok tt) /\
  (requests (trace_of r) = [] \/
   requests (trace_of r) = [PostIsAllowNegotiate] \/
   exists body, requests (trace_of r) = [PostIsAllowNegotiate; PutNegotiate body]).
Proof.
  unfold RTC.connect_body, bind, try_except, RTC.with_pc, RTC.pc_attr, RTC.http, tell,
    RTC.resp_body, RTC.lift, ret, raise, diverge, gets.
  cbv beta iota zeta.
  repeat (case_step; cbv beta iota zeta; cbn [RTC.pc RTC.set_pc RTC._listened]).
  all: unfold trace_of, outcome_of; simpl.
  all: split; [reflexivity | split; [intros Hx; try discriminate Hx; reflexivity |]].
  all: try (left; reflexivity); try (right; left; reflexivity);
    right; right; eexists; reflexivity.
Qed.

Lemma connect_trace (s : RTC.t PC Ext) :
  trace_of (RTC.connect s) =
    trace_of (RTC.connect_body s)
      ++ match outcome_of (RTC.connect_body s) with
         | Raised _ => [Log Error "Failed to connect: %s"]
         | _ => []
         end.
Proof.
  unfold RTC.connect, try_except, tell.
  destruct (RTC.connect_body s) as [[[[] | e | ] s'] tr];
    unfold trace_of, outcome_of; simpl; rewrite ?app_nil_r; reflexivity.
Qed.

Lemma connect_rejected (s : RTC.t PC Ext) (p p' : PC) (resp : Response) :
  RTC.pc s = Some p ->
  createDataChannel "ignore" p = (Ok tt, p') ->
  http_send PostIsAllowNegotiate = Ok resp ->
  (299 < status_code resp)%Z ->
  RTC.connect s =
    (Ok tt, RTC.set_pc (Some p') s,
     [PcCall (PcCreateDataChannel "ignore");
      PcCall (PcOn "negotiationneeded");
      PcCall (PcOn "iceconnectionstatechange");
      PcCall (PcOn "connectionstatechange");
      Http PostIsAllowNegotiate]
       ++ match resp_json resp with
          | Some _ => [Log Error "Failed to check if negotiation is allowed: %s"]
          | None => []
          end
       ++ [Log Error "Failed to connect: %s"]).
Proof.
  intros Hpc Hdc Hresp Hstatus.
  apply Z.ltb_lt in Hstatus.
  unfold RTC.connect, RTC.connect_body, bind, try_except, RTC.with_pc, RTC.http, tell,
    RTC.resp_body, ret, raise.
  cbv beta iota zeta. rewrite Hpc, Hdc. cbv beta iota. rewrite Hresp, Hstatus.
  destruct (resp_json resp); reflexivity.
Qed.

End ConnectFacts.

(** C5, as stated, fails: with a hub that answers 403 to the permission
    check, `connect()` on the session of room "room1" does not raise. *)
Lemma rejected_connect_returns :
  http_send (Library := Sample.refusing_library) PostIsAllowNegotiate
    = Ok (mkResponse 403 (Some (JObj [("message", JStr "forbidden")]))) /\
  ~ (exists e, outcome_of (RTC.connect (H0 := Sample.refusing_library) room1) = Raised e).
Proof.
  split; [reflexivity |]. intros [e He]. vm_compute in He. discriminate He.
Qed.

(** C5 (amended): `connect()` never raises to its caller.  When the hub
    rejects the permission check (status above 299) it logs the failure
    and returns: only the data channel and the handlers were set up, one
    request was sent, no offer was created, no description set and the
    event loop not started.  Whenever `connect()` logs a failure the event
    loop has not been started, and in every run no request is sent twice. *)
Theorem connect_reports_by_logging {PC Ext : Type} `{PeerConnection PC} `{Library}
        (s : RTC.t PC Ext) :
  (forall e, outcome_of (RTC.connect s) <> Raised e) /\
  (forall p p' resp,
      RTC.pc s = Some p ->
      createDataChannel "ignore" p = (Ok tt, p') ->
      http_send PostIsAllowNegotiate = Ok resp ->
      (299 < status_code resp)%Z ->
      RTC.connect s =
        (Ok tt, RTC.set_pc (Some p') s,
         [PcCall (PcCreateDataChannel "ignore");
          PcCall (PcOn "negotiationneeded");
          PcCall (PcOn "iceconnectionstatechange");
          PcCall (PcOn "connectionstatechange");
          Http PostIsAllowNegotiate]
           ++ match resp_json resp with
              | Some _ => [Log Error "Failed to check if negotiation is allowed: %s"]
              | None => []
              end
           ++ [Log Error "Failed to connect: %s"])) /\
  (logs_failure (trace_of (RTC.connect s)) = true ->
   listen_scheduled (trace_of (RTC.connect s)) = false) /\
  NoDup (requests (trace_of (RTC.connect s))).
Proof.
  split; [| split; [| split]].
  - intros e. unfold RTC.connect, try_except, tell.
    destruct (RTC.connect_body s) as [[[[] | e' | ] s'] tr];
      unfold outcome_of; simpl; discriminate.
  - intros p p' resp. apply connect_rejected.
  - rewrite connect_trace.
    destruct (connect_body_shape s) as (Hlog & Hlisten & _).
    destruct (outcome_of (RTC.connect_body s)) as [[] | e | ] eqn:Hout.
    + rewrite app_nil_r, Hlog. discriminate.
    + intros _.
      destruct (listen_scheduled (trace_of (RTC.connect_body s))) eqn:Hsched.
      * discriminate (Hlisten eq_refl).
      * unfold listen_scheduled in *. rewrite existsb_app, Hsched. reflexivity.
    + rewrite app_nil_r, Hlog. discriminate.
  - rewrite connect_trace.
    destruct (connect_body_shape s) as (_ & _ & Hreq).
    unfold requests in *. rewrite flat_map_app.
    replace (flat_map _ match outcome_of (RTC.connect_body s) with
                        | Raised _ => [Log Error "Failed to connect: %s"]
                        | _ => []
                        end) with (@nil Request)
      by (destruct (outcome_of (RTC.connect_body s)); reflexivity).
    rewrite app_nil_r.
    destruct Hreq as [-> | [-> | [body ->]]].
    + constructor.
    + constructor; [intros [] | constructor].
    + constructor; [| constructor; [intros [] | constructor]].
      intros [Habs | []]. discriminate Habs.
Qed.

Lemma connect_reports_by_logging_witness :
  trace_of (RTC.connect (H0 := Sample.refusing_library) room1) =
    [PcCall (PcCreateDataChannel "ignore");
     PcCall (PcOn "negotiationneeded");
     PcCall (PcOn "iceconnectionstatechange");
     PcCall (PcOn "connectionstatechange");
     Http PostIsAllowNegotiate;
     Log Error "Failed to check if negotiation is allowed: %s";
     Log Error "Failed to connect: %s"] /\
  listen_scheduled (trace_of (RTC.connect (H0 := Sample.refusing_library) room1)) = false.
Proof.
  split.
  - rewrite (proj1 (proj2 (connect_reports_by_logging
                             (H0 := Sample.refusing_library) room1))
               Sample.fresh_engine Sample.fresh_engine
               (mkResponse 403 (Some (JObj [("message", JStr "forbidden")]))));
      reflexivity.
  - apply (proj1 (proj2 (proj2 (connect_reports_by_logging
                                   (H0 := Sample.refusing_library) room1)))).
    reflexivity.
Defined.

(** ** The registry *)


Lemma dict_get_absent V (k : string) (d : Dict.t V) :
  ~ In k (Dict.keys d) -> Dict.get k d = None.
Proof.
  induction d as [| [k' v'] d IH]; simpl; intros Hk; [reflexivity |].
  destruct (String.eqb k k') eqn:Heq.
  - apply String.eqb_eq in Heq. exfalso. apply Hk. left. symmetry. exact Heq.
  - apply IH. intros Hin. apply Hk. right. exact Hin.
Qed.


Lemma quiet_hooks (tr : list Effect) :
  quiet tr = true -> RecorderManager.hooks_of tr = [].
Proof.
  unfold quiet, RecorderManager.hooks_of. induction tr as [| e tr IH]; simpl; intros Hq.
  - reflexivity.
  - apply andb_true_iff in Hq. destruct Hq as [He Hq].
    destruct e; try discriminate He; simpl; auto.
Qed.

Lemma quiet_closes (tr : list Effect) :
  quiet tr = true -> closes tr = [].
Proof.
  unfold quiet, closes. induction tr as [| e tr IH]; simpl; intros Hq.
  - reflexivity.
  - apply andb_true_iff in Hq. destruct Hq as [He Hq].
    destruct e; try discriminate He; simpl; auto.
Qed.

Section CloseShape.

Context {PC Ext : Type} `{PeerConnection PC}.
Context (handler : RTC.TrackHandler (PC := PC) (Ext := Ext)).
Hypothesis Hquiet : cleanup_quiet handler.

Lemma hooks_of_app (a b : list Effect) :
  RecorderManager.hooks_of (a ++ b)
    = RecorderManager.hooks_of a ++ RecorderManager.hooks_of b.
Proof. unfold RecorderManager.hooks_of. apply flat_map_app. Qed.

Lemma closes_app (a b : list Effect) : closes (a ++ b) = closes a ++ closes b.
Proof. unfold closes. apply flat_map_app. Qed.

(** `close()` from the clean-up hook on, the transport being dealt with. *)
Lemma close_tail (s : RTC.t PC Ext) :
  let r := (RTC._on_close ;; RTC.emit "ended" ;; RTC.remove_all_listeners ;;
            tell (Log Debug "Agent closed %s")) s in
  (outcome_of r = Ok tt /\
   RecorderManager.hooks_of (trace_of r) = hooked_rooms (RTC.listeners_of "ended" s) /\
   closes (trace_of r) = []) \/
  (outcome_of r <> Ok tt /\
   RecorderManager.hooks_of (trace_of r) = [] /\
   closes (trace_of r) = []).
Proof.
  destruct (Hquiet s) as (o & e & tr & Hrun & Hq).
  unfold bind. cbv zeta beta. rewrite Hrun.
  destruct o as [[] | x | ].
  - left. unfold RTC.emit, RTC.remove_all_listeners, bind, modify, tell.
    unfold outcome_of, trace_of. simpl.
    split; [reflexivity |].
    rewrite hooks_of_app, closes_app, (quiet_hooks tr Hq), (quiet_closes tr Hq).
    unfold RTC.listeners_of. simpl. rewrite app_nil_r.
    split; reflexivity.
  - right. unfold outcome_of, trace_of. simpl.
    split; [discriminate | split; [apply quiet_hooks | apply quiet_closes]]; exact Hq.
  - right. unfold outcome_of, trace_of. simpl.
    split; [discriminate | split; [apply quiet_hooks | apply quiet_closes]]; exact Hq.
Qed.

(** `close()` is the call on the transport followed by that tail. *)
Lemma close_run (s : RTC.t PC Ext) :
  let tail := (RTC._on_close ;; RTC.emit "ended" ;; RTC.remove_all_listeners ;;
               tell (Log Debug "Agent closed %s")) in
  RTC.close s =
    match RTC.pc s with
    | Some p =>
        match pc_close p with
        | (Ok _, _) =>
            (outcome_of (tail (RTC.set_pc None s)), state_of (tail (RTC.set_pc None s)),
             PcCall PcClose :: trace_of (tail (RTC.set_pc None s)))
        | (Raised e, p') => (Raised e, RTC.set_pc (Some p') s, [PcCall PcClose])
        | (Diverged, p') => (Diverged, RTC.set_pc (Some p') s, [PcCall PcClose])
        end
    | None => (outcome_of (tail s), state_of (tail s), trace_of (tail s))
    end.
Proof.
  cbv zeta. unfold RTC.close, bind, get, RTC.with_pc, modify, ret. cbv beta iota.
  destruct (RTC.pc s) as [p |] eqn:Hpc.
  - rewrite Hpc. destruct (pc_close p) as [o p'] eqn:Hclose.
    destruct o as [[] | e | ]; [| reflexivity | reflexivity].
    cbv beta iota.
    replace (RTC.set_pc None (RTC.set_pc (Some p') s)) with (RTC.set_pc None s)
      by reflexivity.
    destruct (RTC._on_close (RTC.set_pc None s)) as [[o s1] tr1].
    destruct o as [[] | e | ]; reflexivity.
  - destruct (RTC._on_close s) as [[o s1] tr1].
    destruct o as [[] | e | ]; reflexivity.
Qed.

(** What a run of `close()` shows to the registry: when it returns, one
    emission of "ended" to the listeners of the session; when it does
    not, no emission. *)
Lemma close_shape (s : RTC.t PC Ext) :
  (outcome_of (RTC.close s) = Ok tt /\
   RecorderManager.hooks_of (trace_of (RTC.close s))
     = hooked_rooms (RTC.listeners_of "ended" s) /\
   closes (trace_of (RTC.close s)) = []) \/
  (outcome_of (RTC.close s) <> Ok tt /\
   RecorderManager.hooks_of (trace_of (RTC.close s)) = [] /\
   closes (trace_of (RTC.close s)) = []).
Proof.
  rewrite close_run. cbv zeta.
  destruct (RTC.pc s) as [p |] eqn:Hpc.
  - destruct (pc_close p) as [o p'] eqn:Hclose. destruct o as [[] | e | ].
    + pose proof (close_tail (RTC.set_pc None s)) as Htail. cbv zeta in Htail.
      change (RTC.listeners_of "ended" (RTC.set_pc None s))
        with (RTC.listeners_of "ended" s) in Htail.
      unfold outcome_of at 1 3. unfold trace_of at 1 3 5 7. simpl fst. simpl snd.
      exact Htail.
    + right. unfold outcome_of, trace_of. simpl.
      split; [discriminate | split; reflexivity].
    + right. unfold outcome_of, trace_of. simpl.
      split; [discriminate | split; reflexivity].
  - pose proof (close_tail s) as Htail. cbv zeta in Htail.
    unfold outcome_of at 1 3. unfold trace_of at 1 3 5 7. simpl fst. simpl snd.
    exact Htail.
Qed.

End CloseShape.

Section RegistryFacts.

Context {PC : Type} `{PeerConnection PC} `{Library}.





End RegistryFacts.




(** * Further properties *)

Unset Implicit Arguments.

(** ** Recorder and writer *)

Lemma start_tracks_started (f : string) (l : list (RelayTrack * MediaRecorder.Context)) :
  MediaRecorder.start_tracks f (fst (MediaRecorder.start_tracks f l))
    = (fst (MediaRecorder.start_tracks f l), []).
Proof.
  induction l as [| [k c] l IH]; simpl; [reflexivity |].
  destruct (MediaRecorder.start_tracks f l) as [l' tr] eqn:Hl. simpl in IH.
  destruct (MediaRecorder.task c) eqn:Hc; simpl; rewrite ?Hc, IH; reflexivity.
Qed.

Lemma start_with_track (r : Recorder.t) :
  has_track r = true ->
  Recorder.start r =
    (Ok tt,
     Recorder.set_flags true false
       (Recorder.set_recorder (state_of (MediaRecorder.start (Recorder._recorder r))) r),
     trace_of (MediaRecorder.start (Recorder._recorder r))
       ++ [Log Debug "Recorder started at %s"]).
Proof.
  unfold has_track, Recorder.start, bind, get. cbv beta iota.
  destruct (Recorder.audio_track r), (Recorder.video_track r); try discriminate;
    intros _; rewrite writer_run; unfold MediaRecorder.start;
    destruct (MediaRecorder.start_tracks _ _); reflexivity.
Qed.

Lemma start_without_track (r : Recorder.t) :
  has_track r = false ->
  Recorder.start r = (Raised (PyException "No tracks to record"), r, []).
Proof.
  unfold has_track, Recorder.start, bind, get. cbv beta iota.
  destruct (Recorder.audio_track r), (Recorder.video_track r); try discriminate.
  reflexivity.
Qed.

(** X1: `start()` twice in a row spawns every encoder task once: on the
    recorder left by a first `start()`, a second one returns, makes no
    call on the writer and changes nothing. *)
Theorem start_again_spawns_nothing (r : Recorder.t) :
  has_track r = true ->
  let r1 := state_of (Recorder.start r) in
  Recorder.start r1 = (Ok tt, r1, [Log Debug "Recorder started at %s"]).
Proof.
  intros Ht r1. subst r1. rewrite (start_with_track r Ht).
  unfold state_of. simpl fst. simpl snd.
  rewrite start_with_track by exact Ht.
  unfold MediaRecorder.start, state_of, trace_of. simpl.
  destruct (MediaRecorder.start_tracks (MediaRecorder.file (Recorder._recorder r))
              (MediaRecorder.tracks (Recorder._recorder r))) as [l tr] eqn:Hl.
  simpl.
  pose proof (start_tracks_started (MediaRecorder.file (Recorder._recorder r))
                (MediaRecorder.tracks (Recorder._recorder r))) as Hagain.
  rewrite Hl in Hagain. simpl in Hagain. rewrite Hagain. reflexivity.
Qed.

Lemma start_again_spawns_nothing_witness :
  writer_calls (trace_of (Recorder.start running_recorder)) = [].
Proof.
  change running_recorder
    with (state_of (Recorder.start
                      (final_state [Recorder.AddAudio mic_proxy] fresh_recorder))).
  rewrite (start_again_spawns_nothing
             (final_state [Recorder.AddAudio mic_proxy] fresh_recorder));
    reflexivity.
Defined.

Lemma add_track_run (t : RelayTrack) (r : Recorder.t) :
  let w := Recorder._recorder r in
  let codec := MediaRecorder.codec_for (MediaRecorder.format_name w) (relay_kind t) in
  let w' := MediaRecorder.set_tracks
              (MediaRecorder.tracks_set t (MediaRecorder.mkContext false codec false)
                 (MediaRecorder.tracks w)) w in
  (Recorder.add_audio_track t r =
     if MediaRecorder.container w
     then (Ok tt, Recorder.set_recorder w' (Recorder.set_audio_track (Some t) r),
           [AvAddStream (MediaRecorder.file w) codec])
     else (Raised AttributeError, Recorder.set_audio_track (Some t) r, [])) /\
  (Recorder.add_video_track t r =
     if MediaRecorder.container w
     then (Ok tt, Recorder.set_recorder w' (Recorder.set_video_track (Some t) r),
           [AvAddStream (MediaRecorder.file w) codec])
     else (Raised AttributeError, Recorder.set_video_track (Some t) r, [])).
Proof.
  intros w codec w'. subst w w' codec.
  unfold Recorder.add_audio_track, Recorder.add_video_track, bind, modify.
  cbv beta iota. rewrite !writer_run.
  unfold MediaRecorder.addTrack, bind, get. cbv beta iota. simpl.
  destruct (MediaRecorder.container (Recorder._recorder r)) eqn:Hc; simpl;
    unfold Recorder.set_recorder, Recorder.set_audio_track, Recorder.set_video_track;
    simpl; split; reflexivity.
Qed.

Lemma tracks_set_keys (k : RelayTrack) (c : MediaRecorder.Context)
      (l : list (RelayTrack * MediaRecorder.Context)) :
  In (proxy_no k) (map (fun p => proxy_no (fst p)) (MediaRecorder.tracks_set k c l)) /\
  forall n, In n (map (fun p => proxy_no (fst p)) l) ->
            In n (map (fun p => proxy_no (fst p)) (MediaRecorder.tracks_set k c l)).
Proof.
  induction l as [| [k' c'] l [IH1 IH2]]; simpl.
  - split; [left; reflexivity | intros n []].
  - destruct (Nat.eqb (proxy_no k) (proxy_no k')) eqn:Hk; simpl.
    + apply Nat.eqb_eq in Hk. split; [left; symmetry; exact Hk | auto].
    + split; [right; exact IH1 |]. intros n [Hn | Hn]; [left; exact Hn | right; auto].
Qed.

(** X2: binding a second audio track overwrites the recorder's
    `audio_track`, but the writer keeps both: on a recorder whose
    container is open, `add_audio_track(t1)` then `add_audio_track(t2)`
    return, add two streams to the container, leave `audio_track` on t2
    and both tracks registered with the writer. *)
Theorem second_audio_track_keeps_first (r : Recorder.t) (t1 t2 : RelayTrack) :
  MediaRecorder.container (Recorder._recorder r) = true ->
  let run := (Recorder.add_audio_track t1 ;; Recorder.add_audio_track t2) r in
  outcome_of run = Ok tt /\
  Recorder.audio_track (state_of run) = Some t2 /\
  List.length (writer_calls (trace_of run)) = 2 /\
  In (proxy_no t1) (track_keys (Recorder._recorder (state_of run))) /\
  In (proxy_no t2) (track_keys (Recorder._recorder (state_of run))).
Proof.
  intros Hopen run. subst run. unfold bind.
  destruct (add_track_run t1 r) as [Ha1 _]. cbv zeta in Ha1. rewrite Hopen in Ha1.
  rewrite Ha1.
  match goal with
  | |- context [Recorder.add_audio_track t2 ?r1] =>
      destruct (add_track_run t2 r1) as [Ha2 _]; cbv zeta in Ha2;
      simpl in Ha2; rewrite Hopen in Ha2; rewrite Ha2
  end.
  unfold outcome_of, state_of, trace_of, track_keys. simpl.
  split; [reflexivity | split; [reflexivity | split; [reflexivity | split]]].
  - apply (proj2 (tracks_set_keys _ _ _)). apply (proj1 (tracks_set_keys _ _ _)).
  - apply (proj1 (tracks_set_keys _ _ _)).
Qed.

Lemma second_audio_track_keeps_first_witness :
  let run := (Recorder.add_audio_track mic_proxy ;;
              Recorder.add_audio_track (mkRelayTrack 2 mic)) fresh_recorder in
  Recorder.audio_track (state_of run) = Some (mkRelayTrack 2 mic) /\
  track_keys (Recorder._recorder (state_of run)) = [0; 2].
Proof.
  split.
  - apply (second_audio_track_keeps_first fresh_recorder mic_proxy (mkRelayTrack 2 mic)).
    reflexivity.
  - reflexivity.
Defined.

Section FinishedFacts.

Context `{Library}.

(** Every operation keeps [finished_when_stopped]. *)
Lemma apply_finished (o : Recorder.Op) (r : Recorder.t) :
  finished_when_stopped r -> finished_when_stopped (state_of (Recorder.apply o r)).
Proof.
  unfold finished_when_stopped. intros [Hs Hc].
  destruct o as [t | t | | ]; simpl.
  - destruct (add_track_run t r) as [Ha _]. cbv zeta in Ha. rewrite Ha.
    destruct (MediaRecorder.container (Recorder._recorder r)) eqn:Hopen;
      unfold state_of; simpl.
    + split; [intros Hst; specialize (Hs Hst); discriminate Hs | rewrite Hopen; discriminate].
    + rewrite ?Hopen. split; [intros _; reflexivity | intros _; apply Hc; reflexivity].
  - destruct (add_track_run t r) as [_ Hv]. cbv zeta in Hv. rewrite Hv.
    destruct (MediaRecorder.container (Recorder._recorder r)) eqn:Hopen;
      unfold state_of; simpl.
    + split; [intros Hst; specialize (Hs Hst); discriminate Hs | rewrite Hopen; discriminate].
    + rewrite ?Hopen. split; [intros _; reflexivity | intros _; apply Hc; reflexivity].
  - destruct (has_track r) eqn:Ht.
    + rewrite (start_with_track r Ht). unfold state_of, MediaRecorder.start. simpl.
      destruct (MediaRecorder.start_tracks (MediaRecorder.file (Recorder._recorder r))
                  (MediaRecorder.tracks (Recorder._recorder r))) as [l tr] eqn:Hl.
      simpl. split; [discriminate |].
      intros Hclosed. specialize (Hc Hclosed). rewrite Hc in Hl. simpl in Hl.
      inversion Hl. reflexivity.
    + rewrite (start_without_track r Ht). split; assumption.
  - destruct (running r) eqn:Hrun; [| rewrite (stop_idle r Hrun); split; assumption].
    destruct (writer_stop_state (Recorder._recorder r)) as [Hgood Hbad].
    destruct (outcome_of (MediaRecorder.stop (Recorder._recorder r)))
      as [[] | e | ] eqn:Hw.
    + rewrite (stop_running r Hrun Hw). unfold state_of at 1 3. simpl.
      destruct (Hgood eq_refl) as [Hclosed Hopen].
      split; [intros _; exact Hclosed |]. intros _.
      destruct (MediaRecorder.container (Recorder._recorder r)) eqn:Hcont.
      * apply (proj1 (Hopen eq_refl)).
      * unfold MediaRecorder.stop. rewrite Hcont. apply Hc. reflexivity.
    + rewrite (stop_failing r Hrun) by (rewrite Hw; discriminate).
      assert (Hne : Raised (A := unit) e <> Ok tt) by discriminate.
      destruct (Hbad Hne) as [_ Hstill]. unfold state_of at 1 3. simpl.
      split; [| intros Hx; rewrite Hstill in Hx; discriminate Hx].
      intros Hst. unfold running, Recorder.is_started, Recorder.is_stopped in Hrun.
      unfold Recorder.is_stopped in Hst. simpl in Hst.
      rewrite Hst, andb_false_r in Hrun. discriminate Hrun.
    + rewrite (stop_failing r Hrun) by (rewrite Hw; discriminate).
      assert (Hne : Diverged (A := unit) <> Ok tt) by discriminate.
      destruct (Hbad Hne) as [_ Hstill]. unfold state_of at 1 3. simpl.
      split; [| intros Hx; rewrite Hstill in Hx; discriminate Hx].
      intros Hst. unfold running, Recorder.is_started, Recorder.is_stopped in Hrun.
      unfold Recorder.is_stopped in Hst. simpl in Hst.
      rewrite Hst, andb_false_r in Hrun. discriminate Hrun.
Qed.

Lemma states_finished (ops : list Recorder.Op) :
  forall r, finished_when_stopped r ->
            Forall finished_when_stopped (Recorder.states ops r).
Proof.
  induction ops as [| o ops IH]; intros r Hr; simpl.
  - constructor; [exact Hr | constructor].
  - constructor; [exact Hr | apply IH, apply_finished, Hr].
Qed.

End FinishedFacts.

(** X3: a stopped recorder is finished.  In every state a new recorder
    reaches under add-track/start/stop operations, if the stopped flag is
    set then binding a track raises AttributeError (after overwriting the
    attribute), and `start()` makes no call on the writer: if it returns,
    the flags say started but no encoder task runs. *)
Theorem stopped_recorder_is_finished `{Library} (sid path : string)
        (ops : list Recorder.Op) (r : Recorder.t) (t : RelayTrack) :
  In r (Recorder.states ops (fst (Recorder.new sid path))) ->
  Recorder.is_stopped r = true ->
  outcome_of (Recorder.add_audio_track t r) = Raised AttributeError /\
  Recorder.audio_track (state_of (Recorder.add_audio_track t r)) = Some t /\
  outcome_of (Recorder.add_video_track t r) = Raised AttributeError /\
  Recorder.video_track (state_of (Recorder.add_video_track t r)) = Some t /\
  writer_calls (trace_of (Recorder.start r)) = [].
Proof.
  intros Hin Hstopped.
  assert (Hfin : finished_when_stopped r).
  { pose proof (@states_finished _ ops (fst (Recorder.new sid path))) as Hall.
    rewrite Forall_forall in Hall. apply Hall; [| exact Hin].
    split; simpl; discriminate. }
  destruct Hfin as [Hs Hc]. specialize (Hs Hstopped). specialize (Hc Hs).
  destruct (add_track_run t r) as [Ha Hv]. cbv zeta in Ha, Hv.
  rewrite Hs in Ha, Hv. rewrite Ha, Hv.
  unfold outcome_of, state_of. simpl.
  repeat split.
  destruct (has_track r) eqn:Ht.
  - rewrite (start_with_track r Ht). unfold trace_of, MediaRecorder.start. simpl.
    rewrite Hc. reflexivity.
  - rewrite (start_without_track r Ht). reflexivity.
Qed.

Lemma stopped_recorder_is_finished_witness :
  outcome_of (Recorder.add_video_track cam_proxy stopped_recorder) = Raised AttributeError /\
  writer_calls (trace_of (Recorder.start stopped_recorder)) = [].
Proof.
  destruct (stopped_recorder_is_finished "stream0" "recordings/stream0.mp4"
              [Recorder.AddAudio mic_proxy; Recorder.Start; Recorder.Stop]
              stopped_recorder cam_proxy) as (_ & _ & Hv & _ & Hstart).
  - right. right. right. left. reflexivity.
  - reflexivity.
  - split; [exact Hv | exact Hstart].
Defined.

(** ** Recording session *)

Lemma each_recorder_prefix (f : M Recorder.t unit) (d1 d2 : Dict.t Recorder.t) :
  Forall (fun kv => outcome_of (f (snd kv)) = Ok tt) d1 ->
  RoomRecorder.each_recorder f (d1 ++ d2) =
    (outcome_of (RoomRecorder.each_recorder f d2),
     states_under f d1 ++ state_of (RoomRecorder.each_recorder f d2),
     traces_under f d1 ++ trace_of (RoomRecorder.each_recorder f d2)).
Proof.
  induction d1 as [| [k r] d1 IH]; intros Hall; simpl.
  - destruct (RoomRecorder.each_recorder f d2) as [[o d] tr]. reflexivity.
  - inversion Hall as [| ? ? Hr Hrest]; subst. simpl in Hr.
    rewrite (IH Hrest).
    destruct (f r) as [[o r'] tr]. unfold outcome_of in Hr. simpl in Hr. subst o.
    unfold state_of, trace_of. simpl. rewrite app_assoc. reflexivity.
Qed.

Lemma each_recorder_all (f : M Recorder.t unit) (d : Dict.t Recorder.t) :
  Forall (fun kv => outcome_of (f (snd kv)) = Ok tt) d ->
  RoomRecorder.each_recorder f d = (Ok tt, states_under f d, traces_under f d).
Proof.
  intros Hall. rewrite <- (app_nil_r d) at 1.
  rewrite (each_recorder_prefix f d [] Hall). simpl.
  unfold outcome_of, state_of, trace_of. simpl. rewrite !app_nil_r. reflexivity.
Qed.

Lemma start_outcome (r : Recorder.t) :
  has_track r = true -> outcome_of (Recorder.start r) = Ok tt.
Proof. intros Ht. rewrite (start_with_track r Ht). reflexivity. Qed.

(** X4: `RoomRecorder.start()` starts the recorders in the order they were
    created and stops at the first one without a track: the exception
    "No tracks to record" leaves the recorders before it started and the
    ones from it on untouched.  When every recorder has a track, all are
    started. *)
Theorem room_start_stops_at_trackless {PC : Type} `{PeerConnection PC} `{Library}
        (s : RTC.t PC RoomRecorder.Ext) :
  (Forall (fun kv => has_track (snd kv) = true) (RoomRecorder.recorders s) ->
   outcome_of (RoomRecorder.start s) = Ok tt /\
   Forall (fun kv => Recorder.is_started (snd kv) = true)
          (RoomRecorder.recorders (state_of (RoomRecorder.start s)))) /\
  (forall d1 k r d2,
      RoomRecorder.recorders s = d1 ++ (k, r) :: d2 ->
      Forall (fun kv => has_track (snd kv) = true) d1 ->
      has_track r = false ->
      outcome_of (RoomRecorder.start s) = Raised (PyException "No tracks to record") /\
      RoomRecorder.recorders (state_of (RoomRecorder.start s))
        = states_under Recorder.start d1 ++ (k, r) :: d2 /\
      Forall (fun kv => Recorder.is_started (snd kv) = true)
             (states_under Recorder.start d1)).
Proof.
  assert (Hstarted : forall d : Dict.t Recorder.t,
             Forall (fun kv => has_track (snd kv) = true) d ->
             Forall (fun kv : string * Recorder.t => Recorder.is_started (snd kv) = true)
                    (states_under Recorder.start d)).
  { intros d Hall. unfold states_under. rewrite Forall_map.
    eapply Forall_impl; [| exact Hall]. intros [k r] Ht. simpl in *.
    rewrite (start_with_track r Ht). reflexivity. }
  assert (Hok : forall d : Dict.t Recorder.t,
             Forall (fun kv => has_track (snd kv) = true) d ->
             Forall (fun kv => outcome_of (Recorder.start (snd kv)) = Ok tt) d).
  { intros d Hall. eapply Forall_impl; [| exact Hall].
    intros [k r] Ht. apply start_outcome. exact Ht. }
  split.
  - intros Hall. unfold RoomRecorder.start, RoomRecorder.for_recorders, zoom.
    rewrite (each_recorder_all Recorder.start _ (Hok _ Hall)).
    unfold outcome_of, state_of. simpl. split; [reflexivity |].
    apply Hstarted. exact Hall.
  - intros d1 k r d2 Hd Hall Hnone.
    unfold RoomRecorder.start, RoomRecorder.for_recorders, zoom. rewrite Hd.
    rewrite (each_recorder_prefix Recorder.start d1 ((k, r) :: d2) (Hok _ Hall)).
    simpl. rewrite (start_without_track r Hnone).
    unfold outcome_of, state_of. simpl.
    split; [reflexivity | split; [reflexivity | apply Hstarted; exact Hall]].
Qed.

Lemma room_start_stops_at_trackless_witness :
  outcome_of (RoomRecorder.start recording_room) = Ok tt /\
  outcome_of (RoomRecorder.start trackless_room)
    = Raised (PyException "No tracks to record").
Proof.
  split.
  - apply (proj1 (room_start_stops_at_trackless recording_room)).
    repeat constructor.
  - apply (proj2 (room_start_stops_at_trackless trackless_room) []
             "stream0" (fst (Recorder.new "stream0" "recordings/stream0.mp4")) []);
      try reflexivity.
    constructor.
Defined.

Section StopFacts.

Context `{Library}.

Lemma stop_leaves_idle (r : Recorder.t) :
  outcome_of (Recorder.stop r) = Ok tt -> running (state_of (Recorder.stop r)) = false.
Proof.
  destruct (running r) eqn:Hrun.
  - destruct (outcome_of (MediaRecorder.stop (Recorder._recorder r)))
      as [[] | e | ] eqn:Hw.
    + rewrite (stop_running r Hrun Hw). reflexivity.
    + rewrite (stop_failing r Hrun) by (rewrite Hw; discriminate).
      unfold outcome_of at 1. simpl. rewrite Hw. discriminate.
    + rewrite (stop_failing r Hrun) by (rewrite Hw; discriminate).
      unfold outcome_of at 1. simpl. rewrite Hw. discriminate.
  - rewrite (stop_idle r Hrun). intros _. exact Hrun.
Qed.

(** A `stop()` that does not return leaves the recorder running. *)
Lemma stop_keeps_running (r : Recorder.t) :
  outcome_of (Recorder.stop r) <> Ok tt ->
  running r = true /\
  running (state_of (Recorder.stop r)) = true /\
  outcome_of (Recorder.stop r) = outcome_of (MediaRecorder.stop (Recorder._recorder r)) /\
  trace_of (Recorder.stop r) = trace_of (MediaRecorder.stop (Recorder._recorder r)).
Proof.
  destruct (running r) eqn:Hrun.
  - destruct (outcome_of (MediaRecorder.stop (Recorder._recorder r)))
      as [[] | e | ] eqn:Hw.
    + rewrite (stop_running r Hrun Hw). intros Hbad. exfalso. apply Hbad. reflexivity.
    + rewrite (stop_failing r Hrun) by (rewrite Hw; discriminate). intros _.
      rewrite Hw. split; [reflexivity | split; [exact Hrun | split; reflexivity]].
    + rewrite (stop_failing r Hrun) by (rewrite Hw; discriminate). intros _.
      rewrite Hw. split; [reflexivity | split; [exact Hrun | split; reflexivity]].
  - rewrite (stop_idle r Hrun). intros Hbad. exfalso. apply Hbad. reflexivity.
Qed.

Lemma each_stop_if_running (d : Dict.t Recorder.t) :
  RoomRecorder.each_recorder RoomRecorder.stop_if_running d
    = RoomRecorder.each_recorder Recorder.stop d.
Proof.
  induction d as [| [k r] d IH]; simpl; [reflexivity |].
  rewrite stop_if_running_is_stop, IH. reflexivity.
Qed.

Lemma stopped_all_idle (d : Dict.t Recorder.t) :
  Forall (fun kv => outcome_of (Recorder.stop (snd kv)) = Ok tt) d ->
  Forall (fun kv => running (snd kv) = false) (states_under Recorder.stop d) /\
  Dict.keys (states_under Recorder.stop d) = Dict.keys d.
Proof.
  intros Hall. unfold states_under, Dict.keys. split.
  - rewrite Forall_map. eapply Forall_impl; [| exact Hall].
    intros [k r] Hok. simpl in *. apply stop_leaves_idle. exact Hok.
  - rewrite map_map. reflexivity.
Qed.

End StopFacts.

(** A loop over the recorders that returns has returned on each. *)
Lemma each_recorder_returned (f : M Recorder.t unit) (d : Dict.t Recorder.t) :
  outcome_of (RoomRecorder.each_recorder f d) = Ok tt ->
  Forall (fun kv => outcome_of (f (snd kv)) = Ok tt) d.
Proof.
  induction d as [| [k r] d IH]; simpl; intros Hok; [constructor |].
  destruct (f r) as [[o r'] tr] eqn:Hr.
  destruct o as [[] | e | ]; try (unfold outcome_of in Hok; simpl in Hok; discriminate Hok).
  destruct (RoomRecorder.each_recorder f d) as [[o2 d'] tr2].
  unfold outcome_of in *. simpl in *.
  constructor; [simpl; rewrite Hr; reflexivity | apply IH; exact Hok].
Qed.

(** The first recorder on which [f] does not return ends the loop. *)
Lemma each_recorder_stuck (f : M Recorder.t unit) (d1 d2 : Dict.t Recorder.t)
      (k : string) (r : Recorder.t) :
  Forall (fun kv => outcome_of (f (snd kv)) = Ok tt) d1 ->
  outcome_of (f r) <> Ok tt ->
  RoomRecorder.each_recorder f (d1 ++ (k, r) :: d2) =
    (outcome_of (f r),
     states_under f d1 ++ (k, state_of (f r)) :: d2,
     traces_under f d1 ++ trace_of (f r)).
Proof.
  intros Hall Hbad. rewrite (each_recorder_prefix f d1 ((k, r) :: d2) Hall). simpl.
  destruct (f r) as [[o r'] tr]. unfold outcome_of in Hbad. simpl in Hbad.
  destruct o as [[] | e | ]; [exfalso; apply Hbad; reflexivity | reflexivity | reflexivity].
Qed.

Section RoomCloseFacts.

Context {PC : Type} `{PeerConnection PC} `{Library}.

Lemma on_close_run (s : RTC.t PC RoomRecorder.Ext) :
  let run := RoomRecorder.each_recorder Recorder.stop (RoomRecorder.recorders s) in
  RoomRecorder._on_close s =
    (outcome_of run, RoomRecorder.set_recorders (state_of run) s,
     Log Debug "Recorder %s closed" :: trace_of run).
Proof.
  cbv zeta. unfold RoomRecorder._on_close, RoomRecorder.for_recorders, bind, tell, zoom.
  cbv beta iota. rewrite each_stop_if_running.
  destruct (RoomRecorder.each_recorder Recorder.stop (RoomRecorder.recorders s))
    as [[o d] tr].
  destruct o; reflexivity.
Qed.

(** The rest of `close()` once the transport is dealt with, on a
    recording session. *)
Lemma room_close_tail (s : RTC.t PC RoomRecorder.Ext) :
  let run := RoomRecorder.each_recorder Recorder.stop (RoomRecorder.recorders s) in
  let tail := (RTC._on_close ;; RTC.emit "ended" ;; RTC.remove_all_listeners ;;
               tell (Log Debug "Agent closed %s")) s in
  outcome_of tail = outcome_of run /\
  RoomRecorder.recorders (state_of tail) = state_of run /\
  (outcome_of run <> Ok tt ->
   RTC.listeners (state_of tail) = RTC.listeners s /\
   RTC.pc (state_of tail) = RTC.pc s /\
   trace_of tail = Log Debug "Recorder %s closed" :: trace_of run).
Proof.
  cbv zeta.
  pose proof (on_close_run s) as Hrun. cbv zeta in Hrun.
  assert (Htail :
            (RTC._on_close ;; RTC.emit "ended" ;; RTC.remove_all_listeners ;;
             tell (Log Debug "Agent closed %s")) s
            = match outcome_of (RoomRecorder.each_recorder Recorder.stop
                                  (RoomRecorder.recorders s)) with
              | Ok _ =>
                  (Ok tt,
                   RTC.set_listeners []
                     (RoomRecorder.set_recorders
                        (state_of (RoomRecorder.each_recorder Recorder.stop
                                     (RoomRecorder.recorders s))) s),
                   Log Debug "Recorder %s closed"
                     :: trace_of (RoomRecorder.each_recorder Recorder.stop
                                    (RoomRecorder.recorders s))
                     ++ [Emit "ended" (RTC.listeners_of "ended" s); RemoveAllListeners;
                         Log Debug "Agent closed %s"])
              | o =>
                  (o,
                   RoomRecorder.set_recorders
                     (state_of (RoomRecorder.each_recorder Recorder.stop
                                  (RoomRecorder.recorders s))) s,
                   Log Debug "Recorder %s closed"
                     :: trace_of (RoomRecorder.each_recorder Recorder.stop
                                    (RoomRecorder.recorders s)))
              end).
  { unfold bind.
    change (@RTC._on_close PC RoomRecorder.Ext RoomRecorder.RecordingHandler)
      with (RoomRecorder._on_close (PC := PC)).
    rewrite Hrun.
    destruct (RoomRecorder.each_recorder Recorder.stop (RoomRecorder.recorders s))
      as [[o d] tr].
    unfold outcome_of, state_of, trace_of. simpl.
    destruct o as [[] | e | ]; reflexivity. }
  rewrite Htail.
  destruct (RoomRecorder.each_recorder Recorder.stop (RoomRecorder.recorders s))
    as [[o d] tr].
  unfold outcome_of, state_of, trace_of. simpl.
  destruct o as [[] | e | ]; simpl.
  - split; [reflexivity | split; [reflexivity |]].
    intros Hbad. exfalso. apply Hbad. reflexivity.
  - split; [reflexivity | split; [reflexivity |]]. intros _.
    split; [reflexivity | split; reflexivity].
  - split; [reflexivity | split; [reflexivity |]]. intros _.
    split; [reflexivity | split; reflexivity].
Qed.

End RoomCloseFacts.

(** X5: `RoomRecorder.stop()` and the clean-up of `close()` stop the
    recorders in the order they were created, and stop at the first one
    whose `stop()` raises: the exception leaves the loop, the recorders
    before it are stopped, that one is still running and the ones after
    it are untouched.  When every `stop()` returns, `RoomRecorder.stop()`
    returns and leaves no recorder running, and so does a `close()` that
    returns.  A `close()` that does not return has emitted no "ended" and
    kept the listeners; when it is the clean-up that raised, the transport
    is already closed and forgotten. *)
Theorem room_close_stops_recorders {PC : Type} `{PeerConnection PC} `{Library}
        (s : RTC.t PC RoomRecorder.Ext) :
  (Forall (fun kv => outcome_of (Recorder.stop (snd kv)) = Ok tt)
          (RoomRecorder.recorders s) ->
   outcome_of (RoomRecorder.stop s) = Ok tt /\
   Forall (fun kv => running (snd kv) = false)
          (RoomRecorder.recorders (state_of (RoomRecorder.stop s))) /\
   Dict.keys (RoomRecorder.recorders (state_of (RoomRecorder.stop s)))
     = Dict.keys (RoomRecorder.recorders s)) /\
  (forall d1 k r d2,
      RoomRecorder.recorders s = d1 ++ (k, r) :: d2 ->
      Forall (fun kv => outcome_of (Recorder.stop (snd kv)) = Ok tt) d1 ->
      outcome_of (Recorder.stop r) <> Ok tt ->
      outcome_of (RoomRecorder.stop s) = outcome_of (Recorder.stop r) /\
      RoomRecorder.recorders (state_of (RoomRecorder.stop s))
        = states_under Recorder.stop d1 ++ (k, state_of (Recorder.stop r)) :: d2 /\
      Forall (fun kv => running (snd kv) = false) (states_under Recorder.stop d1) /\
      running (state_of (Recorder.stop r)) = true /\
      forall p p',
        RTC.pc s = Some p ->
        pc_close p = (Ok tt, p') ->
        outcome_of (RTC.close s) = outcome_of (Recorder.stop r) /\
        RTC.pc (state_of (RTC.close s)) = None /\
        RoomRecorder.recorders (state_of (RTC.close s))
          = states_under Recorder.stop d1 ++ (k, state_of (Recorder.stop r)) :: d2) /\
  (outcome_of (RTC.close s) = Ok tt ->
   Forall (fun kv => running (snd kv) = false)
          (RoomRecorder.recorders (state_of (RTC.close s))) /\
   Dict.keys (RoomRecorder.recorders (state_of (RTC.close s)))
     = Dict.keys (RoomRecorder.recorders s)) /\
  (outcome_of (RTC.close s) <> Ok tt ->
   emissions "ended" (trace_of (RTC.close s)) = [] /\
   RTC.listeners (state_of (RTC.close s)) = RTC.listeners s).
Proof.
  split; [| split; [| split]].
  - intros Hall. unfold RoomRecorder.stop, RoomRecorder.for_recorders, zoom.
    rewrite (each_recorder_all Recorder.stop _ Hall).
    unfold outcome_of, state_of. simpl.
    split; [reflexivity | apply stopped_all_idle; exact Hall].
  - intros d1 k r d2 Hd Hall Hbad.
    pose proof (each_recorder_stuck Recorder.stop d1 d2 k r Hall Hbad) as Hloop.
    destruct (stop_keeps_running r Hbad) as (_ & Hstill & _).
    split; [| split; [| split; [| split]]].
    + unfold RoomRecorder.stop, RoomRecorder.for_recorders, zoom.
      rewrite Hd, Hloop. reflexivity.
    + unfold RoomRecorder.stop, RoomRecorder.for_recorders, zoom.
      rewrite Hd, Hloop. reflexivity.
    + apply stopped_all_idle. exact Hall.
    + exact Hstill.
    + intros p p' Hpc Hclose.
      pose proof (@close_run _ _ _ RoomRecorder.RecordingHandler s) as Hrun.
      cbv zeta in Hrun. rewrite Hpc, Hclose in Hrun. rewrite Hrun.
      destruct (room_close_tail (RTC.set_pc None s)) as (Ho & Hrec & Hfail).
      cbv zeta in Ho, Hrec, Hfail.
      change (RoomRecorder.recorders (RTC.set_pc None s))
        with (RoomRecorder.recorders s) in Ho, Hrec, Hfail.
      rewrite Hd, Hloop in Ho, Hrec, Hfail.
      unfold outcome_of at 1. unfold state_of at 1 3. simpl fst. simpl snd.
      split; [exact Ho | split; [| exact Hrec]].
      apply (proj1 (proj2 (Hfail Hbad))).
  - intros Hok.
    pose proof (@close_run _ _ _ RoomRecorder.RecordingHandler s) as Hrun.
    cbv zeta in Hrun. rewrite Hrun in Hok |- *.
    assert (Htail : forall s' : RTC.t PC RoomRecorder.Ext,
               RoomRecorder.recorders s' = RoomRecorder.recorders s ->
               outcome_of ((RTC._on_close ;; RTC.emit "ended" ;;
                            RTC.remove_all_listeners ;;
                            tell (Log Debug "Agent closed %s")) s') = Ok tt ->
               Forall (fun kv => running (snd kv) = false)
                      (RoomRecorder.recorders
                         (state_of ((RTC._on_close ;; RTC.emit "ended" ;;
                                     RTC.remove_all_listeners ;;
                                     tell (Log Debug "Agent closed %s")) s'))) /\
               Dict.keys (RoomRecorder.recorders
                            (state_of ((RTC._on_close ;; RTC.emit "ended" ;;
                                        RTC.remove_all_listeners ;;
                                        tell (Log Debug "Agent closed %s")) s')))
                 = Dict.keys (RoomRecorder.recorders s)).
    { intros s' Hsame Hret.
      destruct (room_close_tail s') as (Ho & Hrec & _). cbv zeta in Ho, Hrec.
      rewrite Hsame in Ho, Hrec. rewrite Ho in Hret. rewrite Hrec.
      pose proof (each_recorder_returned Recorder.stop _ Hret) as Hall.
      rewrite (each_recorder_all Recorder.stop _ Hall). unfold state_of. simpl.
      apply stopped_all_idle. exact Hall. }
    destruct (RTC.pc s) as [p |].
    + destruct (pc_close p) as [[[] | e | ] p'];
        try (unfold outcome_of in Hok; simpl in Hok; discriminate Hok).
      unfold outcome_of at 1 in Hok. simpl fst in Hok.
      unfold state_of at 1 3. simpl fst. simpl snd.
      apply (Htail (RTC.set_pc None s) eq_refl Hok).
    + unfold outcome_of at 1 in Hok. simpl fst in Hok.
      unfold state_of at 1 3. simpl fst. simpl snd.
      apply (Htail s eq_refl Hok).
  - intros Hbad.
    pose proof (@close_run _ _ _ RoomRecorder.RecordingHandler s) as Hrun.
    cbv zeta in Hrun. rewrite Hrun in Hbad |- *.
    assert (Htail : forall s' : RTC.t PC RoomRecorder.Ext,
               outcome_of ((RTC._on_close ;; RTC.emit "ended" ;;
                            RTC.remove_all_listeners ;;
                            tell (Log Debug "Agent closed %s")) s') <> Ok tt ->
               emissions "ended"
                 (trace_of ((RTC._on_close ;; RTC.emit "ended" ;;
                             RTC.remove_all_listeners ;;
                             tell (Log Debug "Agent closed %s")) s')) = [] /\
               RTC.listeners
                 (state_of ((RTC._on_close ;; RTC.emit "ended" ;;
                             RTC.remove_all_listeners ;;
                             tell (Log Debug "Agent closed %s")) s'))
                 = RTC.listeners s').
    { intros s' Hfail.
      destruct (room_close_tail s') as (Ho & _ & Hstate). cbv zeta in Ho, Hstate.
      rewrite Ho in Hfail. destruct (Hstate Hfail) as (Hl & _ & Htr).
      rewrite Htr. split; [| exact Hl].
      change (Log Debug "Recorder %s closed" :: ?x)
        with ([Log Debug "Recorder %s closed"] ++ x).
      rewrite emissions_app. simpl. apply quiet_emissions.
      apply each_recorder_trace_quiet. apply stop_quiet. }
    destruct (RTC.pc s) as [p |].
    + destruct (pc_close p) as [[[] | e | ] p'];
        try (unfold trace_of, state_of; simpl; split; reflexivity).
      unfold outcome_of at 1 in Hbad. simpl fst in Hbad.
      unfold trace_of at 1. unfold state_of at 1. simpl fst. simpl snd.
      destruct (Htail (RTC.set_pc None s) Hbad) as [He Hl].
      split; [| exact Hl].
      change (PcCall PcClose :: ?x) with ([PcCall PcClose] ++ x).
      rewrite emissions_app. exact He.
    + unfold outcome_of at 1 in Hbad. simpl fst in Hbad.
      unfold trace_of at 1. unfold state_of at 1. simpl fst. simpl snd.
      apply (Htail s Hbad).
Qed.

Lemma room_close_stops_recorders_witness :
  Forall (fun kv => running (snd kv) = false)
         (RoomRecorder.recorders
            (state_of (RTC.close (state_of (RoomRecorder.start recording_room))))) /\
  emissions "ended"
    (trace_of (RTC.close
                 (H1 := RoomRecorder.RecordingHandler (H0 := Sample.diskless_library))
                 (state_of (RoomRecorder.start recording_room)))) = [] /\
  outcome_of (RoomRecorder.stop (H0 := Sample.diskless_library)
                (state_of (RoomRecorder.start recording_room))) = Raised OSError.
Proof.
  split; [| split].
  - apply (proj1 (proj2 (proj2 (room_close_stops_recorders
                                  (state_of (RoomRecorder.start recording_room)))))).
    reflexivity.
  - apply (proj2 (proj2 (proj2 (room_close_stops_recorders
                                  (H0 := Sample.diskless_library)
                                  (state_of (RoomRecorder.start recording_room)))))).
    vm_compute. discriminate.
  - destruct (proj1 (proj2 (room_close_stops_recorders
                              (H0 := Sample.diskless_library)
                              (state_of (RoomRecorder.start recording_room))))
                [] "stream0" running_recorder [])
      as (Ho & _); [reflexivity | constructor | vm_compute; discriminate |].
    rewrite Ho. reflexivity.
Defined.

Section TrackEndFacts.

Context {PC : Type} `{PeerConnection PC} `{Library}.

Lemma on_recorder_run {A : Type} (m : M Recorder.t A) (msid : string) (r : Recorder.t)
      (s : RTC.t PC RoomRecorder.Ext) :
  Dict.get msid (RoomRecorder.recorders s) = Some r ->
  RoomRecorder.on_recorder msid m s =
    (outcome_of (m r),
     RoomRecorder.set_recorders
       (Dict.set msid (state_of (m r)) (RoomRecorder.recorders s)) s,
     trace_of (m r)).
Proof.
  intros Hget. unfold RoomRecorder.on_recorder. rewrite Hget.
  destruct (m r) as [[o r'] tr]. reflexivity.
Qed.

Lemma dict_set_same V (k : string) (v : V) (d : Dict.t V) :
  Dict.get k d = Some v -> Dict.set k v d = d.
Proof.
  induction d as [| [k' v'] d IH]; simpl; [discriminate |].
  destruct (String.eqb k k') eqn:Hk.
  - intros Hv. inversion Hv. reflexivity.
  - intros Hv. rewrite (IH Hv). reflexivity.
Qed.

Lemma set_recorders_same (s : RTC.t PC RoomRecorder.Ext) :
  RoomRecorder.set_recorders (RoomRecorder.recorders s) s = s.
Proof. destruct s as [? ? ? ? ? ? ? ? ? ? [? ? ?]]. reflexivity. Qed.

Lemma track_end_run (msid : string) (r : Recorder.t) (s : RTC.t PC RoomRecorder.Ext) :
  Dict.get msid (RoomRecorder.recorders s) = Some r ->
  let s1 := RoomRecorder.set_recorders
              (Dict.set msid (state_of (Recorder.stop r)) (RoomRecorder.recorders s)) s in
  RoomRecorder.on_ended msid s =
    if running r
    then match outcome_of (Recorder.stop r) with
         | Ok _ =>
             (Ok tt, s1,
              Log Debug "Track ended" :: trace_of (Recorder.stop r)
                ++ [Emit "recording_stopped" (RTC.listeners_of "recording_stopped" s)])
         | o => (o, s1, Log Debug "Track ended" :: trace_of (Recorder.stop r))
         end
    else (Ok tt, s, [Log Debug "Track ended"]).
Proof.
  intros Hget s1. subst s1.
  unfold RoomRecorder.on_ended. unfold bind at 1. unfold tell at 1.
  unfold bind at 1. rewrite (@on_recorder_run Recorder.t get msid r s Hget).
  unfold get at 1 2 3. unfold outcome_of at 1. unfold state_of at 1.
  unfold trace_of at 1. simpl fst. simpl snd.
  rewrite (@dict_set_same _ msid r _ Hget), set_recorders_same.
  fold (running r). destruct (running r) eqn:Hrun; [| reflexivity].
  unfold bind at 1. rewrite (@on_recorder_run unit Recorder.stop msid r s Hget).
  destruct (Recorder.stop r) as [[o r'] tr].
  unfold outcome_of, state_of, trace_of. simpl.
  destruct o as [[] | e | ]; simpl; rewrite ?app_nil_r; reflexivity.
Qed.

End TrackEndFacts.

(** X6: when the tracks of one stream end, the recording is stopped once.
    The "ended" of a track whose recorder is running calls the recorder's
    `stop()`.  When that returns, the recorder is stopped,
    "recording_stopped" is emitted to the listeners of that notification,
    and a later "ended", as the one of the stream's other track, only
    logs.  When it raises, the exception leaves the handler, nothing is
    emitted and the recorder is still running.  An "ended" that finds the
    recorder not running only logs. *)
Theorem track_end_stops_recording_once {PC : Type} `{PeerConnection PC} `{Library}
        (s : RTC.t PC RoomRecorder.Ext) (msid : string) (r : Recorder.t) :
  Dict.get msid (RoomRecorder.recorders s) = Some r ->
  let first := RoomRecorder.on_ended msid s in
  (running r = true ->
   outcome_of (Recorder.stop r) = Ok tt ->
   outcome_of first = Ok tt /\
   emissions "recording_stopped" (trace_of first)
     = [RTC.listeners_of "recording_stopped" s] /\
   (exists r', Dict.get msid (RoomRecorder.recorders (state_of first)) = Some r' /\
               running r' = false) /\
   RoomRecorder.on_ended msid (state_of first)
     = (Ok tt, state_of first, [Log Debug "Track ended"])) /\
  (running r = true ->
   outcome_of (Recorder.stop r) <> Ok tt ->
   outcome_of first = outcome_of (Recorder.stop r) /\
   emissions "recording_stopped" (trace_of first) = [] /\
   (exists r', Dict.get msid (RoomRecorder.recorders (state_of first)) = Some r' /\
               running r' = true)) /\
  (running r = false ->
   first = (Ok tt, s, [Log Debug "Track ended"])).
Proof.
  intros Hget first. subst first.
  pose proof (track_end_run msid r s Hget) as Hrun1. cbv zeta in Hrun1.
  pose proof (stop_quiet r) as Hq.
  set (r' := state_of (Recorder.stop r)) in *.
  set (tr := trace_of (Recorder.stop r)) in *.
  set (s1 := RoomRecorder.set_recorders
               (Dict.set msid r' (RoomRecorder.recorders s)) s) in *.
  assert (Hget' : Dict.get msid (RoomRecorder.recorders s1) = Some r').
  { subst s1. rewrite recorders_set_recorders. apply dict_get_set_same. }
  split; [| split].
  - intros Hrun Hok. rewrite Hrun, Hok in Hrun1. rewrite Hrun1.
    pose proof (stop_leaves_idle r Hok) as Hidle. fold r' in Hidle.
    unfold outcome_of at 1. unfold state_of. unfold trace_of. simpl fst. simpl snd.
    split; [reflexivity | split; [| split]].
    + change (Log Debug "Track ended" :: ?x) with ([Log Debug "Track ended"] ++ x).
      rewrite !emissions_app, (quiet_emissions "recording_stopped" tr Hq). reflexivity.
    + exists r'. split; [exact Hget' | exact Hidle].
    + pose proof (track_end_run msid r' s1 Hget') as Hrun2. cbv zeta in Hrun2.
      rewrite Hidle in Hrun2. exact Hrun2.
  - intros Hrun Hbad. rewrite Hrun in Hrun1.
    destruct (stop_keeps_running r Hbad) as (_ & Hstill & _). fold r' in Hstill.
    assert (Hshape : RoomRecorder.on_ended msid s
                     = (outcome_of (Recorder.stop r), s1, Log Debug "Track ended" :: tr)).
    { rewrite Hrun1. destruct (outcome_of (Recorder.stop r)) as [[] | e | ];
        [exfalso; apply Hbad; reflexivity | reflexivity | reflexivity]. }
    rewrite Hshape. unfold outcome_of at 1. unfold state_of. unfold trace_of.
    simpl fst. simpl snd.
    split; [reflexivity | split].
    + change (Log Debug "Track ended" :: tr) with ([Log Debug "Track ended"] ++ tr).
      rewrite emissions_app, (quiet_emissions "recording_stopped" tr Hq). reflexivity.
    + exists r'. split; [exact Hget' | exact Hstill].
  - intros Hrun. rewrite Hrun in Hrun1. exact Hrun1.
Qed.

Lemma track_end_stops_recording_once_witness :
  let started := state_of (RoomRecorder.start recording_room) in
  let first := RoomRecorder.on_ended "stream0" started in
  emissions "recording_stopped" (trace_of first) = [[]] /\
  RoomRecorder.on_ended "stream0" (state_of first)
    = (Ok tt, state_of first, [Log Debug "Track ended"]) /\
  emissions "recording_stopped"
    (trace_of (RoomRecorder.on_ended (H0 := Sample.diskless_library) "stream0" started))
    = [].
Proof.
  intros started first.
  destruct (track_end_stops_recording_once started "stream0" running_recorder)
    as (Hfirst & _ & _); [reflexivity |].
  destruct (Hfirst eq_refl eq_refl) as (_ & Hemit & _ & Hagain).
  destruct (track_end_stops_recording_once (H0 := Sample.diskless_library)
              started "stream0" running_recorder)
    as (_ & Hfail & _); [reflexivity |].
  destruct (Hfail eq_refl ltac:(vm_compute; discriminate)) as (_ & Hnone & _).
  split; [exact Hemit | split; [exact Hagain | exact Hnone]].
Defined.

(** ** Resolving the msid of a track *)

(** X7: `get_track_msid` does not look the asked track up.  Its loop
    assigns the parameter `track_id`, so when some media section of the
    remote description has a two-part msid the result is the stream id
    of the last such section, whatever track was asked for; when none
    has, the result is None; without a remote description it is `{}`. *)
Theorem get_track_msid_ignores_track {PC : Type} `{PeerConnection PC} `{Library}
        (s : RTC.t PC RoomRecorder.Ext) (p : PC) (asked : string) :
  RTC.pc s = Some p ->
  (remoteDescription p = None ->
   RoomRecorder.get_track_msid asked s = (Ok RoomRecorder.EmptyDict, s, [])) /\
  (forall d pre x post b0 b1,
      remoteDescription p = Some d ->
      sdp_media_msids (sd_sdp d) = Ok (pre ++ x :: post) ->
      msid_parts x = Some (b0, b1) ->
      Forall (fun m => msid_parts m = None) post ->
      RoomRecorder.get_track_msid asked s = (Ok (RoomRecorder.Msid b0), s, [])) /\
  (forall d media,
      remoteDescription p = Some d ->
      sdp_media_msids (sd_sdp d) = Ok media ->
      Forall (fun m => msid_parts m = None) media ->
      RoomRecorder.get_track_msid asked s = (Ok RoomRecorder.IsNone, s, [])).
Proof.
  intros Hpc. split; [| split].
  - intros Hnone.
    unfold RoomRecorder.get_track_msid, bind, RTC.pc_attr. rewrite Hpc, Hnone.
    reflexivity.
  - intros d pre x post b0 b1 Hd Hmedia Hx Hpost.
    unfold RoomRecorder.get_track_msid, bind, RTC.pc_attr, RTC.lift.
    rewrite Hpc, Hd, Hmedia. cbv beta iota.
    destruct (@fold_msid_last pre post x b0 b1 (Dict.empty, asked) Hx Hpost)
      as (tm & -> & Hget).
    unfold ret. rewrite Hget. reflexivity.
  - intros d media Hd Hmedia Hall.
    unfold RoomRecorder.get_track_msid, bind, RTC.pc_attr, RTC.lift.
    rewrite Hpc, Hd, Hmedia. cbv beta iota.
    rewrite (@fold_msid_invalid media _ Hall). reflexivity.
Qed.

Lemma get_track_msid_ignores_track_witness :
  RoomRecorder.get_track_msid "a1" live_room
    = (Ok (RoomRecorder.Msid "stream0"), live_room, []) /\
  RoomRecorder.get_track_msid "no-such-track" live_room
    = (Ok (RoomRecorder.Msid "stream0"), live_room, []) /\
  RoomRecorder.get_track_msid "a1" room1 = (Ok RoomRecorder.EmptyDict, room1, []).
Proof.
  split; [| split].
  - destruct (get_track_msid_ignores_track live_room negotiated_engine "a1")
      as (_ & Hlast & _); [reflexivity |].
    apply (Hlast (mkSD "offer" (JStr remote_sdp)) [Some "stream0 a1"]
             (Some "stream0 v1") [] "stream0" "v1"); try reflexivity.
    constructor.
  - destruct (get_track_msid_ignores_track live_room negotiated_engine "no-such-track")
      as (_ & Hlast & _); [reflexivity |].
    apply (Hlast (mkSD "offer" (JStr remote_sdp)) [Some "stream0 a1"]
             (Some "stream0 v1") [] "stream0" "v1"); try reflexivity.
    constructor.
  - destruct (get_track_msid_ignores_track room1 Sample.fresh_engine "a1")
      as (Hempty & _); [reflexivity |].
    apply Hempty. reflexivity.
Defined.

(** X8: a track whose msid does not resolve is dropped but still counted.
    When `get_track_msid` returns None, `_handle_track` logs and returns
    without subscribing to the relay or creating a recorder, and `on_track`
    then increments the activity counter and attaches the "ended" hook as
    for a handled track. *)
Theorem unresolved_track_is_counted {PC : Type} `{PeerConnection PC} `{Library}
        (s : RTC.t PC RoomRecorder.Ext) (t : Track) :
  outcome_of (RoomRecorder.get_track_msid (track_id t) s) = Ok RoomRecorder.IsNone ->
  RoomRecorder._handle_track t s
    = (Ok tt, s, [Log Error "Track %s not found in tracks map"]) /\
  RTC.on_track t s =
    (Ok tt, RTC.set_track_count (RTC._track_count s + 1)%Z s,
     [Log Debug "Track %s received";
      Log Error "Track %s not found in tracks map";
      Log Debug "Track %d active";
      TrackOnEnded t "RTC.on_ended"]).
Proof.
  intros Hm.
  assert (Hh : RoomRecorder._handle_track t s
               = (Ok tt, s, [Log Error "Track %s not found in tracks map"])).
  { unfold RoomRecorder._handle_track. unfold bind at 1.
    rewrite get_track_msid_pure, Hm. reflexivity. }
  split; [exact Hh |].
  unfold RTC.on_track, bind, try_except, tell, modify. cbv beta iota.
  change (@RTC._handle_track PC RoomRecorder.Ext RoomRecorder.RecordingHandler t s)
    with (RoomRecorder._handle_track t s).
  rewrite Hh. reflexivity.
Qed.

Lemma unresolved_track_is_counted_witness :
  RTC._track_count (state_of (RTC.on_track mic plain_room)) = 1%Z /\
  RoomRecorder.recorders (state_of (RTC.on_track mic plain_room)) = [].
Proof.
  destruct (unresolved_track_is_counted plain_room mic) as [_ Hrun]; [reflexivity |].
  rewrite Hrun. split; reflexivity.
Defined.

(** ** Events *)

(** X9: an `event: candidate` line followed by a `data:` line carrying an
    object with `candidate`, `sdpMid` and `sdpMLineIndex` makes exactly
    one `addIceCandidate` call: the candidate string with "candidate:"
    removed, the two other fields as they came. *)
Theorem candidate_event_adds_one_candidate {PC Ext : Type} `{PeerConnection PC} `{Library}
        (handler : RTC.TrackHandler (PC := PC) (Ext := Ext))
        (s : RTC.t PC Ext) (p p' : PC) (dline : string)
        (j mid idx : JSON) (c : string) :
  RTC.pc s = Some p ->
  connectionState p <> CsClosed ->
  PyStr.startswith "data:" dline = true ->
  json_parse (PyStr.strip (PyStr.replace "data:" EmptyString dline)) = Some j ->
  RTC.getitem j "candidate" = Ok (JStr c) ->
  RTC.getitem j "sdpMid" = Ok mid ->
  RTC.getitem j "sdpMLineIndex" = Ok idx ->
  let ice := mkIce (PyStr.replace "candidate:" EmptyString c) mid idx in
  candidate_from_sdp (ice_candidate ice) = true ->
  addIceCandidate ice p = (Ok tt, p') ->
  RTC._event_handler (mkStream ["event: candidate"; dline] false) s
    = (Ok tt, RTC.set_ready (Some false) (RTC.set_pc (Some p') s),
       [Log Debug "Event stream started"; Log Debug "Event: %s";
        PcCall (PcAddIceCandidate ice); Log Debug "Event stream ended"]).
Proof.
  intros Hpc Hopen Hdata Hparse Hc Hmid Hidx ice Hvalid Hadd.
  assert (Hgone : RTC.pc_gone s = false).
  { unfold RTC.pc_gone. rewrite Hpc. destruct (connectionState p); try reflexivity.
    exfalso. apply Hopen. reflexivity. }
  unfold RTC._event_handler. unfold bind at 1. unfold tell at 1.
  unfold bind at 1. simpl stream_lines. simpl stream_breaks.
  rewrite (@event_then_data PC Ext _ _ handler s "candidate" dline [] false
             Hgone eq_refl eq_refl eq_refl Hdata).
  unfold RTC.dispatch.
  change (str_eq (Some "candidate") "offer") with false.
  change (str_eq (Some "candidate") "candidate") with true. cbv iota.
  unfold RTC.handle_candidate, bind, RTC.lift, RTC.json_loads, ret, raise, RTC.with_pc,
    tell, modify.
  rewrite Hparse. cbv beta iota. rewrite Hc. cbv beta iota.
  simpl in Hvalid. rewrite Hvalid. cbv beta iota. rewrite Hmid, Hidx. cbv beta iota.
  rewrite Hpc. fold ice. rewrite Hadd. reflexivity.
Qed.

Lemma candidate_event_adds_one_candidate_witness :
  trace_of (RTC._event_handler (mkStream ["event: candidate"; candidate_line] false)
              live_room)
    = [Log Debug "Event stream started"; Log Debug "Event: %s";
       PcCall (PcAddIceCandidate
                 (mkIce "1 1 udp 2130706431 10.0.0.1 5000 typ host"
                    (JStr "0") (JInt 0)));
       Log Debug "Event stream ended"].
Proof.
  rewrite (candidate_event_adds_one_candidate RoomRecorder.RecordingHandler
             live_room negotiated_engine negotiated_engine candidate_line
             (JObj [("candidate",
                     JStr "candidate:1 1 udp 2130706431 10.0.0.1 5000 typ host");
                    ("sdpMid", JStr "0"); ("sdpMLineIndex", JInt 0)])
             (JStr "0") (JInt 0)
             "candidate:1 1 udp 2130706431 10.0.0.1 5000 typ host");
    try reflexivity.
  discriminate.
Defined.

Lemma dict_get_set_other V (k k' : string) (v : V) (d : Dict.t V) :
  k <> k' -> Dict.get k (Dict.set k' v d) = Dict.get k d.
Proof.
  intros Hne. induction d as [| [k0 v0] rest IH]; simpl.
  - destruct (String.eqb_spec k k') as [-> | _]; [contradiction | reflexivity].
  - destruct (String.eqb_spec k' k0) as [-> | Hk0]; simpl.
    + destruct (String.eqb_spec k k0) as [-> | _]; [contradiction | reflexivity].
    + rewrite IH. reflexivity.
Qed.

Lemma recorded_other (id : string) (its : list (string * JSON)) :
  forall m, ~ In id (map fst its) -> Dict.get id (recorded its m) = Dict.get id m.
Proof.
  unfold recorded. induction its as [| [k v] rest IH]; intros m Hnot; simpl.
  - reflexivity.
  - rewrite IH.
    + apply dict_get_set_other. intros ->. apply Hnot. left. reflexivity.
    + intros Hin. apply Hnot. right. exact Hin.
Qed.

Lemma recorded_lookup (id : string) (track : JSON) (its : list (string * JSON)) :
  forall m,
    NoDup (map fst its) ->
    In (id, track) its ->
    Dict.get id (recorded its m) = Some (member track "client_id").
Proof.
  induction its as [| [k v] rest IH]; intros m Hnd Hin; [contradiction |].
  inversion Hnd as [| k0 l Hk Hnd']; subst.
  destruct Hin as [Heq | Hin].
  - inversion Heq; subst.
    change (recorded ((id, track) :: rest) m)
      with (recorded rest (Dict.set id (member track "client_id") m)).
    rewrite (recorded_other id rest _ Hk). apply dict_get_set_same.
  - change (recorded ((k, v) :: rest) m)
      with (recorded rest (Dict.set k (member v "client_id") m)).
    apply IH; assumption.
Qed.

Section TrackEventFacts.

Context {PC Ext : Type} `{PeerConnection PC} `{Library}.
Context (handler : RTC.TrackHandler (PC := PC) (Ext := Ext)).

Lemma collect_announced (its : list (string * JSON)) :
  forall (acc : list JSON) (s : RTC.t PC Ext),
    forallb (fun kv => announced (snd kv)) its = true ->
    RTC.collect_subscriptions its acc s =
      (Ok (acc ++ subscriptions its),
       RTC.set_tracks_map (recorded its (RTC.tracks_map s)) s, []).
Proof.
  induction its as [| [tid track] rest IH]; intros acc s Hall.
  - simpl. rewrite app_nil_r. destruct s. reflexivity.
  - simpl in Hall. apply andb_prop in Hall. destruct Hall as [Ha Hrest].
    unfold announced in Ha. simpl RTC.collect_subscriptions.
    unfold bind at 1. unfold RTC.lift at 1.
    destruct (RTC.getitem track "client_id") as [cid | |] eqn:Hcid; try discriminate Ha.
    destruct (RTC.getitem track "track_id") as [tid' | |] eqn:Htid; try discriminate Ha.
    cbv beta iota. unfold bind at 1. unfold modify at 1. cbv beta iota.
    unfold bind at 1. unfold RTC.lift at 1. cbv beta iota.
    unfold bind at 1. unfold RTC.lift at 1. cbv beta iota.
    rewrite (IH _ _ Hrest). simpl.
    unfold member. rewrite Hcid, Htid. rewrite <- app_assoc.
    destruct s. reflexivity.
Qed.

End TrackEventFacts.

(** X10: a `tracks_available` payload whose entries all carry `client_id`
    and `track_id` writes every entry to `tracks_map` (track id to client
    id) and sends one subscription request listing them in order; the
    branch returns when the hub answers 2xx and raises otherwise, the
    entries staying in `tracks_map` in both cases. *)
Theorem tracks_available_recorded {PC Ext : Type} `{PeerConnection PC} `{Library}
        (handler : RTC.TrackHandler (PC := PC) (Ext := Ext))
        (s : RTC.t PC Ext) (p : PC) (data : string) (j : JSON)
        (its : list (string * JSON)) (resp : Response) :
  RTC.pc s = Some p ->
  json_parse data = Some j ->
  RTC.getitem j "tracks" = Ok (JObj its) ->
  forallb (fun kv => announced (snd kv)) its = true ->
  http_send (PostSubscribeTracks (JArr (subscriptions its))) = Ok resp ->
  let r := RTC.handle_tracks_available data s in
  state_of r = RTC.set_tracks_map (recorded its (RTC.tracks_map s)) s /\
  requests (trace_of r) = [PostSubscribeTracks (JArr (subscriptions its))] /\
  outcome_of r =
    (if is_2xx (status_code resp) then Ok tt
     else Raised (PyException "Failed to subscribe tracks, status code: %s")) /\
  (NoDup (map fst its) ->
   forall id track,
     In (id, track) its ->
     Dict.get id (RTC.tracks_map (state_of r)) = Some (member track "client_id")).
Proof.
  intros Hpc Hparse Htracks Hall Hsend r.
  assert (Hr : r = (if is_2xx (status_code resp) then Ok tt
                    else Raised (PyException
                                   "Failed to subscribe tracks, status code: %s"),
                    RTC.set_tracks_map (recorded its (RTC.tracks_map s)) s,
                    [Log Debug "Tracks available"; Log Debug "client state %s";
                     Http (PostSubscribeTracks (JArr (subscriptions its)));
                     if is_2xx (status_code resp) then Log Debug "Tracks subscribed"
                     else Log Error "Failed to subscribe tracks, status code: %s"])).
  { subst r. unfold RTC.handle_tracks_available.
    unfold bind at 1. unfold tell at 1. cbv beta iota.
    unfold bind at 1. unfold RTC.lift at 1, RTC.json_loads. rewrite Hparse.
    cbv beta iota. unfold bind at 1. unfold RTC.lift at 1. rewrite Htracks.
    cbv beta iota. unfold bind at 1. unfold RTC.lift at 1. simpl RTC.items.
    cbv beta iota. unfold bind at 1.
    rewrite (@collect_announced PC Ext its [] s Hall). cbv beta iota.
    unfold bind, RTC.pc_attr, tell, RTC.http, RTC.check_2xx, raise.
    simpl RTC.pc. rewrite Hpc. cbv beta iota. simpl app at 1.
    rewrite Hsend. cbv beta iota.
    destruct (is_2xx (status_code resp)); reflexivity. }
  rewrite Hr. unfold state_of, outcome_of, trace_of. simpl fst. simpl snd.
  split; [reflexivity |]. split.
  - destruct (is_2xx (status_code resp)); reflexivity.
  - split; [reflexivity |].
    intros Hnd id track Hin. apply recorded_lookup; assumption.
Qed.

Lemma tracks_available_recorded_witness :
  Dict.get "t2"
    (RTC.tracks_map
       (state_of (RTC.handle_tracks_available available_payload live_room)))
    = Some (JStr "c2").
Proof.
  destruct (tracks_available_recorded RoomRecorder.RecordingHandler
              live_room negotiated_engine available_payload
              (JObj [("tracks", JObj available_tracks)]) available_tracks
              (mkResponse 200 (Some (JObj []))))
    as (_ & _ & _ & Hget);
    [reflexivity | reflexivity | reflexivity | reflexivity | reflexivity |].
  apply (Hget (NoDup_cons _ (fun Hin : In "t1" ["t2"] =>
                               match Hin with
                               | or_introl Heq => ltac:(discriminate Heq)
                               | or_intror Hnil => match Hnil with end
                               end)
                 (NoDup_cons _ (fun Hin : In "t2" [] => match Hin with end)
                    (NoDup_nil _)))
           "t2" (JObj [("client_id", JStr "c2"); ("track_id", JStr "t2")])).
  right. left. reflexivity.
Defined.

Section ListenFacts.

Context {PC Ext : Type} `{PeerConnection PC} `{Library}.
Context (handler : RTC.TrackHandler (PC := PC) (Ext := Ext)).

(** An exception raised by the branch of the first event of a stream ends
    `_listen`: neither the rest of the stream nor a further stream is read. *)
Lemma raising_branch_ends_listening (s s' : RTC.t PC Ext) (name dline : string)
      (rest : list string) (b : bool) (more : list EventStream)
      (e : Exn) (tr : list Effect) :
  RTC.pc_gone s = false ->
  String.eqb name "ping" = false ->
  String.eqb name "left" = false ->
  RTC.frame ("event: " ++ name)%string None = Some (Some name, None) ->
  PyStr.startswith "data:" dline = true ->
  RTC.dispatch (Some name) (PyStr.strip (PyStr.replace "data:" EmptyString dline))
               (RTC.set_listened true s) = (Raised e, s', tr) ->
  RTC._listen (mkStream (("event: " ++ name)%string :: dline :: rest) b :: more) s
    = (Ok tt, RTC.set_listened false s',
       [Http GetEvents; Log Debug "Event stream started"; Log Debug "Event: %s"]
         ++ tr ++ [Log Error "Event stream error: %s"]).
Proof.
  intros Hgone Hping Hleft Hframe Hdata Hrun.
  assert (Hgone' : RTC.pc_gone (RTC.set_listened true s) = false) by exact Hgone.
  unfold RTC._listen. unfold bind at 1. unfold modify at 1.
  unfold bind at 1. simpl RTC.listen_loop.
  unfold bind at 1. unfold get at 1. rewrite Hgone'.
  unfold bind at 1. unfold tell at 1. unfold bind at 1.
  unfold try_except. unfold bind at 1.
  unfold RTC._event_handler. unfold bind at 1. unfold tell at 1.
  unfold bind at 1. simpl stream_lines. simpl stream_breaks.
  rewrite (@event_then_data PC Ext _ _ handler (RTC.set_listened true s)
             name dline rest b Hgone' Hping Hleft Hframe Hdata).
  cbv zeta. unfold bind at 1. rewrite Hrun.
  unfold after_logs, outcome_of, state_of, trace_of, tell, bind, ret, modify. simpl.
  rewrite !app_nil_r. reflexivity.
Qed.

Lemma listen_gone (responses : list EventStream) (s : RTC.t PC Ext) :
  RTC.pc_gone s = true ->
  RTC._listen responses s = (Ok tt, RTC.set_listened false s, []).
Proof.
  intros Hgone.
  assert (Hgone' : RTC.pc_gone (RTC.set_listened true s) = true) by exact Hgone.
  unfold RTC._listen. unfold bind at 1. unfold modify at 1. unfold bind at 1.
  destruct responses as [| r rest]; simpl RTC.listen_loop;
    unfold bind at 1; unfold get at 1; rewrite Hgone'; reflexivity.
Qed.

End ListenFacts.

(** X11: when the hub answers the `settracksources` request of a
    `tracks_added` event with a status outside 200..299, the exception
    leaves the event handler and `_listen` stops for good: the lines after
    the event and the later streams are never read, and `_listened` is
    reset. *)
Theorem rejected_track_sources_end_listening {PC Ext : Type}
        `{PeerConnection PC} `{Library}
        (handler : RTC.TrackHandler (PC := PC) (Ext := Ext)) (s : RTC.t PC Ext)
        (dline : string) (j : JSON) (its : list (string * JSON)) (resp : Response)
        (rest : list string) (b : bool) (more : list EventStream) :
  RTC.pc_gone s = false ->
  PyStr.startswith "data:" dline = true ->
  json_parse (PyStr.strip (PyStr.replace "data:" EmptyString dline)) = Some j ->
  RTC.getitem j "tracks" = Ok (JObj its) ->
  http_send (PutSetTrackSources (track_sources its)) = Ok resp ->
  is_2xx (status_code resp) = false ->
  RTC._listen (mkStream ("event: tracks_added" :: dline :: rest) b :: more) s
    = (Ok tt, RTC.set_listened false s,
       [Http GetEvents; Log Debug "Event stream started"; Log Debug "Event: %s";
        Log Debug "Tracks added"; Http (PutSetTrackSources (track_sources its));
        Log Error "Failed to set track sources, status code: %s";
        Log Error "Event stream error: %s"]).
Proof.
  intros Hgone Hdata Hparse Htracks Hsend Hstatus.
  rewrite (@raising_branch_ends_listening PC Ext _ _ handler s
             (RTC.set_listened true s) "tracks_added" dline rest b more
             (PyException "Failed to set track sources, status code: %s")
             [Log Debug "Tracks added"; Http (PutSetTrackSources (track_sources its));
              Log Error "Failed to set track sources, status code: %s"]
             Hgone eq_refl eq_refl eq_refl Hdata).
  - reflexivity.
  - unfold RTC.dispatch.
    change (str_eq (Some "tracks_added") "offer") with false.
    change (str_eq (Some "tracks_added") "candidate") with false.
    change (str_eq (Some "tracks_added") "tracks_added") with true. cbv iota.
    unfold RTC.handle_tracks_added, bind, RTC.lift, RTC.json_loads, tell, RTC.http,
      RTC.check_2xx, raise.
    rewrite Hparse. cbv beta iota. rewrite Htracks. cbv beta iota.
    simpl RTC.items. cbv beta iota.
    change (JArr (map (fun p => JObj [("track_id", JStr (fst p)); ("source", JStr "media")])
                      its)) with (track_sources its).
    rewrite Hsend. cbv beta iota. rewrite Hstatus. reflexivity.
Qed.

Lemma rejected_track_sources_end_listening_witness :
  requests
    (trace_of
       (RTC._listen (H0 := strict_library)
          [mkStream ["event: tracks_added"; tracks_line;
                     "event: tracks_available"; tracks_line] false;
           mkStream ["event: left"; "data: {}"] false]
          live_room))
    = [GetEvents; PutSetTrackSources (track_sources available_tracks)].
Proof.
  rewrite (@rejected_track_sources_end_listening _ _ _ strict_library
             RoomRecorder.RecordingHandler live_room tracks_line
             (JObj [("tracks", JObj available_tracks)]) available_tracks
             (mkResponse 500 (Some (JObj [])))
             ["event: tracks_available"; tracks_line] false
             [mkStream ["event: left"; "data: {}"] false]);
    reflexivity.
Defined.

(** X12: a `left` event closes the session and ends the listening: the
    transport is closed once, "ended" reaches the listeners subscribed
    before, the rest of the stream and the later streams are not read
    (one request to the events endpoint), `ready` and `_listened` are
    False afterwards, and listening again on the closed session sends
    nothing. *)
Theorem left_event_ends_session {PC Ext : Type} `{PeerConnection PC} `{Library}
        (handler : RTC.TrackHandler (PC := PC) (Ext := Ext))
        (s : RTC.t PC Ext) (p p' : PC) (dline : string)
        (rest : list string) (b : bool) (more : list EventStream) :
  cleanup_contained handler ->
  RTC.pc s = Some p ->
  connectionState p <> CsClosed ->
  pc_close p = (Ok tt, p') ->
  PyStr.startswith "data:" dline = true ->
  exists e tr,
    quiet tr = true /\
    let s' := RTC.set_listened false
                (RTC.set_ready (Some false)
                   (RTC.set_listeners [] (RTC.set_ext e (RTC.set_pc None s)))) in
    RTC._listen (mkStream ("event: left" :: dline :: rest) b :: more) s
      = (Ok tt, s',
         [Http GetEvents; Log Debug "Event stream started"; Log Debug "Event: %s";
          PcCall PcClose]
           ++ tr
           ++ [Emit "ended" (RTC.listeners_of "ended" s); RemoveAllListeners;
               Log Debug "Agent closed %s"; Log Debug "Event stream ended"]) /\
    forall again, RTC._listen again s' = (Ok tt, s', []).
Proof.
  intros Hclean Hpc Hopen Hclose Hdata.
  assert (Hpc' : RTC.pc (RTC.set_listened true s) = Some p) by exact Hpc.
  destruct (close_live Hclean (RTC.set_listened true s) Hpc' Hclose)
    as (e & tr & Hq & Hrun).
  exists e, tr. split; [exact Hq |]. cbv zeta. split.
  - assert (Hgone' : RTC.pc_gone (RTC.set_listened true s) = false).
    { unfold RTC.pc_gone. rewrite Hpc'. destruct (connectionState p); try reflexivity.
      exfalso. apply Hopen. reflexivity. }
    unfold RTC._listen. unfold bind at 1. unfold modify at 1.
    unfold bind at 1. simpl RTC.listen_loop.
    unfold bind at 1. unfold get at 1. rewrite Hgone'.
    unfold bind at 1. unfold tell at 1. unfold bind at 1.
    unfold try_except. unfold bind at 1.
    unfold RTC._event_handler. unfold bind at 1. unfold tell at 1.
    unfold bind at 1. simpl stream_lines. simpl stream_breaks.
    rewrite (@event_loop_turn PC Ext _ _ handler (RTC.set_listened true s) p
               "event: left" (dline :: rest) b None None (Some "left") None
               Hpc' Hopen eq_refl eq_refl).
    rewrite (@event_loop_turn PC Ext _ _ handler (RTC.set_listened true s) p
               dline rest b (Some "left") None _ _
               Hpc' Hopen (data_line_not_empty dline Hdata)
               (frame_data dline (Some "left") Hdata)).
    change (str_eq (Some "left") "ping") with false.
    change (str_eq (Some "left") "left") with true. simpl negb. cbv iota.
    unfold bind at 1. unfold tell at 1. rewrite Hrun.
    unfold bind, tell, modify, ret. cbv beta iota.
    destruct more as [| r more']; simpl RTC.listen_loop; unfold bind, get, ret;
      cbv beta iota; simpl RTC.pc_gone; cbv iota; simpl;
      rewrite ?app_nil_r, <- ?app_assoc; reflexivity.
  - intros again. rewrite (@listen_gone PC Ext _ _ handler) by reflexivity. reflexivity.
Qed.

Lemma left_event_ends_session_witness :
  RTC.pc (state_of (RTC._listen
                      [mkStream ["event: left"; "data: {}"; "event: offer"; "data: {}"]
                                false;
                       mkStream ["event: offer"; "data: {}"] false]
                      live_room)) = None.
Proof.
  destruct (left_event_ends_session RoomRecorder.RecordingHandler
              live_room negotiated_engine
              (snd (Sample.engine_close negotiated_engine))
              "data: {}" ["event: offer"; "data: {}"] false
              [mkStream ["event: offer"; "data: {}"] false])
    as (e & tr & _ & Hrun & _);
    [apply recording_cleanup_contained; exact sample_writes | reflexivity | discriminate
     | reflexivity | reflexivity |].
  rewrite Hrun. reflexivity.
Defined.

(** ** Connecting *)

(** X13: `connect()` on a session whose event loop is already running
    (`_listened` is True) never schedules a second one, whatever the
    transport and the hub answer. *)
Theorem connect_while_listening_schedules_nothing {PC Ext : Type}
        `{PeerConnection PC} `{Library}
        (handler : RTC.TrackHandler (PC := PC) (Ext := Ext)) (s : RTC.t PC Ext) :
  RTC._listened s = true ->
  listen_scheduled (trace_of (RTC.connect s)) = false.
Proof.
  intros Hl.
  unfold RTC.connect, RTC.connect_body, bind, try_except, RTC.with_pc, RTC.pc_attr,
    RTC.http, tell, RTC.resp_body, RTC.lift, ret, raise, diverge, gets.
  cbv beta iota zeta.
  repeat (case_step; cbv beta iota zeta; cbn [RTC.pc RTC.set_pc RTC._listened];
          rewrite ?Hl; cbv beta iota zeta).
  all: reflexivity.
Qed.

Lemma connect_while_listening_schedules_nothing_witness :
  listen_scheduled (trace_of (RTC.connect room1)) = true /\
  listen_scheduled (trace_of (RTC.connect (RTC.set_listened true room1))) = false.
Proof.
  split; [reflexivity |].
  apply (connect_while_listening_schedules_nothing RoomRecorder.RecordingHandler).
  reflexivity.
Defined.

(** ** The registry *)

Lemma dict_remove_get_other V (k k' : string) (d : Dict.t V) :
  k <> k' -> Dict.get k (Dict.remove k' d) = Dict.get k d.
Proof.
  intros Hne. induction d as [| [k0 v0] rest IH]; simpl; [reflexivity |].
  destruct (String.eqb_spec k' k0) as [-> | Hk0]; simpl.
  - destruct (String.eqb_spec k k0) as [-> | _]; [contradiction | reflexivity].
  - rewrite IH. reflexivity.
Qed.

Lemma dict_remove_get_same V (k : string) (d : Dict.t V) :
  NoDup (Dict.keys d) -> Dict.get k (Dict.remove k d) = None.
Proof.
  induction d as [| [k0 v0] rest IH]; simpl; intros Hnd; [reflexivity |].
  inversion Hnd as [| k1 l Hk0 Hnd']; subst.
  destruct (String.eqb_spec k k0) as [-> | Hne].
  - apply dict_get_absent. exact Hk0.
  - simpl. destruct (String.eqb_spec k k0) as [-> | _]; [contradiction |].
    apply IH. exact Hnd'.
Qed.

Lemma dict_remove_keys V (k k' : string) (d : Dict.t V) :
  In k (Dict.keys (Dict.remove k' d)) -> In k (Dict.keys d).
Proof.
  induction d as [| [k0 v0] rest IH]; simpl; [intros [] |].
  destruct (String.eqb k' k0); simpl.
  - intros Hin. right. exact Hin.
  - intros [Heq | Hin]; [left; exact Heq | right; apply IH; exact Hin].
Qed.

Lemma dict_remove_nodup V (k : string) (d : Dict.t V) :
  NoDup (Dict.keys d) -> NoDup (Dict.keys (Dict.remove k d)).
Proof.
  induction d as [| [k0 v0] rest IH]; simpl; intros Hnd; [constructor |].
  inversion Hnd as [| k1 l Hk0 Hnd']; subst.
  destruct (String.eqb k k0); [exact Hnd' |].
  simpl. constructor; [| apply IH; exact Hnd'].
  intros Hin. apply Hk0. apply (@dict_remove_keys V k0 k rest Hin).
Qed.

Lemma dict_remove_get_none V (k k' : string) (d : Dict.t V) :
  Dict.get k d = None -> Dict.get k (Dict.remove k' d) = None.
Proof.
  induction d as [| [k0 v0] rest IH]; simpl; intros Hget; [reflexivity |].
  destruct (String.eqb k k0) eqn:Hk; [discriminate Hget |].
  destruct (String.eqb k' k0); [exact Hget |].
  simpl. rewrite Hk. apply IH. exact Hget.
Qed.

Section HookFacts.

Context {PC : Type} `{PeerConnection PC} `{Library}.

Lemma unhook_none (room : string) (rooms : list string) :
  forall m : RecorderManager.t PC,
    RecorderManager.get_recorder room m = None ->
    RecorderManager.get_recorder room (fold_left (fun m r => state_of (RecorderManager._on_recorder_ended r m))
                   rooms m) = None.
Proof.
  induction rooms as [| r rooms IH]; intros m Hget; simpl; [exact Hget |].
  apply IH. unfold RecorderManager.get_recorder. simpl.
  apply dict_remove_get_none. exact Hget.
Qed.

Lemma unhook_room (room : string) (rooms : list string) :
  forall m : RecorderManager.t PC,
    NoDup (Dict.keys (RecorderManager.recorders m)) ->
    In room rooms ->
    RecorderManager.get_recorder room (fold_left (fun m r => state_of (RecorderManager._on_recorder_ended r m))
                   rooms m) = None.
Proof.
  induction rooms as [| r rooms IH]; intros m Hnd Hin; [contradiction |].
  simpl. destruct (string_dec r room) as [-> | Hne].
  - apply unhook_none. unfold RecorderManager.get_recorder. simpl.
    apply dict_remove_get_same. exact Hnd.
  - apply IH.
    + simpl. apply dict_remove_nodup. exact Hnd.
    + destruct Hin as [Heq | Hin]; [contradiction | exact Hin].
Qed.

Lemma unhook_other (other : string) (rooms : list string) :
  forall m : RecorderManager.t PC,
    ~ In other rooms ->
    RecorderManager.get_recorder other (fold_left (fun m r => state_of (RecorderManager._on_recorder_ended r m))
                   rooms m)
      = RecorderManager.get_recorder other m.
Proof.
  induction rooms as [| r rooms IH]; intros m Hnot; simpl; [reflexivity |].
  rewrite IH by (intros Hin; apply Hnot; right; exact Hin).
  unfold RecorderManager.get_recorder. simpl.
  apply dict_remove_get_other. intros ->. apply Hnot. left. reflexivity.
Qed.

End HookFacts.

(** X14: when a recording session closes and `close()` returns, the
    registry hook it carries removes the entry of its room, whichever
    session is stored under that room at the time (also a newer session
    created for the same room), and leaves the entries of other rooms as
    they are. *)
Theorem ended_session_unregisters_room {PC : Type} `{PeerConnection PC} `{Library}
        (s : RTC.t PC RoomRecorder.Ext) (room : string) (m : RecorderManager.t PC) :
  NoDup (Dict.keys (RecorderManager.recorders m)) ->
  outcome_of (RTC.close s) = Ok tt ->
  In room (hooked_rooms (RTC.listeners_of "ended" s)) ->
  let m' := RecorderManager.run_hooks (trace_of (RTC.close s)) m in
  RecorderManager.get_recorder room m' = None /\
  (forall other,
      ~ In other (hooked_rooms (RTC.listeners_of "ended" s)) ->
      RecorderManager.get_recorder other m' = RecorderManager.get_recorder other m).
Proof.
  intros Hnd Hok Hin m'. subst m'. unfold RecorderManager.run_hooks.
  destruct (close_shape recording_cleanup_quiet s)
    as [(_ & Hhooks & _) | (Hbad & _)]; [| contradiction].
  rewrite Hhooks. split.
  - apply unhook_room; assumption.
  - intros other Hnot. apply unhook_other. exact Hnot.
Qed.

Lemma ended_session_unregisters_room_witness :
  RecorderManager.get_recorder "room1" first_registry = Some first_session /\
  option_map (@RTC.name _ _) (RecorderManager.get_recorder "room1" second_registry)
    = Some "bot2" /\
  RecorderManager.get_recorder "room1"
    (RecorderManager.run_hooks (trace_of (RTC.close first_session)) second_registry)
    = None.
Proof.
  split; [reflexivity | split; [reflexivity |]].
  apply (ended_session_unregisters_room first_session "room1" second_registry).
  - constructor; [intros [] | constructor].
  - reflexivity.
  - left. reflexivity.
Defined.

Section CreateFacts.

Context {PC : Type} `{PeerConnection PC} `{Library}.



End CreateFacts.



(** ** Token extraction *)

Lemma prefix_app (a b : string) : String.prefix a (a ++ b) = true.
Proof.
  induction a as [| c a IH]; simpl.
  - destruct b; reflexivity.
  - destruct (ascii_dec c c) as [_ | Hne]; [exact IH | contradiction].
Qed.

Lemma replace_absent (old new s : string) :
  PyStr.contains old s = false -> PyStr.replace old new s = s.
Proof.
  unfold PyStr.replace. induction s as [| c s IH]; intros Hno; [reflexivity |].
  change (PyStr.contains old (String c s))
    with (String.prefix old (String c s) || PyStr.contains old s) in Hno.
  apply orb_false_iff in Hno. destruct Hno as [Hhead Hrest].
  change (PyStr.replace_from 0 old new (String c s))
    with (if String.prefix old (String c s)
          then (new ++ PyStr.replace_from (String.length old - 1) old new s)%string
          else String c (PyStr.replace_from 0 old new s)).
  rewrite Hhead, (IH Hrest). reflexivity.
Qed.

(** X16: `get_token` removes the text "Bearer " wherever it stands and
    checks nothing else: for a token that does not itself contain
    "Bearer ", the header `Bearer <token>` gives the token back, and a
    header that is just that text (no scheme, or another one) is returned
    unchanged as the token. *)
Theorem get_token_strips_bearer (t : string) :
  PyStr.contains "Bearer " t = false ->
  Api.get_token (Some ("Bearer " ++ t)%string) = Some t /\
  Api.get_token (Some t) = Some t.
Proof.
  intros Hno. unfold Api.get_token. split; f_equal.
  - unfold PyStr.replace.
    change ("Bearer " ++ t)%string with (String "B" ("earer " ++ t)%string).
    change (PyStr.replace_from 0 "Bearer " EmptyString (String "B" ("earer " ++ t)%string))
      with (if String.prefix "Bearer " ("Bearer " ++ t)%string
            then (EmptyString
                    ++ PyStr.replace_from 6 "Bearer " EmptyString ("earer " ++ t)%string)%string
            else String "B" (PyStr.replace_from 0 "Bearer " EmptyString
                               ("earer " ++ t)%string)).
    rewrite prefix_app.
    change (PyStr.replace_from 0 "Bearer " EmptyString t = t).
    apply (replace_absent "Bearer " EmptyString t Hno).
  - apply (replace_absent "Bearer " EmptyString t Hno).
Qed.

Lemma get_token_strips_bearer_witness :
  Api.get_token (Some "Bearer abc.def") = Some "abc.def" /\
  Api.get_token (Some "Basic dXNlcg==") = Some "Basic dXNlcg==".
Proof.
  split.
  - apply (get_token_strips_bearer "abc.def"). reflexivity.
  - apply (get_token_strips_bearer "Basic dXNlcg=="). reflexivity.
Defined.
